(** * wallcraft-go-test-task: handlers, queries and schema, embedded in Rocq

    The development follows the layout of the repository:

    - [strings], [strconv], [errors], [json], [http]: the fragments of the Go
      standard library (and of lib/pq) that the handlers call, with the
      behaviour the handlers observe;
    - [config], [utils], [database]: the repository's packages of the same
      names ([database] is what sqlc generates from schema.sql and query.sql);
    - [handlers]: handlers/product.go, handlers/customer.go and
      handlers/invoice.go, written against the query interfaces as in Go;
    - [pg]: the tables of schema.sql and the statements of query.sql, as an
      implementation of the query interfaces over an explicit database state;
    - [main]: the routes that main.go registers, over that implementation.

    Go's [int] is 64 bits wide (the Dockerfile builds for linux on a 64-bit
    host); [int32(x)] wraps around. *)

From Stdlib Require Import ZArith String Ascii List Bool Lia DecimalString.
From Stdlib Require Import Sorting.Sorted Sorting.Permutation.
Import ListNotations.

#[local] Open Scope string_scope.
#[local] Open Scope Z_scope.
#[local] Set Warnings "-register-all".

(** ** Machine integers *)

(** [int32(x)] for a Go [int] [x]: the low 32 bits, read as a signed number. *)
Definition int32 (x : Z) : Z := (x + 2147483648) mod 4294967296 - 2147483648.

Definition in_int32 (x : Z) : Prop := -2147483648 <= x <= 2147483647.

Definition minInt64 : Z := -9223372036854775808.
Definition maxInt64 : Z := 9223372036854775807.

(** ** time.Time

    An instant, counted from Go's zero time (January 1, year 1, 00:00 UTC). *)
Module time.

Definition Time : Type := Z.

Definition IsZero (t : Time) : bool := t =? 0.

End time.

(** ** Slices

    A Go slice is either nil or a (possibly empty) sequence; the two differ
    when encoded as JSON. *)
Inductive slice (A : Type) : Type :=
| NilSlice
| Slice (l : list A).

Arguments NilSlice {A}.
Arguments Slice {A} l.

(** The elements, as [for _, x := range s] visits them. *)
Definition elems {A} (s : slice A) : list A :=
  match s with
  | NilSlice => []
  | Slice l => l
  end.

Definition append {A} (s : slice A) (x : A) : slice A := Slice (elems s ++ [x]).

(** [a == b] on Go strings. *)
Notation "a == b" := (String.eqb a b) (at level 70, no associativity).

Definition len {A} (l : list A) : Z := Z.of_nat (length l).

(** [l[i]] for an index known to be in range ([""] stands for the panic that
    the callers' bounds checks exclude). *)
Definition index (l : list string) (i : Z) : string := nth (Z.to_nat i) l "".

(** ** strings *)
Module strings.

(** [strings.Split(s, sep)] for a one-byte separator: never empty. *)
Fixpoint Split (s : string) (sep : ascii) : list string :=
  match s with
  | EmptyString => [EmptyString]
  | String c rest =>
      if Ascii.eqb c sep then EmptyString :: Split rest sep
      else match Split rest sep with
           | hd :: tl => String c hd :: tl
           | [] => [String c EmptyString]
           end
  end.

Definition byte (c : ascii) : Z := Z.of_nat (nat_of_ascii c).

(** The ASCII white space of [unicode.IsSpace]: \t \n \v \f \r and space. *)
Definition asciiSpace (c : ascii) : bool :=
  let n := byte c in ((9 <=? n) && (n <=? 13)) || (n =? 32).

(** The two-byte UTF-8 encodings of white space: U+0085 and U+00A0. *)
Definition space2 (c1 c2 : ascii) : bool :=
  (byte c1 =? 194) && ((byte c2 =? 133) || (byte c2 =? 160)).

(** The three-byte encodings: U+1680, U+2000..U+200A, U+2028, U+2029, U+202F,
    U+205F and U+3000. *)
Definition space3 (c1 c2 c3 : ascii) : bool :=
  let (a, b) := (byte c1, byte c2) in
  let c := byte c3 in
  ((a =? 225) && (b =? 154) && (c =? 128))
  || ((a =? 226) && (b =? 128)
      && (((128 <=? c) && (c <=? 138)) || (c =? 168) || (c =? 169) || (c =? 175)))
  || ((a =? 226) && (b =? 129) && (c =? 159))
  || ((a =? 227) && (b =? 128) && (c =? 128)).

(** Leading white-space runes removed. *)
Fixpoint trimLeft (s : string) : string :=
  match s with
  | EmptyString => EmptyString
  | String c1 r1 =>
      if asciiSpace c1 then trimLeft r1
      else match r1 with
           | EmptyString => s
           | String c2 r2 =>
               if space2 c1 c2 then trimLeft r2
               else match r2 with
                    | EmptyString => s
                    | String c3 r3 => if space3 c1 c2 c3 then trimLeft r3 else s
                    end
           end
  end.

(** Trailing white-space runes removed; [l] is the string's bytes, last first. *)
Fixpoint trimRightRev (l : list ascii) : list ascii :=
  match l with
  | [] => []
  | c1 :: r1 =>
      if asciiSpace c1 then trimRightRev r1
      else match r1 with
           | [] => l
           | c2 :: r2 =>
               if space2 c2 c1 then trimRightRev r2
               else match r2 with
                    | [] => l
                    | c3 :: r3 => if space3 c3 c2 c1 then trimRightRev r3 else l
                    end
           end
  end.

Definition trimRight (s : string) : string :=
  string_of_list_ascii (rev (trimRightRev (rev (list_ascii_of_string s)))).

(** [strings.TrimSpace]. *)
Definition TrimSpace (s : string) : string := trimRight (trimLeft s).

End strings.

(** ** strconv *)
Module strconv.

Definition digit (c : ascii) : option Z :=
  let n := strings.byte c in
  if (48 <=? n) && (n <=? 57) then Some (n - 48) else None.

Fixpoint digits (acc : Z) (s : string) : option Z :=
  match s with
  | EmptyString => Some acc
  | String c rest =>
      match digit c with
      | Some d => digits (acc * 10 + d) rest
      | None => None
      end
  end.

(** [strconv.Atoi]: an optional sign, then one or more decimal digits, the
    value within the range of [int]; [None] is a non-nil error. *)
Definition Atoi (s : string) : option Z :=
  match s with
  | EmptyString => None
  | String c rest =>
      let neg := Ascii.eqb c "-" in
      let body := if neg || Ascii.eqb c "+" then rest else s in
      match body with
      | EmptyString => None
      | _ =>
          match digits 0 body with
          | Some n =>
              let v := if neg then - n else n in
              if (minInt64 <=? v) && (v <=? maxInt64) then Some v else None
          | None => None
          end
      end
  end.

End strconv.

(** ** Errors

    The error values that reach the handlers: [sql.ErrNoRows], a [*pq.Error]
    (of which the handlers read [Code] and [Constraint]), any other error,
    and an error wrapping another. *)
Module errors.

Record pq_Error : Type := {
  Code : string;       (* the SQLSTATE *)
  Constraint : string  (* the constraint's name, or [""] *)
}.

Inductive error : Type :=
| ErrNoRows
| PqError (e : pq_Error)
| New (text : string)
| Wrap (text : string) (err : error).

(** [errors.As(err, &pqErr)] with [pqErr] a [*pq.Error]: the first
    [*pq.Error] in the chain of wrapped errors. *)
Fixpoint As (err : error) : option pq_Error :=
  match err with
  | PqError e => Some e
  | Wrap _ inner => As inner
  | ErrNoRows | New _ => None
  end.

(** The type assertion [err.( *pq.Error )]: no unwrapping. *)
Definition asPqError (err : error) : option pq_Error :=
  match err with
  | PqError e => Some e
  | _ => None
  end.

(** [err == sql.ErrNoRows]. *)
Definition isErrNoRows (err : error) : bool :=
  match err with
  | ErrNoRows => true
  | _ => false
  end.

End errors.

(** ** JSON values, as written to a response *)
Module json.

Inductive Value : Type :=
| Null
| Number (n : Z)
| Str (s : string)
| Time (t : time.Time)
| Array (l : list Value)
| Object (fields : list (string * Value)).

(** What [json.NewEncoder(w).Encode(data)] writes for a value of type [T]. *)
Class Marshaler (T : Type) : Type := Marshal : T -> Value.

#[global] Instance Marshal_int32 : Marshaler Z := Number.
#[global] Instance Marshal_string : Marshaler string := Str.

(** A nil slice is encoded as [null], any other slice as an array. *)
#[global] Instance Marshal_slice {T} `{Marshaler T} : Marshaler (slice T) :=
  fun s =>
    match s with
    | NilSlice => Null
    | Slice l => Array (map Marshal l)
    end.

End json.

(** ** net/http: requests, responses, methods and status codes *)
Module http.

Definition MethodGet : string := "GET".
Definition MethodPost : string := "POST".
Definition MethodPatch : string := "PATCH".
Definition MethodDelete : string := "DELETE".

Definition StatusOK : Z := 200.
Definition StatusCreated : Z := 201.
Definition StatusNoContent : Z := 204.
Definition StatusBadRequest : Z := 400.
Definition StatusNotFound : Z := 404.
Definition StatusMethodNotAllowed : Z := 405.
Definition StatusConflict : Z := 409.
Definition StatusInternalServerError : Z := 500.

Record Request : Type := {
  Method : string;
  URL_Path : string;
  Body : string
}.

Inductive body : Type :=
| Empty
| Text (msg : string)       (* text/plain: the message and a newline *)
| JSON (v : json.Value).    (* application/json *)

(** What a handler leaves in its [http.ResponseWriter]. *)
Record Response : Type := {
  StatusCode : Z;
  ResponseBody : body
}.

(** [http.Error(w, msg, code)]. *)
Definition Error (msg : string) (code : Z) : Response :=
  {| StatusCode := code; ResponseBody := Text msg |}.

(** [w.WriteHeader(code)] and nothing else. *)
Definition WriteHeader (code : Z) : Response :=
  {| StatusCode := code; ResponseBody := Empty |}.

End http.

(** ** config/constants.go *)
Module config.

Definition ApiPrefix : string := "/api/v1".
Definition ProductsApiPrefix : string := ApiPrefix ++ "/products".
Definition CustomersApiPrefix : string := ApiPrefix ++ "/customers".
Definition InvoicesApiPrefix : string := ApiPrefix ++ "/invoices".

Definition InternalServerErrorMsg : string := "Internal server error".
Definition MethodNotAllowedMsg : string := "Method not allowed".

End config.

(** ** utils *)
Module utils.

(** [ExtractTrailingID]: the last segment of the path, as an integer. *)
Definition ExtractTrailingID (path : string) : option Z :=
  let parts := strings.Split path "/" in
  let lastPart := last parts "" in
  strconv.Atoi lastPart.

End utils.

(** ** database/sql's nullable values *)
Module sql.

Record NullString : Type := { NullString_String : string; NullString_Valid : bool }.
Record NullInt32 : Type := { NullInt32_Int32 : Z; NullInt32_Valid : bool }.
Record NullTime : Type := { NullTime_Time : time.Time; NullTime_Valid : bool }.

End sql.

(** ** database

    The package sqlc generates from schema.sql and query.sql: one struct per
    table, the parameter and row structs of the statements, and the methods
    of [Queries], here as the three interfaces the handlers declare over
    them. A method takes the state of its store and returns its Go results
    (value and error) with the state it leaves. *)
Module database.

Record Product : Type := {
  Product_ID : Z;
  Product_Name : string;
  Product_Description : sql.NullString;
  Product_Price : string;
  Product_AvailableItems : Z;
  Product_CreatedAt : time.Time;
  Product_UpdatedAt : time.Time
}.

Record Customer : Type := {
  Customer_ID : Z;
  Customer_FirstName : string;
  Customer_LastName : string;
  Customer_CreatedAt : time.Time;
  Customer_UpdatedAt : time.Time
}.

Record Invoice : Type := {
  Invoice_ID : Z;
  Invoice_InvoiceNumber : string;
  Invoice_InvoiceDate : time.Time;
  Invoice_CustomerID : Z;
  Invoice_CreatedAt : time.Time;
  Invoice_UpdatedAt : time.Time
}.

Record InvoiceItem : Type := {
  InvoiceItem_ID : Z;
  InvoiceItem_InvoiceID : Z;
  InvoiceItem_ProductID : Z;
  InvoiceItem_Count : Z;
  InvoiceItem_CreatedAt : time.Time;
  InvoiceItem_UpdatedAt : time.Time
}.

Record CreateProductParams : Type := {
  CreateProduct_Name : string;
  CreateProduct_Description : sql.NullString;
  CreateProduct_Price : string;
  CreateProduct_AvailableItems : Z
}.

Record UpdateProductParams : Type := {
  UpdateProduct_ID : Z;
  UpdateProduct_Name : string;
  UpdateProduct_Description : sql.NullString;
  UpdateProduct_Price : string;
  UpdateProduct_AvailableItems : Z
}.

Record CreateCustomerParams : Type := {
  CreateCustomer_FirstName : string;
  CreateCustomer_LastName : string
}.

Record UpdateCustomerParams : Type := {
  UpdateCustomer_ID : Z;
  UpdateCustomer_FirstName : string;
  UpdateCustomer_LastName : string
}.

Record CreateInvoiceParams : Type := {
  CreateInvoice_InvoiceNumber : string;
  CreateInvoice_InvoiceDate : time.Time;
  CreateInvoice_CustomerID : Z
}.

Record UpdateInvoiceParams : Type := {
  UpdateInvoice_ID : Z;
  UpdateInvoice_InvoiceNumber : string;
  UpdateInvoice_InvoiceDate : time.Time;
  UpdateInvoice_CustomerID : Z
}.

Record UpdateInvoiceRow : Type := {
  UpdateInvoiceRow_Result : string;
  UpdateInvoiceRow_ID : sql.NullInt32;
  UpdateInvoiceRow_InvoiceNumber : sql.NullString;
  UpdateInvoiceRow_InvoiceDate : sql.NullTime;
  UpdateInvoiceRow_CustomerID : sql.NullInt32;
  UpdateInvoiceRow_CreatedAt : sql.NullTime;
  UpdateInvoiceRow_UpdatedAt : sql.NullTime
}.

Record ListProductsFromInvoiceRow : Type := {
  Row_ID : Z;
  Row_Name : string;
  Row_Description : sql.NullString;
  Row_Price : string;
  Row_Count : Z;
  Row_Sum : string
}.

Record AddProductToInvoiceParams : Type := {
  AddProduct_InvoiceID : Z;
  AddProduct_ProductID : Z;
  AddProduct_Count : Z
}.

Record DeleteProductFromInvoiceParams : Type := {
  DeleteProduct_InvoiceID : Z;
  DeleteProduct_ProductID : Z
}.

(** The Go results [(value, err)] of a method, and the store it leaves. *)
Definition Query (S A : Type) : Type := S -> (A * option errors.error) * S.

Class ProductQueries (S : Type) : Type := {
  ListProducts : Query S (slice Product);
  CreateProduct : CreateProductParams -> Query S Product;
  GetProduct : Z -> Query S Product;
  UpdateProduct : UpdateProductParams -> Query S Product;
  DeleteProduct : Z -> Query S string
}.

Class CustomerQueries (S : Type) : Type := {
  ListCustomers : Query S (slice Customer);
  CreateCustomer : CreateCustomerParams -> Query S Customer;
  GetCustomer : Z -> Query S Customer;
  UpdateCustomer : UpdateCustomerParams -> Query S Customer;
  DeleteCustomer : Z -> Query S string
}.

Class InvoiceQueries (S : Type) : Type := {
  ListInvoices : Query S (slice Invoice);
  CreateInvoice : CreateInvoiceParams -> Query S Invoice;
  GetInvoice : Z -> Query S Invoice;
  UpdateInvoice : UpdateInvoiceParams -> Query S UpdateInvoiceRow;
  DeleteInvoice : Z -> Query S string;
  ListProductsFromInvoice : Z -> Query S (slice ListProductsFromInvoiceRow);
  AddProductToInvoice : AddProductToInvoiceParams -> Query S InvoiceItem;
  DeleteProductFromInvoice : DeleteProductFromInvoiceParams -> Query S string
}.

End database.

(** ** handlers *)
Module handlers.

Import http database.

(** *** handlers/server_response.go (logging left out) *)

Definition writeServerResponse {T} `{json.Marshaler T} (statusCode : Z) (data : T)
  : Response :=
  {| StatusCode := statusCode; ResponseBody := JSON (json.Marshal data) |}.

Definition writeInternalServerError (err : option errors.error) : Response :=
  Error config.InternalServerErrorMsg StatusInternalServerError.

Definition writeServerParseError : Response :=
  Error "An error occurred while parsing the input JSON" StatusBadRequest.

(** *** Request and response structs *)

Record createProductRequest : Type := {
  createProduct_Name : string;
  createProduct_Description : string;
  createProduct_Price : string;
  createProduct_AvailableItems : Z
}.

Record updateProductRequest : Type := {
  updateProduct_Name : string;
  updateProduct_Description : string;
  updateProduct_Price : string;
  updateProduct_AvailableItems : Z
}.

Record productResponse : Type := {
  productResponse_ID : Z;
  productResponse_Name : string;
  productResponse_Description : string;
  productResponse_Price : string;
  productResponse_AvailableItems : Z
}.

Record createCustomerRequest : Type := {
  createCustomer_FirstName : string;
  createCustomer_LastName : string
}.

Record updateCustomerRequest : Type := {
  updateCustomer_FirstName : string;
  updateCustomer_LastName : string
}.

Record customerResponse : Type := {
  customerResponse_ID : Z;
  customerResponse_FirstName : string;
  customerResponse_LastName : string
}.

Record createInvoiceRequest : Type := {
  createInvoice_InvoiceNumber : string;
  createInvoice_InvoiceDate : option time.Time;   (* [*time.Time], [None] is nil *)
  createInvoice_CustomerID : Z
}.

Record updateInvoiceRequest : Type := {
  updateInvoice_InvoiceNumber : string;
  updateInvoice_InvoiceDate : time.Time;
  updateInvoice_CustomerID : Z
}.

Record invoiceResponse : Type := {
  invoiceResponse_ID : Z;
  invoiceResponse_InvoiceNumber : string;
  invoiceResponse_InvoiceDate : time.Time;
  invoiceResponse_CustomerID : Z
}.

Record createInvoiceItemRequest : Type := {
  createInvoiceItem_Count : Z
}.

Record invoiceItemResponse : Type := {
  invoiceItemResponse_ID : Z;
  invoiceItemResponse_InvoiceID : Z;
  invoiceItemResponse_ProductID : Z;
  invoiceItemResponse_Count : Z
}.

Record invoiceProductResponse : Type := {
  invoiceProductResponse_ID : Z;
  invoiceProductResponse_Name : string;
  invoiceProductResponse_Description : string;
  invoiceProductResponse_Price : string;
  invoiceProductResponse_Count : Z;
  invoiceProductResponse_Sum : string
}.

(** The response structs as JSON objects, by their [json] tags. *)

#[global] Instance Marshal_productResponse : json.Marshaler productResponse :=
  fun p => json.Object
    [ ("id", json.Number (productResponse_ID p));
      ("name", json.Str (productResponse_Name p));
      ("description", json.Str (productResponse_Description p));
      ("price", json.Str (productResponse_Price p));
      ("available_items", json.Number (productResponse_AvailableItems p)) ].

#[global] Instance Marshal_customerResponse : json.Marshaler customerResponse :=
  fun c => json.Object
    [ ("id", json.Number (customerResponse_ID c));
      ("first_name", json.Str (customerResponse_FirstName c));
      ("last_name", json.Str (customerResponse_LastName c)) ].

#[global] Instance Marshal_invoiceResponse : json.Marshaler invoiceResponse :=
  fun i => json.Object
    [ ("id", json.Number (invoiceResponse_ID i));
      ("invoice_number", json.Str (invoiceResponse_InvoiceNumber i));
      ("invoice_date", json.Time (invoiceResponse_InvoiceDate i));
      ("customer_id", json.Number (invoiceResponse_CustomerID i)) ].

#[global] Instance Marshal_invoiceItemResponse : json.Marshaler invoiceItemResponse :=
  fun i => json.Object
    [ ("id", json.Number (invoiceItemResponse_ID i));
      ("invoice_id", json.Number (invoiceItemResponse_InvoiceID i));
      ("product_id", json.Number (invoiceItemResponse_ProductID i));
      ("count", json.Number (invoiceItemResponse_Count i)) ].

#[global] Instance Marshal_invoiceProductResponse
  : json.Marshaler invoiceProductResponse :=
  fun p => json.Object
    [ ("id", json.Number (invoiceProductResponse_ID p));
      ("name", json.Str (invoiceProductResponse_Name p));
      ("description", json.Str (invoiceProductResponse_Description p));
      ("price", json.Str (invoiceProductResponse_Price p));
      ("count", json.Number (invoiceProductResponse_Count p));
      ("sum", json.Str (invoiceProductResponse_Sum p)) ].

(** What the handlers take from outside the repository without the
    development fixing its behaviour: [json.NewDecoder(r.Body).Decode] into
    each request struct ([None] is a non-nil error) and whether
    [strconv.ParseFloat(s, 64)] returns an error. *)
Class Runtime : Type := {
  decodeCreateProduct : string -> option createProductRequest;
  decodeUpdateProduct : string -> option updateProductRequest;
  decodeCreateCustomer : string -> option createCustomerRequest;
  decodeUpdateCustomer : string -> option updateCustomerRequest;
  decodeCreateInvoice : string -> option createInvoiceRequest;
  decodeUpdateInvoice : string -> option updateInvoiceRequest;
  decodeCreateInvoiceItem : string -> option createInvoiceItemRequest;
  ParseFloat_err : string -> bool
}.

Definition toProductResponse (product : Product) : productResponse :=
  {| productResponse_ID := Product_ID product;
     productResponse_Name := Product_Name product;
     productResponse_Description := sql.NullString_String (Product_Description product);
     productResponse_Price := Product_Price product;
     productResponse_AvailableItems := Product_AvailableItems product |}.

Definition toCustomerResponse (customer : Customer) : customerResponse :=
  {| customerResponse_ID := Customer_ID customer;
     customerResponse_FirstName := Customer_FirstName customer;
     customerResponse_LastName := Customer_LastName customer |}.

Definition toInvoiceResponse (invoice : Invoice) : invoiceResponse :=
  {| invoiceResponse_ID := Invoice_ID invoice;
     invoiceResponse_InvoiceNumber := Invoice_InvoiceNumber invoice;
     invoiceResponse_InvoiceDate := Invoice_InvoiceDate invoice;
     invoiceResponse_CustomerID := Invoice_CustomerID invoice |}.

Definition toInvoiceItemResponse (item : InvoiceItem) : invoiceItemResponse :=
  {| invoiceItemResponse_ID := InvoiceItem_ID item;
     invoiceItemResponse_InvoiceID := InvoiceItem_InvoiceID item;
     invoiceItemResponse_ProductID := InvoiceItem_ProductID item;
     invoiceItemResponse_Count := InvoiceItem_Count item |}.

Definition toInvoiceProductResponse (item : ListProductsFromInvoiceRow)
  : invoiceProductResponse :=
  {| invoiceProductResponse_ID := Row_ID item;
     invoiceProductResponse_Name := Row_Name item;
     invoiceProductResponse_Description := sql.NullString_String (Row_Description item);
     invoiceProductResponse_Price := Row_Price item;
     invoiceProductResponse_Count := Row_Count item;
     invoiceProductResponse_Sum := Row_Sum item |}.

(** [response := []T{}; for _, x := range xs { response = append(response, f(x)) }] *)
Definition collect {A T} (f : A -> T) (xs : slice A) : slice T :=
  fold_left (fun response x => append response (f x)) (elems xs) (Slice []).

(** *** handlers/product.go *)
Section Product.

Context {S : Type} {Q : ProductQueries S} {rt : Runtime}.

Definition createProductError (err : errors.error) : Response :=
  match errors.asPqError err with
  | Some pqErr =>
      if errors.Constraint pqErr == "product_available_items_check" then
        Error "available_items must be greater than or equal to 0" StatusBadRequest
      else if errors.Constraint pqErr == "product_price_check" then
        Error "price should be a positive number" StatusBadRequest
      else writeInternalServerError (Some err)
  | None => writeInternalServerError (Some err)
  end.

(** The checks of POST /products before the store is called: the message of
    the first one that fails. *)
Definition createProductInvalid (product : createProductRequest) : option string :=
  if strings.TrimSpace (createProduct_Name product) == "" then
    Some "Product name is required"
  else if strings.TrimSpace (createProduct_Price product) == "" then
    Some "Product price is required"
  else if ParseFloat_err (createProduct_Price product) then
    Some "Invalid price"
  else if createProduct_AvailableItems product <? 0 then
    Some "available_items must be greater than or equal to 0"
  else None.

Definition ProductsHandler (r : Request) (s : S) : Response * S :=
  if Method r == MethodGet then
    (* GET /products *)
    let '((products, err), s) := ListProducts s in
    match err with
    | Some err => (writeInternalServerError (Some err), s)
    | None =>
        let response := collect toProductResponse products in
        (writeServerResponse StatusOK response, s)
    end
  else if Method r == MethodPost then
    (* POST /products *)
    match decodeCreateProduct (Body r) with
    | None => (writeServerParseError, s)
    | Some product =>
        match createProductInvalid product with
        | Some msg => (Error msg StatusBadRequest, s)
        | None =>
            let '((createdProduct, err), s) :=
              CreateProduct
                {| CreateProduct_Name := createProduct_Name product;
                   CreateProduct_Description :=
                     {| sql.NullString_String := createProduct_Description product;
                        sql.NullString_Valid :=
                          negb (createProduct_Description product == "") |};
                   CreateProduct_Price := createProduct_Price product;
                   CreateProduct_AvailableItems := createProduct_AvailableItems product |}
                s in
            match err with
            | Some err => (createProductError err, s)
            | None =>
                (writeServerResponse StatusCreated (toProductResponse createdProduct), s)
            end
        end
    end
  else (Error config.MethodNotAllowedMsg StatusMethodNotAllowed, s).

Definition updateProductError (err : errors.error) : Response :=
  if errors.isErrNoRows err then Error "Product not found" StatusNotFound
  else match errors.asPqError err with
       | Some pqErr =>
           if errors.Constraint pqErr == "product_available_items_check" then
             Error "available_items must be greater than or equal to 0" StatusBadRequest
           else writeInternalServerError (Some err)
       | None => writeInternalServerError (Some err)
       end.

(** The checks of PATCH /products/{id} before the store is called. *)
Definition updateProductInvalid (product : updateProductRequest) : option string :=
  if strings.TrimSpace (updateProduct_Name product) == "" then
    Some "Product name is required"
  else if strings.TrimSpace (updateProduct_Price product) == "" then
    Some "Product price is required"
  else if ParseFloat_err (updateProduct_Price product) then
    Some "Invalid price"
  else if updateProduct_AvailableItems product <? 0 then
    Some "available_items must be greater than or equal to 0"
  else None.

(** The answer to a failed DELETE: a foreign-key violation (SQLSTATE 23503)
    of the constraint [fkey] is a conflict, anything else an internal error. *)
Definition deleteError (fkey msg : string) (err : errors.error) : Response :=
  match errors.As err with
  | Some pqErr =>
      if errors.Code pqErr == "23503" then
        if errors.Constraint pqErr == fkey then Error msg StatusConflict
        else writeInternalServerError (Some err)
      else writeInternalServerError (Some err)
  | None => writeInternalServerError (Some err)
  end.

Definition ProductHandler (r : Request) (s : S) : Response * S :=
  (* Extract the product ID from the URL path *)
  match utils.ExtractTrailingID (URL_Path r) with
  | None => (Error "Invalid product ID" StatusBadRequest, s)
  | Some id =>
      if Method r == MethodGet then
        (* GET /products/{id} *)
        let '((product, err), s) := GetProduct (int32 id) s in
        match err with
        | Some err =>
            if errors.isErrNoRows err then (Error "Product not found" StatusNotFound, s)
            else (writeInternalServerError (Some err), s)
        | None => (writeServerResponse StatusOK (toProductResponse product), s)
        end
      else if Method r == MethodPatch then
        (* PATCH /products/{id} *)
        match decodeUpdateProduct (Body r) with
        | None => (writeServerParseError, s)
        | Some product =>
            match updateProductInvalid product with
            | Some msg => (Error msg StatusBadRequest, s)
            | None =>
                let '((updatedProduct, err), s) :=
                  UpdateProduct
                    {| UpdateProduct_ID := int32 id;
                       UpdateProduct_Name := updateProduct_Name product;
                       UpdateProduct_Description :=
                         {| sql.NullString_String := updateProduct_Description product;
                            sql.NullString_Valid :=
                              negb (updateProduct_Description product == "") |};
                       UpdateProduct_Price := updateProduct_Price product;
                       UpdateProduct_AvailableItems :=
                         updateProduct_AvailableItems product |}
                    s in
                match err with
                | Some err => (updateProductError err, s)
                | None =>
                    (writeServerResponse StatusOK (toProductResponse updatedProduct), s)
                end
            end
        end
      else if Method r == MethodDelete then
        (* DELETE /products/{id} *)
        let '((deletionResult, err), s) := DeleteProduct (int32 id) s in
        match err with
        | Some err =>
            (deleteError "invoice_item_product_id_fkey"
               "cannot delete product: product is referenced in the invoice_item table"
               err, s)
        | None =>
            if deletionResult == "product_not_found" then
              (Error "Product not found" StatusNotFound, s)
            else (WriteHeader StatusNoContent, s)
        end
      else (Error config.MethodNotAllowedMsg StatusMethodNotAllowed, s)
  end.

End Product.

(** *** handlers/customer.go *)
Section Customer.

Context {S : Type} {Q : CustomerQueries S} {rt : Runtime}.

Definition CustomersHandler (r : Request) (s : S) : Response * S :=
  if Method r == MethodGet then
    (* GET /customers *)
    let '((customers, err), s) := ListCustomers s in
    match err with
    | Some err => (writeInternalServerError (Some err), s)
    | None =>
        let response := collect toCustomerResponse customers in
        (writeServerResponse StatusOK response, s)
    end
  else if Method r == MethodPost then
    (* POST /customers *)
    match decodeCreateCustomer (Body r) with
    | None => (writeServerParseError, s)
    | Some customer =>
        if strings.TrimSpace (createCustomer_FirstName customer) == "" then
          (Error "First name is required" StatusBadRequest, s)
        else if strings.TrimSpace (createCustomer_LastName customer) == "" then
          (Error "Last name is required" StatusBadRequest, s)
        else
          let '((createdCustomer, err), s) :=
            CreateCustomer
              {| CreateCustomer_FirstName := createCustomer_FirstName customer;
                 CreateCustomer_LastName := createCustomer_LastName customer |}
              s in
          match err with
          | Some err => (writeInternalServerError (Some err), s)
          | None =>
              (writeServerResponse StatusCreated (toCustomerResponse createdCustomer), s)
          end
    end
  else (Error config.MethodNotAllowedMsg StatusMethodNotAllowed, s).

Definition CustomerHandler (r : Request) (s : S) : Response * S :=
  (* Extract the customer ID from the URL path *)
  match utils.ExtractTrailingID (URL_Path r) with
  | None => (Error "Invalid customer ID" StatusBadRequest, s)
  | Some id =>
      if Method r == MethodGet then
        (* GET /customers/{id} *)
        let '((customer, err), s) := GetCustomer (int32 id) s in
        match err with
        | Some err =>
            if errors.isErrNoRows err then (Error "Customer not found" StatusNotFound, s)
            else (writeInternalServerError (Some err), s)
        | None => (writeServerResponse StatusOK (toCustomerResponse customer), s)
        end
      else if Method r == MethodPatch then
        (* PATCH /customers/{id} *)
        match decodeUpdateCustomer (Body r) with
        | None => (writeServerParseError, s)
        | Some customer =>
            if strings.TrimSpace (updateCustomer_FirstName customer) == "" then
              (Error "First name is required" StatusBadRequest, s)
            else if strings.TrimSpace (updateCustomer_LastName customer) == "" then
              (Error "Last name is required" StatusBadRequest, s)
            else
              let '((updatedCustomer, err), s) :=
                UpdateCustomer
                  {| UpdateCustomer_ID := int32 id;
                     UpdateCustomer_FirstName := updateCustomer_FirstName customer;
                     UpdateCustomer_LastName := updateCustomer_LastName customer |}
                  s in
              match err with
              | Some err =>
                  if errors.isErrNoRows err then
                    (Error "Customer not found" StatusNotFound, s)
                  else (writeInternalServerError (Some err), s)
              | None =>
                  (writeServerResponse StatusOK (toCustomerResponse updatedCustomer), s)
              end
        end
      else if Method r == MethodDelete then
        (* DELETE /customers/{id} *)
        let '((deletionResult, err), s) := DeleteCustomer (int32 id) s in
        match err with
        | Some err =>
            (deleteError "invoice_customer_id_fkey"
               "cannot delete customer: customer is referenced in the invoice table"
               err, s)
        | None =>
            if deletionResult == "customer_not_found" then
              (Error "Customer not found" StatusNotFound, s)
            else (WriteHeader StatusNoContent, s)
        end
      else (Error config.MethodNotAllowedMsg StatusMethodNotAllowed, s)
  end.

End Customer.

(** *** handlers/invoice.go *)
Section Invoice.

Context {S : Type} {Q : InvoiceQueries S} {rt : Runtime}.

(** The answer to a failed CreateInvoice or UpdateInvoice: by SQLSTATE. *)
Definition invoiceWriteError (err : errors.error) : Response :=
  match errors.As err with
  | Some pqErr =>
      if errors.Code pqErr == "23505" then
        (* Unique constraint violation *)
        Error "Invoice number must be unique" StatusConflict
      else if errors.Code pqErr == "23503" then
        (* Foreign key violation *)
        Error "Specified customer does not exist" StatusBadRequest
      else writeInternalServerError (Some err)
  | None => writeInternalServerError (Some err)
  end.

(** [now] is what [time.Now()] returns during the call. *)
Definition InvoicesHandler (now : time.Time) (r : Request) (s : S) : Response * S :=
  if Method r == MethodGet then
    (* GET /invoices *)
    let '((invoices, err), s) := ListInvoices s in
    match err with
    | Some err => (writeInternalServerError (Some err), s)
    | None =>
        let response := collect toInvoiceResponse invoices in
        (writeServerResponse StatusOK response, s)
    end
  else if Method r == MethodPost then
    (* POST /invoices *)
    match decodeCreateInvoice (Body r) with
    | None => (writeServerParseError, s)
    | Some invoiceCreate =>
        if strings.TrimSpace (createInvoice_InvoiceNumber invoiceCreate) == "" then
          (Error "invoice_number must not be empty" StatusBadRequest, s)
        else if createInvoice_CustomerID invoiceCreate <=? 0 then
          (Error "customer_id should be a positive number" StatusBadRequest, s)
        else
          (* invoiceDate is optional, if not provided, use the current time *)
          let invoiceDate :=
            match createInvoice_InvoiceDate invoiceCreate with
            | Some d => if negb (time.IsZero d) then d else now
            | None => now
            end in
          let '((createdInvoice, err), s) :=
            CreateInvoice
              {| CreateInvoice_InvoiceNumber := createInvoice_InvoiceNumber invoiceCreate;
                 CreateInvoice_InvoiceDate := invoiceDate;
                 CreateInvoice_CustomerID := createInvoice_CustomerID invoiceCreate |}
              s in
          match err with
          | Some err => (invoiceWriteError err, s)
          | None =>
              (writeServerResponse StatusCreated (toInvoiceResponse createdInvoice), s)
          end
    end
  else (Error config.MethodNotAllowedMsg StatusMethodNotAllowed, s).

(** [for i, seg := range segments { if seg == name { idx = i; break } }],
    counting from [i]; [-1] when no segment is [name]. *)
Fixpoint indexOf (name : string) (segments : list string) (i : Z) : Z :=
  match segments with
  | [] => -1
  | seg :: rest => if seg == name then i else indexOf name rest (i + 1)
  end.

(** The segments of a path: what lies between its slashes, empty strings
    left out. *)
Definition pathSegments (path : string) : list string :=
  filter (fun seg => negb (seg == "")) (strings.Split path "/").

(** GET /invoices/{invoice_id}/products *)
Definition listInvoiceProducts (invoiceID : Z) (s : S) : Response * S :=
  let '((items, err), s) := ListProductsFromInvoice (int32 invoiceID) s in
  match err with
  | Some err =>
      if errors.isErrNoRows err then (Error "Invoice not found" StatusNotFound, s)
      else (writeInternalServerError (Some err), s)
  | None =>
      let response := collect toInvoiceProductResponse items in
      (writeServerResponse StatusOK response, s)
  end.

(** DELETE /invoices/{invoice_id}/products/{product_id} *)
Definition deleteInvoiceProduct (invoiceID productID : Z) (s : S) : Response * S :=
  let '((result, err), s) :=
    DeleteProductFromInvoice
      {| DeleteProduct_InvoiceID := int32 invoiceID;
         DeleteProduct_ProductID := int32 productID |} s in
  match err with
  | Some err => (writeInternalServerError (Some err), s)
  | None =>
      if result == "invoice_item_not_found" then
        (Error "Provided invoice doesn't contain the specified product" StatusNotFound, s)
      else (WriteHeader StatusNoContent, s)
  end.

Definition addInvoiceProductError (err : errors.error) : Response :=
  match errors.asPqError err with
  | Some pqErr =>
      (* Check if the error is a foreign key violation *)
      if errors.Code pqErr == "23503" then
        if errors.Constraint pqErr == "invoice_item_product_id_fkey" then
          Error "The provided product does not exist" StatusNotFound
        else if errors.Constraint pqErr == "invoice_item_invoice_id_fkey" then
          Error "The provided invoice does not exist" StatusNotFound
        else writeInternalServerError (Some err)
      else if errors.Constraint pqErr == "invoice_item_count_check" then
        Error "count must be greater than 0" StatusBadRequest
      else writeInternalServerError (Some err)
  | None => writeInternalServerError (Some err)
  end.

(** POST /invoices/{invoice_id}/products/{product_id} *)
Definition addInvoiceProduct (invoiceID productID : Z) (r : Request) (s : S)
  : Response * S :=
  match decodeCreateInvoiceItem (Body r) with
  | None => (writeServerParseError, s)
  | Some params =>
      if createInvoiceItem_Count params <=? 0 then
        (Error "count must be greater than 0" StatusBadRequest, s)
      else
        let '((item, err), s) :=
          AddProductToInvoice
            {| AddProduct_InvoiceID := int32 invoiceID;
               AddProduct_ProductID := int32 productID;
               AddProduct_Count := createInvoiceItem_Count params |} s in
        match err with
        | Some err => (addInvoiceProductError err, s)
        | None => (writeServerResponse StatusCreated (toInvoiceItemResponse item), s)
        end
  end.

(** Invoice-only endpoints: /invoices/{invoice_id} *)
Definition invoiceOnly (invoiceID : Z) (r : Request) (s : S) : Response * S :=
  if Method r == MethodGet then
    (* GET /invoices/{invoice_id} *)
    let '((invoice, err), s) := GetInvoice (int32 invoiceID) s in
    match err with
    | Some err =>
        if errors.isErrNoRows err then (Error "Invoice not found" StatusNotFound, s)
        else (writeInternalServerError (Some err), s)
    | None => (writeServerResponse StatusOK (toInvoiceResponse invoice), s)
    end
  else if Method r == MethodPatch then
    (* PATCH /invoices/{invoice_id} *)
    match decodeUpdateInvoice (Body r) with
    | None => (writeServerParseError, s)
    | Some invoiceUpdate =>
        if strings.TrimSpace (updateInvoice_InvoiceNumber invoiceUpdate) == "" then
          (Error "invoice_number must not be empty" StatusBadRequest, s)
        else if time.IsZero (updateInvoice_InvoiceDate invoiceUpdate) then
          (Error "invoice_date must be provided" StatusBadRequest, s)
        else if updateInvoice_CustomerID invoiceUpdate <=? 0 then
          (Error "customer_id should be a positive number" StatusBadRequest, s)
        else
          let '((updatedInvoice, err), s) :=
            UpdateInvoice
              {| UpdateInvoice_ID := int32 invoiceID;
                 UpdateInvoice_InvoiceNumber := updateInvoice_InvoiceNumber invoiceUpdate;
                 UpdateInvoice_InvoiceDate := updateInvoice_InvoiceDate invoiceUpdate;
                 UpdateInvoice_CustomerID := updateInvoice_CustomerID invoiceUpdate |}
              s in
          match err with
          | Some err => (invoiceWriteError err, s)
          | None =>
              if negb (UpdateInvoiceRow_Result updatedInvoice == "success") then
                if UpdateInvoiceRow_Result updatedInvoice == "invoice_not_found" then
                  (Error "Invoice not found" StatusNotFound, s)
                else (writeInternalServerError None, s)
              else
                (writeServerResponse StatusOK
                   {| invoiceResponse_ID :=
                        sql.NullInt32_Int32 (UpdateInvoiceRow_ID updatedInvoice);
                      invoiceResponse_InvoiceNumber :=
                        sql.NullString_String
                          (UpdateInvoiceRow_InvoiceNumber updatedInvoice);
                      invoiceResponse_InvoiceDate :=
                        sql.NullTime_Time (UpdateInvoiceRow_InvoiceDate updatedInvoice);
                      invoiceResponse_CustomerID :=
                        sql.NullInt32_Int32 (UpdateInvoiceRow_CustomerID updatedInvoice) |},
                 s)
          end
    end
  else if Method r == MethodDelete then
    (* DELETE /invoices/{invoice_id} *)
    let '((deletionResult, err), s) := DeleteInvoice (int32 invoiceID) s in
    match err with
    | Some err =>
        (deleteError "invoice_item_invoice_id_fkey"
           "cannot delete invoice: invoice is referenced in the invoice_item table"
           err, s)
    | None =>
        if deletionResult == "invoice_not_found" then
          (Error "Invoice not found" StatusNotFound, s)
        else (WriteHeader StatusNoContent, s)
    end
  else (Error config.MethodNotAllowedMsg StatusMethodNotAllowed, s).

Definition InvoiceHandler (r : Request) (s : S) : Response * S :=
  let path := URL_Path r in
  (* Split the path into segments and filter out empty strings *)
  let segments := pathSegments path in
  (* Find the "invoices" segment *)
  let invoiceIdx := indexOf "invoices" segments 0 in
  if (invoiceIdx =? -1) || (len segments <=? invoiceIdx + 1) then
    (Error "Invalid invoice path" StatusBadRequest, s)
  else
    (* Extract invoice ID *)
    match strconv.Atoi (index segments (invoiceIdx + 1)) with
    | None => (Error "Invalid invoice ID" StatusBadRequest, s)
    | Some invoiceID =>
        (* Check if there's a "products" segment after the invoice ID *)
        if (len segments >? invoiceIdx + 2)
           && (index segments (invoiceIdx + 2) == "products") then
          (* Determine if a product ID is provided *)
          if len segments =? invoiceIdx + 3 then
            if Method r == MethodGet then listInvoiceProducts invoiceID s
            else (Error config.MethodNotAllowedMsg StatusMethodNotAllowed, s)
          else if len segments =? invoiceIdx + 4 then
            match strconv.Atoi (index segments (invoiceIdx + 3)) with
            | None => (Error "Invalid product ID" StatusBadRequest, s)
            | Some productID =>
                if Method r == MethodDelete then
                  deleteInvoiceProduct invoiceID productID s
                else if Method r == MethodPost then
                  addInvoiceProduct invoiceID productID r s
                else (Error config.MethodNotAllowedMsg StatusMethodNotAllowed, s)
            end
          else (Error "Not found" StatusNotFound, s)
        else invoiceOnly invoiceID r s
    end.

End Invoice.

End handlers.

(** ** pg: schema.sql and query.sql

    The four tables with their sequences, and each statement of query.sql as
    a function on the database state, returning what the method sqlc
    generates for it returns: the rows of a [:many] statement (never
    [sql.ErrNoRows]), the row of a [:one] statement or [sql.ErrNoRows] when
    there is none, or the [*pq.Error] of the constraint that failed.
    A statement that fails leaves the tables as they were; a sequence keeps
    the values it has handed out. *)
Module pg.

Import database.

(** A value of a NUMERIC column: a number, kept in hundredths (the scale of
    [NUMERIC(10,2)]), or NaN, which the type reads from the text [NaN] and
    which a precision and scale let through. NaN counts as greater than
    every number. *)
Inductive numeric : Type :=
| Num (hundredths : Z)
| NaN.

(** A row of [product]. *)
Record product_row : Type := {
  product_id : Z;
  product_name : string;
  product_description : option string;
  product_price : numeric;
  product_available_items : Z;
  product_created_at : time.Time;
  product_updated_at : time.Time
}.

(** The rows of [customer], [invoice] and [invoice_item] are the structs of
    package [database], which have the columns of the tables. *)
Record DB : Type := {
  customer : list Customer;
  product : list product_row;
  invoice : list Invoice;
  invoice_item : list InvoiceItem;
  (* the last value of each SERIAL column's sequence *)
  customer_id_seq : Z;
  product_id_seq : Z;
  invoice_id_seq : Z;
  invoice_item_id_seq : Z;
  (* NOW() *)
  clock : time.Time
}.

Definition empty (now : time.Time) : DB :=
  {| customer := []; product := []; invoice := []; invoice_item := [];
     customer_id_seq := 0; product_id_seq := 0; invoice_id_seq := 0;
     invoice_item_id_seq := 0; clock := now |}.

Definition set_customer (db : DB) (rows : list Customer) (seq : Z) : DB :=
  {| customer := rows; product := product db; invoice := invoice db;
     invoice_item := invoice_item db;
     customer_id_seq := seq; product_id_seq := product_id_seq db;
     invoice_id_seq := invoice_id_seq db;
     invoice_item_id_seq := invoice_item_id_seq db; clock := clock db |}.

Definition set_product (db : DB) (rows : list product_row) (seq : Z) : DB :=
  {| customer := customer db; product := rows; invoice := invoice db;
     invoice_item := invoice_item db;
     customer_id_seq := customer_id_seq db; product_id_seq := seq;
     invoice_id_seq := invoice_id_seq db;
     invoice_item_id_seq := invoice_item_id_seq db; clock := clock db |}.

Definition set_invoice (db : DB) (rows : list Invoice) (seq : Z) : DB :=
  {| customer := customer db; product := product db; invoice := rows;
     invoice_item := invoice_item db;
     customer_id_seq := customer_id_seq db; product_id_seq := product_id_seq db;
     invoice_id_seq := seq;
     invoice_item_id_seq := invoice_item_id_seq db; clock := clock db |}.

Definition set_invoice_item (db : DB) (rows : list InvoiceItem) (seq : Z) : DB :=
  {| customer := customer db; product := product db; invoice := invoice db;
     invoice_item := rows;
     customer_id_seq := customer_id_seq db; product_id_seq := product_id_seq db;
     invoice_id_seq := invoice_id_seq db;
     invoice_item_id_seq := seq; clock := clock db |}.

(** The server's conversion of a parameter to the type of its column, which
    the development does not fix: the value stored, or the SQLSTATE of the
    rejection (a string too long for [VARCHAR(n)], text that is no number
    or a number out of the range of [NUMERIC(10,2)], ...). Of the input of
    NUMERIC one case is fixed: the text [NaN] is read as NaN. *)
Class ColumnInput : Type := {
  varchar : Z -> string -> string + string;
  text : string -> string + string;
  numeric_10_2 : string -> numeric + string;
  timestamp : time.Time -> time.Time + string;
  numeric_10_2_NaN : numeric_10_2 "NaN" = inl NaN
}.

(** [numeric(10,2)] as text: the hundredths [n] with two decimals. *)
Definition numeric_out (n : Z) : string :=
  let a := Z.abs n in
  let frac := a mod 100 in
  (if n <? 0 then "-" else "")
  ++ NilZero.string_of_uint (N.to_uint (Z.to_N (a / 100)))
  ++ "."
  ++ NilZero.string_of_uint (N.to_uint (Z.to_N (frac / 10)))
  ++ NilZero.string_of_uint (N.to_uint (Z.to_N (frac mod 10))).

(** The text of a NUMERIC(10,2) value. *)
Definition numeric_text (v : numeric) : string :=
  match v with
  | Num n => numeric_out n
  | NaN => "NaN"
  end.

(** [v >= 0] as PostgreSQL orders NUMERIC: NaN is above every number, so
    CHECK (price >= 0) holds of it. *)
Definition numeric_ge0 (v : numeric) : bool :=
  match v with
  | Num n => 0 <=? n
  | NaN => true
  end.

(** *** Results *)

Definition pqError (code constraint : string) : option errors.error :=
  Some (errors.PqError {| errors.Code := code; errors.Constraint := constraint |}).

Definition unique_violation : string := "23505".
Definition foreign_key_violation : string := "23503".
Definition check_violation : string := "23514".
Definition sequence_generator_limit_exceeded : string := "2200H".
Definition numeric_value_out_of_range : string := "22003".

(** The zero values a generated method returns beside an error. *)
Definition zeroNullString : sql.NullString :=
  {| sql.NullString_String := ""; sql.NullString_Valid := false |}.
Definition zeroNullInt32 : sql.NullInt32 :=
  {| sql.NullInt32_Int32 := 0; sql.NullInt32_Valid := false |}.
Definition zeroNullTime : sql.NullTime :=
  {| sql.NullTime_Time := 0; sql.NullTime_Valid := false |}.

Definition zeroProduct : Product :=
  {| Product_ID := 0; Product_Name := ""; Product_Description := zeroNullString;
     Product_Price := ""; Product_AvailableItems := 0;
     Product_CreatedAt := 0; Product_UpdatedAt := 0 |}.
Definition zeroCustomer : Customer :=
  {| Customer_ID := 0; Customer_FirstName := ""; Customer_LastName := "";
     Customer_CreatedAt := 0; Customer_UpdatedAt := 0 |}.
Definition zeroInvoice : Invoice :=
  {| Invoice_ID := 0; Invoice_InvoiceNumber := ""; Invoice_InvoiceDate := 0;
     Invoice_CustomerID := 0; Invoice_CreatedAt := 0; Invoice_UpdatedAt := 0 |}.
Definition zeroInvoiceItem : InvoiceItem :=
  {| InvoiceItem_ID := 0; InvoiceItem_InvoiceID := 0; InvoiceItem_ProductID := 0;
     InvoiceItem_Count := 0; InvoiceItem_CreatedAt := 0; InvoiceItem_UpdatedAt := 0 |}.
Definition zeroUpdateInvoiceRow : UpdateInvoiceRow :=
  {| UpdateInvoiceRow_Result := ""; UpdateInvoiceRow_ID := zeroNullInt32;
     UpdateInvoiceRow_InvoiceNumber := zeroNullString;
     UpdateInvoiceRow_InvoiceDate := zeroNullTime;
     UpdateInvoiceRow_CustomerID := zeroNullInt32;
     UpdateInvoiceRow_CreatedAt := zeroNullTime;
     UpdateInvoiceRow_UpdatedAt := zeroNullTime |}.

(** The slice a [:many] method builds with [var items []T] and [append]. *)
Definition many {A} (rows : list A) : slice A :=
  match rows with
  | [] => NilSlice
  | _ => Slice rows
  end.

(** *** ORDER BY, LIMIT, sequences *)

Fixpoint insert_by {A} (key : A -> Z) (x : A) (l : list A) : list A :=
  match l with
  | [] => [x]
  | y :: rest => if key x <=? key y then x :: l else y :: insert_by key x rest
  end.

(** [ORDER BY key], ascending. *)
Definition order_by {A} (key : A -> Z) (l : list A) : list A :=
  fold_right (insert_by key) [] l.

(** Two rows in ascending order of [key]. *)
Definition ascending {A} (key : A -> Z) (a b : A) : Prop := key a <= key b.

(** [LIMIT n]. *)
Definition limit {A} (n : nat) (l : list A) : list A := firstn n l.

(** [nextval] of the sequence of a SERIAL column, whose last value is [seq]. *)
Definition nextval (seq : Z) : option Z :=
  if seq <? 2147483647 then Some (seq + 1) else None.

Definition exists_by {A} (key : A -> Z) (id : Z) (rows : list A) : bool :=
  existsb (fun r => key r =? id) rows.

Definition find_by {A} (key : A -> Z) (id : Z) (rows : list A) : option A :=
  find (fun r => key r =? id) rows.

Definition delete_by {A} (key : A -> Z) (id : Z) (rows : list A) : list A :=
  filter (fun r => negb (key r =? id)) rows.

(** [UPDATE ... WHERE key = id]: the rows with that key replaced by [f]. *)
Definition update_by {A} (key : A -> Z) (id : Z) (f : A -> A) (rows : list A)
  : list A :=
  map (fun r => if key r =? id then f r else r) rows.

(** *** The statements of query.sql *)
Section Statements.

Context {ci : ColumnInput}.

(** A statement that fails with SQLSTATE [code] on [constraint]. *)
Definition fail {A} (zero : A) (code constraint : string) (db : DB)
  : (A * option errors.error) * DB :=
  ((zero, pqError code constraint), db).

(** A parameter converted to its column's type, or the statement fails. *)
Definition input {A B} (x : A + string) (zero : B) (db : DB)
  (k : A -> (B * option errors.error) * DB) : (B * option errors.error) * DB :=
  match x with
  | inl a => k a
  | inr code => fail zero code "" db
  end.

(** **** product *)

Definition scanProduct (r : product_row) : Product :=
  {| Product_ID := product_id r;
     Product_Name := product_name r;
     Product_Description :=
       match product_description r with
       | Some d => {| sql.NullString_String := d; sql.NullString_Valid := true |}
       | None => zeroNullString
       end;
     Product_Price := numeric_text (product_price r);
     Product_AvailableItems := product_available_items r;
     Product_CreatedAt := product_created_at r;
     Product_UpdatedAt := product_updated_at r |}.

Definition descriptionInput (d : sql.NullString) : option string + string :=
  if sql.NullString_Valid d then
    match text (sql.NullString_String d) with
    | inl v => inl (Some v)
    | inr code => inr code
    end
  else inl None.

(** CHECK (available_items >= 0) and CHECK (price >= 0), in the order of
    their names. *)
Definition product_check (available_items : Z) (price : numeric)
  : option errors.error :=
  if available_items <? 0 then pqError check_violation "product_available_items_check"
  else if negb (numeric_ge0 price) then pqError check_violation "product_price_check"
  else None.

(** SELECT * FROM product ORDER BY id LIMIT 100 *)
Definition ListProducts : Query DB (slice Product) := fun db =>
  ((many (map scanProduct (limit 100 (order_by product_id (product db)))), None), db).

(** SELECT * FROM product WHERE id = $1 *)
Definition GetProduct (id : Z) : Query DB Product := fun db =>
  match find_by product_id id (product db) with
  | Some r => ((scanProduct r, None), db)
  | None => ((zeroProduct, Some errors.ErrNoRows), db)
  end.

(** INSERT INTO product (name, description, price, available_items)
    VALUES ($1, $2, $3, $4) RETURNING * *)
Definition CreateProduct (arg : CreateProductParams) : Query DB Product := fun db =>
  input (varchar 100 (CreateProduct_Name arg)) zeroProduct db (fun name =>
  input (descriptionInput (CreateProduct_Description arg)) zeroProduct db (fun description =>
  input (numeric_10_2 (CreateProduct_Price arg)) zeroProduct db (fun price =>
  match nextval (product_id_seq db) with
  | None => fail zeroProduct sequence_generator_limit_exceeded "" db
  | Some id =>
      match product_check (CreateProduct_AvailableItems arg) price with
      | Some err => ((zeroProduct, Some err), set_product db (product db) id)
      | None =>
          let row :=
            {| product_id := id; product_name := name;
               product_description := description; product_price := price;
               product_available_items := CreateProduct_AvailableItems arg;
               product_created_at := clock db; product_updated_at := clock db |} in
          ((scanProduct row, None), set_product db (product db ++ [row]) id)
      end
  end))).

(** UPDATE product SET name = $2, description = $3, price = $4,
    available_items = $5 WHERE id = $1 RETURNING * *)
Definition UpdateProduct (arg : UpdateProductParams) : Query DB Product := fun db =>
  input (varchar 100 (UpdateProduct_Name arg)) zeroProduct db (fun name =>
  input (descriptionInput (UpdateProduct_Description arg)) zeroProduct db (fun description =>
  input (numeric_10_2 (UpdateProduct_Price arg)) zeroProduct db (fun price =>
  match find_by product_id (UpdateProduct_ID arg) (product db) with
  | None => ((zeroProduct, Some errors.ErrNoRows), db)
  | Some old =>
      match product_check (UpdateProduct_AvailableItems arg) price with
      | Some err => ((zeroProduct, Some err), db)
      | None =>
          let row :=
            {| product_id := product_id old; product_name := name;
               product_description := description; product_price := price;
               product_available_items := UpdateProduct_AvailableItems arg;
               product_created_at := product_created_at old;
               product_updated_at := product_updated_at old |} in
          ((scanProduct row, None),
           set_product db
             (update_by product_id (UpdateProduct_ID arg) (fun _ => row) (product db))
             (product_id_seq db))
      end
  end))).

(** The CASE of the four delete statements: [found] is the existence check,
    [deleted] the rows the DELETE returns. *)
Definition delete_result {A} (not_found : string) (found : bool) (deleted : list A)
  : string :=
  if negb found then not_found
  else match deleted with
       | [] => "delete_failed"
       | _ => "success"
       end.

(** -- name: DeleteProduct :one
    The DELETE is refused while a row of invoice_item references the product
    (FOREIGN KEY (product_id) REFERENCES product(id)). *)
Definition DeleteProduct (id : Z) : Query DB string := fun db =>
  let product_exists := exists_by product_id id (product db) in
  let delete_product := filter (fun r => product_id r =? id) (product db) in
  match delete_product with
  | _ :: _ =>
      if exists_by InvoiceItem_ProductID id (invoice_item db) then
        fail "" foreign_key_violation "invoice_item_product_id_fkey" db
      else
        ((delete_result "product_not_found" product_exists delete_product, None),
         set_product db (delete_by product_id id (product db)) (product_id_seq db))
  | [] => ((delete_result "product_not_found" product_exists delete_product, None), db)
  end.

(** **** customer *)

(** SELECT * FROM customer ORDER BY id LIMIT 100 *)
Definition ListCustomers : Query DB (slice Customer) := fun db =>
  ((many (limit 100 (order_by Customer_ID (customer db))), None), db).

(** SELECT * FROM customer WHERE id = $1 *)
Definition GetCustomer (id : Z) : Query DB Customer := fun db =>
  match find_by Customer_ID id (customer db) with
  | Some r => ((r, None), db)
  | None => ((zeroCustomer, Some errors.ErrNoRows), db)
  end.

(** INSERT INTO customer (first_name, last_name) VALUES ($1, $2) RETURNING * *)
Definition CreateCustomer (arg : CreateCustomerParams) : Query DB Customer := fun db =>
  input (varchar 50 (CreateCustomer_FirstName arg)) zeroCustomer db (fun first_name =>
  input (varchar 50 (CreateCustomer_LastName arg)) zeroCustomer db (fun last_name =>
  match nextval (customer_id_seq db) with
  | None => fail zeroCustomer sequence_generator_limit_exceeded "" db
  | Some id =>
      let row :=
        {| Customer_ID := id; Customer_FirstName := first_name;
           Customer_LastName := last_name;
           Customer_CreatedAt := clock db; Customer_UpdatedAt := clock db |} in
      ((row, None), set_customer db (customer db ++ [row]) id)
  end)).

(** UPDATE customer SET first_name = $2, last_name = $3 WHERE id = $1
    RETURNING * *)
Definition UpdateCustomer (arg : UpdateCustomerParams) : Query DB Customer := fun db =>
  input (varchar 50 (UpdateCustomer_FirstName arg)) zeroCustomer db (fun first_name =>
  input (varchar 50 (UpdateCustomer_LastName arg)) zeroCustomer db (fun last_name =>
  match find_by Customer_ID (UpdateCustomer_ID arg) (customer db) with
  | None => ((zeroCustomer, Some errors.ErrNoRows), db)
  | Some old =>
      let row :=
        {| Customer_ID := Customer_ID old; Customer_FirstName := first_name;
           Customer_LastName := last_name;
           Customer_CreatedAt := Customer_CreatedAt old;
           Customer_UpdatedAt := Customer_UpdatedAt old |} in
      ((row, None),
       set_customer db
         (update_by Customer_ID (UpdateCustomer_ID arg) (fun _ => row) (customer db))
         (customer_id_seq db))
  end)).

(** -- name: DeleteCustomer :one
    The DELETE is refused while a row of invoice references the customer
    (FOREIGN KEY (customer_id) REFERENCES customer(id)). *)
Definition DeleteCustomer (id : Z) : Query DB string := fun db =>
  let customer_exists := exists_by Customer_ID id (customer db) in
  let delete_customer := filter (fun r => Customer_ID r =? id) (customer db) in
  match delete_customer with
  | _ :: _ =>
      if exists_by Invoice_CustomerID id (invoice db) then
        fail "" foreign_key_violation "invoice_customer_id_fkey" db
      else
        ((delete_result "customer_not_found" customer_exists delete_customer, None),
         set_customer db (delete_by Customer_ID id (customer db)) (customer_id_seq db))
  | [] => ((delete_result "customer_not_found" customer_exists delete_customer, None), db)
  end.

(** **** invoice *)

(** SELECT * FROM invoice ORDER BY id LIMIT 100 *)
Definition ListInvoices : Query DB (slice Invoice) := fun db =>
  ((many (limit 100 (order_by Invoice_ID (invoice db))), None), db).

(** SELECT * FROM invoice WHERE id = $1 *)
Definition GetInvoice (id : Z) : Query DB Invoice := fun db =>
  match find_by Invoice_ID id (invoice db) with
  | Some r => ((r, None), db)
  | None => ((zeroInvoice, Some errors.ErrNoRows), db)
  end.

(** INSERT INTO invoice (invoice_number, invoice_date, customer_id)
    VALUES (...) RETURNING *
    invoice_number is UNIQUE; customer_id REFERENCES customer(id). The unique
    index is checked when the row is inserted, the foreign key at the end of
    the statement. *)
Definition CreateInvoice (arg : CreateInvoiceParams) : Query DB Invoice := fun db =>
  input (varchar 50 (CreateInvoice_InvoiceNumber arg)) zeroInvoice db (fun invoice_number =>
  input (timestamp (CreateInvoice_InvoiceDate arg)) zeroInvoice db (fun invoice_date =>
  match nextval (invoice_id_seq db) with
  | None => fail zeroInvoice sequence_generator_limit_exceeded "" db
  | Some id =>
      let db1 := set_invoice db (invoice db) id in
      if existsb (fun r => Invoice_InvoiceNumber r == invoice_number) (invoice db) then
        fail zeroInvoice unique_violation "invoice_invoice_number_key" db1
      else if negb (exists_by Customer_ID (CreateInvoice_CustomerID arg) (customer db)) then
        fail zeroInvoice foreign_key_violation "invoice_customer_id_fkey" db1
      else
        let row :=
          {| Invoice_ID := id; Invoice_InvoiceNumber := invoice_number;
             Invoice_InvoiceDate := invoice_date;
             Invoice_CustomerID := CreateInvoice_CustomerID arg;
             Invoice_CreatedAt := clock db; Invoice_UpdatedAt := clock db |} in
        ((row, None), set_invoice db (invoice db ++ [row]) id)
  end)).

(** The row of UpdateInvoice: the CASE, and the columns of the updated row
    (NULL when there is none, by the RIGHT JOIN). *)
Definition updateInvoiceRow (found : bool) (updated : option Invoice) : UpdateInvoiceRow :=
  let result :=
    if negb found then "invoice_not_found"
    else match updated with
         | None => "update_failed"
         | Some _ => "success"
         end in
  match updated with
  | None =>
      {| UpdateInvoiceRow_Result := result; UpdateInvoiceRow_ID := zeroNullInt32;
         UpdateInvoiceRow_InvoiceNumber := zeroNullString;
         UpdateInvoiceRow_InvoiceDate := zeroNullTime;
         UpdateInvoiceRow_CustomerID := zeroNullInt32;
         UpdateInvoiceRow_CreatedAt := zeroNullTime;
         UpdateInvoiceRow_UpdatedAt := zeroNullTime |}
  | Some r =>
      {| UpdateInvoiceRow_Result := result;
         UpdateInvoiceRow_ID :=
           {| sql.NullInt32_Int32 := Invoice_ID r; sql.NullInt32_Valid := true |};
         UpdateInvoiceRow_InvoiceNumber :=
           {| sql.NullString_String := Invoice_InvoiceNumber r;
              sql.NullString_Valid := true |};
         UpdateInvoiceRow_InvoiceDate :=
           {| sql.NullTime_Time := Invoice_InvoiceDate r; sql.NullTime_Valid := true |};
         UpdateInvoiceRow_CustomerID :=
           {| sql.NullInt32_Int32 := Invoice_CustomerID r; sql.NullInt32_Valid := true |};
         UpdateInvoiceRow_CreatedAt :=
           {| sql.NullTime_Time := Invoice_CreatedAt r; sql.NullTime_Valid := true |};
         UpdateInvoiceRow_UpdatedAt :=
           {| sql.NullTime_Time := Invoice_UpdatedAt r; sql.NullTime_Valid := true |} |}
  end.

(** -- name: UpdateInvoice :one *)
Definition UpdateInvoice (arg : UpdateInvoiceParams) : Query DB UpdateInvoiceRow := fun db =>
  input (varchar 50 (UpdateInvoice_InvoiceNumber arg)) zeroUpdateInvoiceRow db
    (fun invoice_number =>
  input (timestamp (UpdateInvoice_InvoiceDate arg)) zeroUpdateInvoiceRow db
    (fun invoice_date =>
  let id := UpdateInvoice_ID arg in
  let invoice_exists := exists_by Invoice_ID id (invoice db) in
  match find_by Invoice_ID id (invoice db) with
  | None => ((updateInvoiceRow invoice_exists None, None), db)
  | Some old =>
      if existsb (fun r => (Invoice_InvoiceNumber r == invoice_number)
                           && negb (Invoice_ID r =? id)) (invoice db) then
        fail zeroUpdateInvoiceRow unique_violation "invoice_invoice_number_key" db
      else if negb (exists_by Customer_ID (UpdateInvoice_CustomerID arg) (customer db)) then
        fail zeroUpdateInvoiceRow foreign_key_violation "invoice_customer_id_fkey" db
      else
        let row :=
          {| Invoice_ID := Invoice_ID old; Invoice_InvoiceNumber := invoice_number;
             Invoice_InvoiceDate := invoice_date;
             Invoice_CustomerID := UpdateInvoice_CustomerID arg;
             Invoice_CreatedAt := Invoice_CreatedAt old;
             Invoice_UpdatedAt := Invoice_UpdatedAt old |} in
        ((updateInvoiceRow invoice_exists (Some row), None),
         set_invoice db (update_by Invoice_ID id (fun _ => row) (invoice db))
           (invoice_id_seq db))
  end)).

(** -- name: DeleteInvoice :one
    The DELETE is refused while a row of invoice_item references the invoice
    (FOREIGN KEY (invoice_id) REFERENCES invoice(id)). *)
Definition DeleteInvoice (id : Z) : Query DB string := fun db =>
  let invoice_exists := exists_by Invoice_ID id (invoice db) in
  let delete_invoice := filter (fun r => Invoice_ID r =? id) (invoice db) in
  match delete_invoice with
  | _ :: _ =>
      if exists_by InvoiceItem_InvoiceID id (invoice_item db) then
        fail "" foreign_key_violation "invoice_item_invoice_id_fkey" db
      else
        ((delete_result "invoice_not_found" invoice_exists delete_invoice, None),
         set_invoice db (delete_by Invoice_ID id (invoice db)) (invoice_id_seq db))
  | [] => ((delete_result "invoice_not_found" invoice_exists delete_invoice, None), db)
  end.

(** **** invoice_item *)

(** invoice_item ii JOIN Product p ON ii.product_id = p.id
    WHERE ii.invoice_id = $1 *)
Definition joinProducts (invoiceID : Z) (db : DB) : list (InvoiceItem * product_row) :=
  flat_map
    (fun ii =>
       map (fun p => (ii, p))
         (filter (fun p => InvoiceItem_ProductID ii =? product_id p) (product db)))
    (filter (fun ii => InvoiceItem_InvoiceID ii =? invoiceID) (invoice_item db)).

(** A NUMERIC value times an integer: NaN times a number is NaN. *)
Definition numeric_mul (v : numeric) (k : Z) : numeric :=
  match v with
  | Num n => Num (n * k)
  | NaN => NaN
  end.

(** CAST(v AS numeric(10,2)) of a value with two decimals: eight digits
    before the decimal point at most; NaN passes. *)
Definition numeric_cast (v : numeric) : option numeric :=
  match v with
  | Num n => if Z.abs n <? 10000000000 then Some v else None
  | NaN => Some NaN
  end.

(** CAST((p.price * ii.count) AS numeric(10,2)) *)
Definition lineSum (ii : InvoiceItem) (p : product_row) : option numeric :=
  numeric_cast (numeric_mul (product_price p) (InvoiceItem_Count ii)).

Definition selectLine (ip : InvoiceItem * product_row)
  : option ListProductsFromInvoiceRow :=
  let (ii, p) := ip in
  match lineSum ii p with
  | Some sum =>
      Some {| Row_ID := product_id p;
              Row_Name := product_name p;
              Row_Description := Product_Description (scanProduct p);
              Row_Price := numeric_text (product_price p);
              Row_Count := InvoiceItem_Count ii;
              Row_Sum := numeric_text sum |}
  | None => None
  end.

(** All of [l] selected, or [None] when one selection fails. *)
Fixpoint selectAll {A B} (f : A -> option B) (l : list A) : option (list B) :=
  match l with
  | [] => Some []
  | x :: rest =>
      match f x, selectAll f rest with
      | Some y, Some ys => Some (y :: ys)
      | _, _ => None
      end
  end.

(** -- name: ListProductsFromInvoice :many *)
Definition ListProductsFromInvoice (invoiceID : Z)
  : Query DB (slice ListProductsFromInvoiceRow) := fun db =>
  match selectAll selectLine (joinProducts invoiceID db) with
  | Some rows => ((many (limit 100 (order_by Row_ID rows)), None), db)
  | None => fail NilSlice numeric_value_out_of_range "" db
  end.

Definition samePair (invoiceID productID : Z) (r : InvoiceItem) : bool :=
  (InvoiceItem_InvoiceID r =? invoiceID) && (InvoiceItem_ProductID r =? productID).

Definition setCount (count : Z) (r : InvoiceItem) : InvoiceItem :=
  {| InvoiceItem_ID := InvoiceItem_ID r;
     InvoiceItem_InvoiceID := InvoiceItem_InvoiceID r;
     InvoiceItem_ProductID := InvoiceItem_ProductID r;
     InvoiceItem_Count := count;
     InvoiceItem_CreatedAt := InvoiceItem_CreatedAt r;
     InvoiceItem_UpdatedAt := InvoiceItem_UpdatedAt r |}.

(** INSERT INTO invoice_item (invoice_id, product_id, count) VALUES (...)
    ON CONFLICT (invoice_id, product_id) DO UPDATE SET count = EXCLUDED.count
    RETURNING *
    The id is drawn from the sequence and CHECK (count > 0) is evaluated on
    the proposed row before the conflict is looked for; the foreign keys
    (invoice_id, then product_id) are checked for an inserted row only. *)
Definition AddProductToInvoice (arg : AddProductToInvoiceParams)
  : Query DB InvoiceItem := fun db =>
  let invoiceID := AddProduct_InvoiceID arg in
  let productID := AddProduct_ProductID arg in
  let count := AddProduct_Count arg in
  match nextval (invoice_item_id_seq db) with
  | None => fail zeroInvoiceItem sequence_generator_limit_exceeded "" db
  | Some id =>
      let db1 := set_invoice_item db (invoice_item db) id in
      if negb (count >? 0) then
        fail zeroInvoiceItem check_violation "invoice_item_count_check" db1
      else
        match find (samePair invoiceID productID) (invoice_item db) with
        | Some old =>
            (* ON CONFLICT DO UPDATE *)
            ((setCount count old, None),
             set_invoice_item db
               (map (fun r => if samePair invoiceID productID r then setCount count r else r)
                  (invoice_item db))
               id)
        | None =>
            if negb (exists_by Invoice_ID invoiceID (invoice db)) then
              fail zeroInvoiceItem foreign_key_violation "invoice_item_invoice_id_fkey" db1
            else if negb (exists_by product_id productID (product db)) then
              fail zeroInvoiceItem foreign_key_violation "invoice_item_product_id_fkey" db1
            else
              let row :=
                {| InvoiceItem_ID := id; InvoiceItem_InvoiceID := invoiceID;
                   InvoiceItem_ProductID := productID; InvoiceItem_Count := count;
                   InvoiceItem_CreatedAt := clock db;
                   InvoiceItem_UpdatedAt := clock db |} in
              ((row, None), set_invoice_item db (invoice_item db ++ [row]) id)
        end
  end.

(** -- name: DeleteProductFromInvoice :one
    No table references invoice_item. *)
Definition DeleteProductFromInvoice (arg : DeleteProductFromInvoiceParams)
  : Query DB string := fun db =>
  let same := samePair (DeleteProduct_InvoiceID arg) (DeleteProduct_ProductID arg) in
  let invoice_item_exists := existsb same (invoice_item db) in
  let delete_invoice_item := filter same (invoice_item db) in
  ((delete_result "invoice_item_not_found" invoice_item_exists delete_invoice_item, None),
   set_invoice_item db (filter (fun r => negb (same r)) (invoice_item db))
     (invoice_item_id_seq db)).

End Statements.

(** *** The statements that write

    The INSERT, UPDATE and DELETE statements of query.sql with their
    arguments, and the database each leaves. *)
Inductive Write : Type :=
| WCreateProduct (arg : CreateProductParams)
| WUpdateProduct (arg : UpdateProductParams)
| WDeleteProduct (id : Z)
| WCreateCustomer (arg : CreateCustomerParams)
| WUpdateCustomer (arg : UpdateCustomerParams)
| WDeleteCustomer (id : Z)
| WCreateInvoice (arg : CreateInvoiceParams)
| WUpdateInvoice (arg : UpdateInvoiceParams)
| WDeleteInvoice (id : Z)
| WAddProductToInvoice (arg : AddProductToInvoiceParams)
| WDeleteProductFromInvoice (arg : DeleteProductFromInvoiceParams).

Definition run {ci : ColumnInput} (w : Write) (db : DB) : DB :=
  match w with
  | WCreateProduct arg => snd (CreateProduct arg db)
  | WUpdateProduct arg => snd (UpdateProduct arg db)
  | WDeleteProduct id => snd (DeleteProduct id db)
  | WCreateCustomer arg => snd (CreateCustomer arg db)
  | WUpdateCustomer arg => snd (UpdateCustomer arg db)
  | WDeleteCustomer id => snd (DeleteCustomer id db)
  | WCreateInvoice arg => snd (CreateInvoice arg db)
  | WUpdateInvoice arg => snd (UpdateInvoice arg db)
  | WDeleteInvoice id => snd (DeleteInvoice id db)
  | WAddProductToInvoice arg => snd (AddProductToInvoice arg db)
  | WDeleteProductFromInvoice arg => snd (DeleteProductFromInvoice arg db)
  end.

(** *** What the constraints of schema.sql keep true *)

(** FOREIGN KEY (invoice_id) REFERENCES invoice(id): every row of
    invoice_item references a row of invoice. *)
Definition invoice_id_fkey (db : DB) : Prop :=
  forall it, In it (invoice_item db) ->
             exists_by Invoice_ID (InvoiceItem_InvoiceID it) (invoice db) = true.

(** UNIQUE (invoice_id, product_id): no two rows of invoice_item, at
    different places of the table, have the same pair. *)
Definition invoice_item_unique (items : list InvoiceItem) : Prop :=
  NoDup (map (fun it => (InvoiceItem_InvoiceID it, InvoiceItem_ProductID it)) items).

(** Both together. *)
Definition consistent (db : DB) : Prop :=
  invoice_item_unique (invoice_item db) /\ invoice_id_fkey db.

(** The four tables, without the sequences and the clock. *)
Definition tables (db : DB)
  : list Customer * list product_row * list Invoice * list InvoiceItem :=
  (customer db, product db, invoice db, invoice_item db).

(** id SERIAL PRIMARY KEY: the ids of a table are distinct and are values its
    sequence has handed out, and the sequence is within the range of int. *)
Definition keys {A} (key : A -> Z) (rows : list A) (seq : Z) : Prop :=
  NoDup (map key rows)
  /\ Forall (fun id => 1 <= id <= seq) (map key rows)
  /\ 0 <= seq <= 2147483647.

Definition primary_keys (db : DB) : Prop :=
  keys Customer_ID (customer db) (customer_id_seq db)
  /\ keys product_id (product db) (product_id_seq db)
  /\ keys Invoice_ID (invoice db) (invoice_id_seq db)
  /\ keys InvoiceItem_ID (invoice_item db) (invoice_item_id_seq db).

(** invoice_number VARCHAR(50) NOT NULL UNIQUE *)
Definition invoice_number_unique (rows : list Invoice) : Prop :=
  NoDup (map Invoice_InvoiceNumber rows).

(** FOREIGN KEY (customer_id) REFERENCES customer(id) *)
Definition customer_id_fkey (db : DB) : Prop :=
  forall inv, In inv (invoice db) ->
              exists_by Customer_ID (Invoice_CustomerID inv) (customer db) = true.

(** FOREIGN KEY (product_id) REFERENCES product(id) *)
Definition product_id_fkey (db : DB) : Prop :=
  forall it, In it (invoice_item db) ->
             exists_by product_id (InvoiceItem_ProductID it) (product db) = true.

(** CHECK (price >= 0), CHECK (available_items >= 0), CHECK (count > 0) *)
Definition checks (db : DB) : Prop :=
  (forall p, In p (product db) ->
             numeric_ge0 (product_price p) = true /\ 0 <= product_available_items p)
  /\ (forall it, In it (invoice_item db) -> 0 < InvoiceItem_Count it).

(** Every constraint of schema.sql. *)
Definition valid (db : DB) : Prop :=
  primary_keys db
  /\ invoice_number_unique (invoice db)
  /\ consistent db
  /\ customer_id_fkey db
  /\ product_id_fkey db
  /\ checks db.

(** No sequence of [db'] is behind that of [db]. *)
Definition sequences_le (db db' : DB) : Prop :=
  customer_id_seq db <= customer_id_seq db'
  /\ product_id_seq db <= product_id_seq db'
  /\ invoice_id_seq db <= invoice_id_seq db'
  /\ invoice_item_id_seq db <= invoice_item_id_seq db'.

(** What is shown of each request: the database it leaves is the one it
    found or the one a single writing statement leaves; an answer with a
    status of 400 or more comes with the tables as they were; a GET changes
    nothing. *)
Definition well_behaved {ci : ColumnInput} (r : http.Request) (db : DB)
  (res : http.Response * DB)
  : Prop :=
  (snd res = db \/ exists w, snd res = run w db)
  /\ (400 <= http.StatusCode (fst res) -> tables (snd res) = tables db)
  /\ (http.Method r = http.MethodGet -> snd res = db).

(** The store behind the handlers in main.go: [database.New(db)]. *)
#[global] Instance Products {ci : ColumnInput} : ProductQueries DB :=
  {| database.ListProducts := ListProducts;
     database.CreateProduct := CreateProduct;
     database.GetProduct := GetProduct;
     database.UpdateProduct := UpdateProduct;
     database.DeleteProduct := DeleteProduct |}.

#[global] Instance Customers {ci : ColumnInput} : CustomerQueries DB :=
  {| database.ListCustomers := ListCustomers;
     database.CreateCustomer := CreateCustomer;
     database.GetCustomer := GetCustomer;
     database.UpdateCustomer := UpdateCustomer;
     database.DeleteCustomer := DeleteCustomer |}.

#[global] Instance Invoices {ci : ColumnInput} : InvoiceQueries DB :=
  {| database.ListInvoices := ListInvoices;
     database.CreateInvoice := CreateInvoice;
     database.GetInvoice := GetInvoice;
     database.UpdateInvoice := UpdateInvoice;
     database.DeleteInvoice := DeleteInvoice;
     database.ListProductsFromInvoice := ListProductsFromInvoice;
     database.AddProductToInvoice := AddProductToInvoice;
     database.DeleteProductFromInvoice := DeleteProductFromInvoice |}.

End pg.

(** ** main.go: the routes

    The patterns registered with [http.HandleFunc] and their handlers, over
    the store [database.New(db)]; [now] is what [time.Now()] returns while
    the request is handled. The health endpoint, which pings the database
    and touches no table, is left out. *)
Module main.

Definition HandlerFunc : Type := http.Request -> pg.DB -> http.Response * pg.DB.

Definition routes {ci : pg.ColumnInput} {rt : handlers.Runtime} (now : time.Time)
  : list (string * HandlerFunc) :=
  [ (config.ProductsApiPrefix, handlers.ProductsHandler);
    (config.ProductsApiPrefix ++ "/", handlers.ProductHandler);
    (config.CustomersApiPrefix, handlers.CustomersHandler);
    (config.CustomersApiPrefix ++ "/", handlers.CustomerHandler);
    (config.InvoicesApiPrefix, handlers.InvoicesHandler now);
    (config.InvoicesApiPrefix ++ "/", handlers.InvoiceHandler) ].

(** A handler that main.go registers, at some instant. *)
Definition registered {ci : pg.ColumnInput} {rt : handlers.Runtime} (h : HandlerFunc)
  : Prop :=
  exists now pattern, In (pattern, h) (routes now).

(** The database after the requests of [steps], each given to its handler in
    turn. *)
Definition served (steps : list (HandlerFunc * http.Request)) (db : pg.DB) : pg.DB :=
  fold_left (fun db step => snd (fst step (snd step) db)) steps db.

End main.

(** ** Counting the statements a request runs

    Every method of [database.Queries] runs one statement of query.sql. The
    store below hands each call to the store beneath it and counts it, so
    that the number of statements a handler runs can be read off the state
    it returns. *)
Module counting.

Import database.

Definition call {St A : Type} (q : Query St A) : Query (St * nat) A :=
  fun sn => let '(res, s') := q (fst sn) in (res, (s', S (snd sn))).

Definition Products {St : Type} (Q : ProductQueries St) : ProductQueries (St * nat) :=
  {| ListProducts := call ListProducts;
     CreateProduct := fun arg => call (CreateProduct arg);
     GetProduct := fun id => call (GetProduct id);
     UpdateProduct := fun arg => call (UpdateProduct arg);
     DeleteProduct := fun id => call (DeleteProduct id) |}.

Definition Customers {St : Type} (Q : CustomerQueries St)
  : CustomerQueries (St * nat) :=
  {| ListCustomers := call ListCustomers;
     CreateCustomer := fun arg => call (CreateCustomer arg);
     GetCustomer := fun id => call (GetCustomer id);
     UpdateCustomer := fun arg => call (UpdateCustomer arg);
     DeleteCustomer := fun id => call (DeleteCustomer id) |}.

Definition Invoices {St : Type} (Q : InvoiceQueries St) : InvoiceQueries (St * nat) :=
  {| ListInvoices := call ListInvoices;
     CreateInvoice := fun arg => call (CreateInvoice arg);
     GetInvoice := fun id => call (GetInvoice id);
     UpdateInvoice := fun arg => call (UpdateInvoice arg);
     DeleteInvoice := fun id => call (DeleteInvoice id);
     ListProductsFromInvoice := fun id => call (ListProductsFromInvoice id);
     AddProductToInvoice := fun arg => call (AddProductToInvoice arg);
     DeleteProductFromInvoice := fun arg => call (DeleteProductFromInvoice arg) |}.

(** The run [counted] over the counting store, begun with [n] calls counted,
    answers as the run [plain] over the store beneath, leaves that store as
    [plain] leaves it, and has made at most one call. *)
Definition at_most_once {St : Type} (plain : http.Response * St)
  (counted : http.Response * (St * nat)) (n : nat) : Prop :=
  exists k : nat, (k <= 1)%nat /\ counted = (fst plain, (snd plain, (k + n)%nat)).

End counting.

(** ** Stores and decoders for tests

    As the repository's tests put mock queries behind the handlers, the
    statements below are tried on stores with fixed answers, and on the
    tables of [pg] with the simplest conversions. *)
Module mock.

Import database.

(** A method that counts its call and returns [(a, err)]. *)
Definition ret {A} (a : A) (err : option errors.error) : Query nat A :=
  fun calls => ((a, err), S calls).

(** productMockQueries: every method returns [err]; the values are
    [listed], [row] and [deleted]. *)
Definition Products (listed : slice Product) (row : Product) (deleted : string)
  (err : option errors.error) : ProductQueries nat :=
  {| ListProducts := ret listed err;
     CreateProduct := fun _ => ret row err;
     GetProduct := fun _ => ret row err;
     UpdateProduct := fun _ => ret row err;
     DeleteProduct := fun _ => ret deleted err |}.

(** customerMockQueries. *)
Definition Customers (listed : slice Customer) (row : Customer) (deleted : string)
  (err : option errors.error) : CustomerQueries nat :=
  {| ListCustomers := ret listed err;
     CreateCustomer := fun _ => ret row err;
     GetCustomer := fun _ => ret row err;
     UpdateCustomer := fun _ => ret row err;
     DeleteCustomer := fun _ => ret deleted err |}.

(** invoiceMockQueries. *)
Definition Invoices (listed : slice Invoice) (row : Invoice)
  (lines : slice ListProductsFromInvoiceRow) (item : InvoiceItem) (deleted : string)
  (err : option errors.error) : InvoiceQueries nat :=
  {| ListInvoices := ret listed err;
     CreateInvoice := fun _ => ret row err;
     GetInvoice := fun _ => ret row err;
     UpdateInvoice := fun _ => ret (pg.updateInvoiceRow true (Some row)) err;
     DeleteInvoice := fun _ => ret deleted err;
     ListProductsFromInvoice := fun _ => ret lines err;
     AddProductToInvoice := fun _ => ret item err;
     DeleteProductFromInvoice := fun _ => ret deleted err |}.

(** A stand-in for the JSON decoder: the fields of a body in order, one per
    vertical bar, numbers in decimal, an empty invoice date for none. *)
Definition fields (body : string) : list string := strings.Split body "|".

Definition decoders : handlers.Runtime :=
  {| handlers.decodeCreateProduct := fun body =>
       match fields body with
       | [name; description; price; available] =>
           option_map
             (fun n => {| handlers.createProduct_Name := name;
                          handlers.createProduct_Description := description;
                          handlers.createProduct_Price := price;
                          handlers.createProduct_AvailableItems := n |})
             (strconv.Atoi available)
       | _ => None
       end;
     handlers.decodeUpdateProduct := fun body =>
       match fields body with
       | [name; description; price; available] =>
           option_map
             (fun n => {| handlers.updateProduct_Name := name;
                          handlers.updateProduct_Description := description;
                          handlers.updateProduct_Price := price;
                          handlers.updateProduct_AvailableItems := n |})
             (strconv.Atoi available)
       | _ => None
       end;
     handlers.decodeCreateCustomer := fun body =>
       match fields body with
       | [first; last] =>
           Some {| handlers.createCustomer_FirstName := first;
                   handlers.createCustomer_LastName := last |}
       | _ => None
       end;
     handlers.decodeUpdateCustomer := fun body =>
       match fields body with
       | [first; last] =>
           Some {| handlers.updateCustomer_FirstName := first;
                   handlers.updateCustomer_LastName := last |}
       | _ => None
       end;
     handlers.decodeCreateInvoice := fun body =>
       match fields body with
       | [number; date; customer] =>
           option_map
             (fun n => {| handlers.createInvoice_InvoiceNumber := number;
                          handlers.createInvoice_InvoiceDate := strconv.Atoi date;
                          handlers.createInvoice_CustomerID := n |})
             (strconv.Atoi customer)
       | _ => None
       end;
     handlers.decodeUpdateInvoice := fun body =>
       match fields body with
       | [number; date; customer] =>
           match strconv.Atoi date, strconv.Atoi customer with
           | Some d, Some n =>
               Some {| handlers.updateInvoice_InvoiceNumber := number;
                       handlers.updateInvoice_InvoiceDate := d;
                       handlers.updateInvoice_CustomerID := n |}
           | _, _ => None
           end
       | _ => None
       end;
     handlers.decodeCreateInvoiceItem := fun body =>
       option_map (fun n => {| handlers.createInvoiceItem_Count := n |})
         (strconv.Atoi body);
     handlers.ParseFloat_err := fun s =>
       if s == "NaN" then false
       else match strconv.Atoi s with
            | Some _ => false
            | None => true
            end |}.

(** Conversions that store every string and instant as given and read a
    price as a whole number or as NaN. *)
Definition columns : pg.ColumnInput :=
  {| pg.varchar := fun _ s => inl s;
     pg.text := fun s => inl s;
     pg.numeric_10_2 := fun s =>
       if s == "NaN" then inl pg.NaN
       else match strconv.Atoi s with
            | Some n => inl (pg.Num (n * 100))
            | None => inr "22P02"
            end;
     pg.timestamp := fun t => inl t;
     pg.numeric_10_2_NaN := eq_refl |}.

Definition request (method path body : string) : http.Request :=
  {| http.Method := method; http.URL_Path := path; http.Body := body |}.

(** A database with one customer and one invoice of theirs. *)
Definition jarred : Customer :=
  {| Customer_ID := 1; Customer_FirstName := "Jarred"; Customer_LastName := "Black";
     Customer_CreatedAt := 0; Customer_UpdatedAt := 0 |}.

Definition inv1 : Invoice :=
  {| Invoice_ID := 1; Invoice_InvoiceNumber := "INV-1"; Invoice_InvoiceDate := 777;
     Invoice_CustomerID := 1; Invoice_CreatedAt := 0; Invoice_UpdatedAt := 0 |}.

Definition oneInvoice : pg.DB :=
  {| pg.customer := [jarred]; pg.product := []; pg.invoice := [inv1];
     pg.invoice_item := [];
     pg.customer_id_seq := 1; pg.product_id_seq := 0; pg.invoice_id_seq := 1;
     pg.invoice_item_id_seq := 0; pg.clock := 0 |}.

(** A database with one customer and nothing else. *)
Definition oneCustomer : pg.DB :=
  {| pg.customer := [jarred]; pg.product := []; pg.invoice := [];
     pg.invoice_item := [];
     pg.customer_id_seq := 1; pg.product_id_seq := 0; pg.invoice_id_seq := 0;
     pg.invoice_item_id_seq := 0; pg.clock := 0 |}.

(** A database with a customer, an invoice of theirs and a product. *)
Definition mouse : pg.product_row :=
  {| pg.product_id := 1; pg.product_name := "Mouse"; pg.product_description := None;
     pg.product_price := pg.Num 22200; pg.product_available_items := 22;
     pg.product_created_at := 0; pg.product_updated_at := 0 |}.

Definition oneProduct : pg.DB :=
  {| pg.customer := [jarred]; pg.product := [mouse]; pg.invoice := [inv1];
     pg.invoice_item := [];
     pg.customer_id_seq := 1; pg.product_id_seq := 1; pg.invoice_id_seq := 1;
     pg.invoice_item_id_seq := 1; pg.clock := 0 |}.

(** The same with five of the product on the invoice. *)
Definition line : InvoiceItem :=
  {| InvoiceItem_ID := 2; InvoiceItem_InvoiceID := 1; InvoiceItem_ProductID := 1;
     InvoiceItem_Count := 5; InvoiceItem_CreatedAt := 0; InvoiceItem_UpdatedAt := 0 |}.

Definition oneLine : pg.DB := pg.set_invoice_item oneProduct [line] 2.

(** The same with NaN as the price of the product. *)
Definition unpriced : pg.product_row :=
  {| pg.product_id := 1; pg.product_name := "Mouse"; pg.product_description := None;
     pg.product_price := pg.NaN; pg.product_available_items := 22;
     pg.product_created_at := 0; pg.product_updated_at := 0 |}.

Definition unpricedLine : pg.DB := pg.set_product oneLine [unpriced] 1.

(** A session: each request answered in turn, the answers collected. *)
Definition Handler : Type := http.Request -> pg.DB -> http.Response * pg.DB.

Fixpoint session (steps : list (Handler * http.Request)) (db : pg.DB)
  : list http.Response * pg.DB :=
  match steps with
  | [] => ([], db)
  | (h, r) :: rest =>
      let (resp, db) := h r db in
      let (resps, db) := session rest db in
      (resp :: resps, db)
  end.

(** A foreign-key violation of the constraint [name]. *)
Definition fkViolation (name : string) : option errors.error :=
  pg.pqError pg.foreign_key_violation name.

(** A check violation of the constraint [name]. *)
Definition checkViolation (name : string) : option errors.error :=
  pg.pqError pg.check_violation name.

End mock.

(** * Properties *)

(** ** Integers, slices, strings *)

Lemma int32_in_range (x : Z) : in_int32 (int32 x).
Proof.
  unfold in_int32, int32.
  pose proof (Z.mod_pos_bound (x + 2147483648) 4294967296 eq_refl). lia.
Qed.

Lemma int32_small (x : Z) : in_int32 x -> int32 x = x.
Proof.
  unfold in_int32, int32. intros H.
  rewrite Z.mod_small by lia. lia.
Qed.

Lemma fold_append {A T} (f : A -> T) (l : list A) (acc : list T) :
  fold_left (fun response x => append response (f x)) l (Slice acc)
  = Slice (acc ++ map f l).
Proof.
  revert acc. induction l as [|x l IH]; intros acc; simpl.
  - now rewrite app_nil_r.
  - unfold append at 2. simpl. rewrite IH, <- app_assoc. reflexivity.
Qed.

(** The response of a list handler is never the nil slice. *)
Lemma collect_map {A T} (f : A -> T) (xs : slice A) :
  handlers.collect f xs = Slice (map f (elems xs)).
Proof. unfold handlers.collect. now rewrite fold_append. Qed.

Lemma streq_true (a b : string) : (a == b) = true <-> a = b.
Proof. apply String.eqb_eq. Qed.

Lemma streq_false (a b : string) : (a == b) = false <-> a <> b.
Proof. apply String.eqb_neq. Qed.

Lemma streq_refl (a : string) : (a == a) = true.
Proof. apply String.eqb_refl. Qed.

(** ** ORDER BY and LIMIT *)
Section OrderBy.

Context {A : Type} (key : A -> Z).

#[local] Abbreviation ascending := (pg.ascending key).

Lemma insert_by_perm (x : A) (l : list A) :
  Permutation (pg.insert_by key x l) (x :: l).
Proof.
  induction l as [|y l IH]; simpl.
  - reflexivity.
  - destruct (key x <=? key y).
    + reflexivity.
    + rewrite IH. apply perm_swap.
Qed.

Lemma order_by_perm (l : list A) : Permutation (pg.order_by key l) l.
Proof.
  induction l as [|x l IH]; simpl.
  - constructor.
  - rewrite insert_by_perm. now constructor.
Qed.

Lemma insert_by_sorted (x : A) (l : list A) :
  StronglySorted ascending l -> StronglySorted ascending (pg.insert_by key x l).
Proof.
  induction 1 as [|y l Hs IH Hy]; simpl.
  - repeat constructor.
  - destruct (key x <=? key y) eqn:E.
    + apply Z.leb_le in E. constructor.
      * now constructor.
      * constructor; [exact E|].
        eapply Forall_impl; [|exact Hy]. unfold pg.ascending. intros; lia.
    + apply Z.leb_gt in E. constructor; [exact IH|].
      eapply Permutation_Forall.
      * symmetry. apply insert_by_perm.
      * constructor; [unfold pg.ascending; lia | exact Hy].
Qed.

Lemma order_by_sorted (l : list A) : StronglySorted ascending (pg.order_by key l).
Proof.
  induction l as [|x l IH]; simpl.
  - constructor.
  - now apply insert_by_sorted.
Qed.

Lemma in_firstn (n : nat) (l : list A) (x : A) : In x (firstn n l) -> In x l.
Proof.
  revert n. induction l as [|y l IH]; intros [|n]; simpl; try tauto.
  intros [H|H]; [now left | right; eauto].
Qed.

Lemma firstn_sorted (n : nat) (l : list A) :
  StronglySorted ascending l -> StronglySorted ascending (firstn n l).
Proof.
  intros H. revert n. induction H as [|x l Hs IH Hx]; intros [|n]; simpl;
    try constructor.
  - apply IH.
  - rewrite Forall_forall in *. intros y Hy. apply Hx.
    eapply in_firstn; eauto.
Qed.

(** [ORDER BY key LIMIT n]: at most [n] rows of the table, in ascending order
    of [key], and all of them when the table has no more than [n]. *)
Lemma order_by_limit (n : nat) (l : list A) :
  let rows := pg.limit n (pg.order_by key l) in
  (length rows <= n)%nat
  /\ StronglySorted ascending rows
  /\ (forall x, In x rows -> In x l)
  /\ ((length l <= n)%nat -> Permutation rows l).
Proof.
  unfold pg.limit. repeat split.
  - apply firstn_le_length.
  - apply firstn_sorted, order_by_sorted.
  - intros x Hx. eapply Permutation_in; [apply order_by_perm|].
    eapply in_firstn; eauto.
  - intros Hl. rewrite firstn_all2; [apply order_by_perm|].
    now rewrite (Permutation_length (order_by_perm l)).
Qed.

End OrderBy.

Lemma elems_many {A} (rows : list A) : elems (pg.many rows) = rows.
Proof. now destruct rows. Qed.

Lemma map_sorted {A B} (f : A -> B) (ka : A -> Z) (kb : B -> Z) (l : list A) :
  (forall a, kb (f a) = ka a) ->
  StronglySorted (pg.ascending ka) l -> StronglySorted (pg.ascending kb) (map f l).
Proof.
  intros Hk. induction 1 as [|x l Hs IH Hx]; simpl; constructor; auto.
  rewrite Forall_map. eapply Forall_impl; [|exact Hx].
  unfold pg.ascending. intros a. now rewrite !Hk.
Qed.

(** ** The entity lists *)

(** C8: on the tables of schema.sql, GET /products, GET /customers and
    GET /invoices answer 200 with rows of the table, at most 100 of them, in
    ascending order of id. *)
Theorem list_at_most_100_ascending
  (ci : pg.ColumnInput) (rt : handlers.Runtime) (now : time.Time)
  (db : pg.DB) (path body : string) :
  let r := {| http.Method := http.MethodGet; http.URL_Path := path; http.Body := body |} in
  (exists rows,
      handlers.ProductsHandler r db
      = (handlers.writeServerResponse http.StatusOK
           (Slice (map handlers.toProductResponse rows)), db)
      /\ (length rows <= 100)%nat
      /\ StronglySorted (pg.ascending database.Product_ID) rows
      /\ (forall x, In x rows -> In x (map pg.scanProduct (pg.product db))))
  /\ (exists rows,
      handlers.CustomersHandler r db
      = (handlers.writeServerResponse http.StatusOK
           (Slice (map handlers.toCustomerResponse rows)), db)
      /\ (length rows <= 100)%nat
      /\ StronglySorted (pg.ascending database.Customer_ID) rows
      /\ (forall x, In x rows -> In x (pg.customer db)))
  /\ (exists rows,
      handlers.InvoicesHandler now r db
      = (handlers.writeServerResponse http.StatusOK
           (Slice (map handlers.toInvoiceResponse rows)), db)
      /\ (length rows <= 100)%nat
      /\ StronglySorted (pg.ascending database.Invoice_ID) rows
      /\ (forall x, In x rows -> In x (pg.invoice db))).
Proof.
  intros r. repeat split.
  - exists (map pg.scanProduct (pg.limit 100 (pg.order_by pg.product_id (pg.product db)))).
    destruct (order_by_limit pg.product_id 100 (pg.product db)) as (Hlen & Hs & Hin & _).
    repeat split.
    + unfold handlers.ProductsHandler. cbn.
      now rewrite collect_map, elems_many.
    + now rewrite length_map.
    + eapply map_sorted; [|exact Hs]. reflexivity.
    + intros x Hx. apply in_map_iff in Hx as (y & <- & Hy).
      apply in_map, Hin, Hy.
  - exists (pg.limit 100 (pg.order_by database.Customer_ID (pg.customer db))).
    destruct (order_by_limit database.Customer_ID 100 (pg.customer db))
      as (Hlen & Hs & Hin & _).
    repeat split; auto.
    unfold handlers.CustomersHandler. cbn.
    now rewrite collect_map, elems_many.
  - exists (pg.limit 100 (pg.order_by database.Invoice_ID (pg.invoice db))).
    destruct (order_by_limit database.Invoice_ID 100 (pg.invoice db))
      as (Hlen & Hs & Hin & _).
    repeat split; auto.
    unfold handlers.InvoicesHandler. cbn.
    now rewrite collect_map, elems_many.
Qed.

(** ** The segments of an invoice path *)

Lemma len_app {A} (l1 l2 : list A) : len (l1 ++ l2) = len l1 + len l2.
Proof. unfold len. rewrite length_app. lia. Qed.

Lemma len_nonneg {A} (l : list A) : 0 <= len l.
Proof. unfold len. lia. Qed.

Lemma indexOf_first (name : string) (pre after : list string) (i : Z) :
  ~ In name pre ->
  handlers.indexOf name (pre ++ name :: after) i = i + len pre.
Proof.
  revert i. induction pre as [|seg pre IH]; intros i Hpre; simpl.
  - rewrite streq_refl. unfold len. simpl. lia.
  - destruct (seg == name) eqn:E.
    + apply streq_true in E. exfalso. apply Hpre. now left.
    + rewrite IH by (intros H; apply Hpre; now right).
      unfold len. simpl length. lia.
Qed.

Lemma indexOf_none (name : string) (l : list string) (i : Z) :
  ~ In name l -> handlers.indexOf name l i = -1.
Proof.
  revert i. induction l as [|seg l IH]; intros i Hl; simpl.
  - reflexivity.
  - destruct (seg == name) eqn:E.
    + apply streq_true in E. exfalso. apply Hl. now left.
    + apply IH. intros H. apply Hl. now right.
Qed.

Lemma len_cons {A} (x : A) (l : list A) : len (x :: l) = 1 + len l.
Proof. unfold len. simpl length. lia. Qed.

Lemma len_nil {A} : len (@nil A) = 0.
Proof. reflexivity. Qed.

(** The [k]-th segment after the first [name]. *)
Lemma index_after (name : string) (pre after : list string) (k : nat) :
  index (pre ++ name :: after) (len pre + Z.of_nat (S k)) = nth k after "".
Proof.
  unfold index, len.
  replace (Z.to_nat (Z.of_nat (length pre) + Z.of_nat (S k)))
    with (length pre + S k)%nat by lia.
  rewrite app_nth2_plus. reflexivity.
Qed.

Lemma index_after1 (name : string) (pre after : list string) :
  index (pre ++ name :: after) (len pre + 1) = nth 0 after "".
Proof. exact (index_after name pre after 0). Qed.

Lemma index_after2 (name : string) (pre after : list string) :
  index (pre ++ name :: after) (len pre + 2) = nth 1 after "".
Proof. exact (index_after name pre after 1). Qed.

Lemma index_after3 (name : string) (pre after : list string) :
  index (pre ++ name :: after) (len pre + 3) = nth 2 after "".
Proof. exact (index_after name pre after 2). Qed.

Ltac decide_Z :=
  repeat match goal with
    | |- context [?a =? ?b] =>
        first [ replace (a =? b) with true by (symmetry; apply Z.eqb_eq; lia)
              | replace (a =? b) with false by (symmetry; apply Z.eqb_neq; lia) ]
    | |- context [?a <=? ?b] =>
        first [ replace (a <=? b) with true by (symmetry; apply Z.leb_le; lia)
              | replace (a <=? b) with false by (symmetry; apply Z.leb_gt; lia) ]
    | |- context [?a >? ?b] =>
        first [ replace (a >? b) with true by (symmetry; apply Z.gtb_lt; lia)
              | replace (a >? b) with false
                  by (symmetry; rewrite Z.gtb_ltb; apply Z.ltb_ge; lia) ]
    end.

Section Routes.

Context {S : Type} {Q : database.InvoiceQueries S} {rt : handlers.Runtime}.

Variables (r : http.Request) (pre : list string).
Hypothesis Hpre : ~ In "invoices" pre.

(** Unfolds the handler on a path whose segments are [pre], [invoices] and
    the explicit list [after]. *)
Ltac route Hseg :=
  unfold handlers.InvoiceHandler;
  rewrite Hseg, (indexOf_first _ _ _ 0 Hpre), len_app, !Z.add_0_l;
  rewrite ?index_after1, ?index_after2, ?index_after3;
  rewrite ?len_cons, ?len_nil;
  cbn [nth];
  pose proof (len_nonneg pre).

(** /invoices with nothing after it *)
Lemma route_no_id (s : S) :
  handlers.pathSegments (http.URL_Path r) = (pre ++ ["invoices"])%list ->
  handlers.InvoiceHandler r s
  = (http.Error "Invalid invoice path" http.StatusBadRequest, s).
Proof. intros Hseg. route Hseg. decide_Z. reflexivity. Qed.

(** /invoices/{id}/products *)
Lemma route_list (sid : string) (s : S) :
  handlers.pathSegments (http.URL_Path r) = (pre ++ ["invoices"; sid; "products"])%list ->
  handlers.InvoiceHandler r s
  = match strconv.Atoi sid with
    | None => (http.Error "Invalid invoice ID" http.StatusBadRequest, s)
    | Some invoiceID =>
        if http.Method r == http.MethodGet then handlers.listInvoiceProducts invoiceID s
        else (http.Error config.MethodNotAllowedMsg http.StatusMethodNotAllowed, s)
    end.
Proof.
  intros Hseg. route Hseg. try pose proof (len_nonneg rest).
  decide_Z. cbn [orb]. destruct (strconv.Atoi sid); [|reflexivity].
  rewrite ?streq_refl. reflexivity.
Qed.

(** /invoices/{id}/products/{product_id} *)
Lemma route_item (sid spid : string) (s : S) :
  handlers.pathSegments (http.URL_Path r)
  = (pre ++ ["invoices"; sid; "products"; spid])%list ->
  handlers.InvoiceHandler r s
  = match strconv.Atoi sid with
    | None => (http.Error "Invalid invoice ID" http.StatusBadRequest, s)
    | Some invoiceID =>
        match strconv.Atoi spid with
        | None => (http.Error "Invalid product ID" http.StatusBadRequest, s)
        | Some productID =>
            if http.Method r == http.MethodDelete then
              handlers.deleteInvoiceProduct invoiceID productID s
            else if http.Method r == http.MethodPost then
              handlers.addInvoiceProduct invoiceID productID r s
            else (http.Error config.MethodNotAllowedMsg http.StatusMethodNotAllowed, s)
        end
    end.
Proof.
  intros Hseg. route Hseg. try pose proof (len_nonneg rest).
  decide_Z. cbn [orb]. destruct (strconv.Atoi sid); [|reflexivity].
  rewrite ?streq_refl. reflexivity.
Qed.

(** /invoices/{id}/products/{product_id}/... *)
Lemma route_too_long (sid spid extra : string) (rest : list string) (s : S) :
  handlers.pathSegments (http.URL_Path r)
  = (pre ++ "invoices" :: sid :: "products" :: spid :: extra :: rest)%list ->
  handlers.InvoiceHandler r s
  = match strconv.Atoi sid with
    | None => (http.Error "Invalid invoice ID" http.StatusBadRequest, s)
    | Some _ => (http.Error "Not found" http.StatusNotFound, s)
    end.
Proof.
  intros Hseg. route Hseg. try pose proof (len_nonneg rest).
  decide_Z. cbn [orb]. destruct (strconv.Atoi sid); [|reflexivity].
  rewrite ?streq_refl. reflexivity.
Qed.

(** /invoices/{id} and /invoices/{id}/x/... for a segment [x] other than
    [products] *)
Lemma route_invoice (sid : string) (rest : list string) (s : S) :
  handlers.pathSegments (http.URL_Path r) = (pre ++ "invoices" :: sid :: rest)%list ->
  hd "" rest <> "products" ->
  handlers.InvoiceHandler r s
  = match strconv.Atoi sid with
    | None => (http.Error "Invalid invoice ID" http.StatusBadRequest, s)
    | Some invoiceID => handlers.invoiceOnly invoiceID r s
    end.
Proof.
  intros Hseg Hrest. route Hseg. pose proof (len_nonneg rest).
  replace (len pre =? -1) with false by (symmetry; apply Z.eqb_neq; lia).
  replace (len pre + (1 + (1 + len rest)) <=? len pre + 1) with false
    by (symmetry; apply Z.leb_gt; lia).
  cbn [orb]. destruct (strconv.Atoi sid); [|reflexivity].
  destruct rest as [|x rest].
  - rewrite len_nil. decide_Z. reflexivity.
  - simpl in Hrest. apply streq_false in Hrest. cbn [nth]. rewrite Hrest.
    now rewrite andb_false_r.
Qed.

End Routes.

(** ** The body of a list *)

(** C9: whatever store is behind them, when the store's list method returns
    no error the four list handlers (GET /products, /customers, /invoices and
    /invoices/{id}/products) answer 200 with a JSON array holding one object
    per row the store returned; for no rows (a nil slice or an empty one) the
    body is the empty array, not null. *)
Theorem list_body_is_array
  (S : Type) (PQ : database.ProductQueries S) (CQ : database.CustomerQueries S)
  (IQ : database.InvoiceQueries S) (rt : handlers.Runtime) (now : time.Time)
  (r : http.Request) (s s' : S) :
  http.Method r = http.MethodGet ->
  (forall products,
      database.ListProducts s = ((products, None), s') ->
      handlers.ProductsHandler r s
      = ({| http.StatusCode := 200;
            http.ResponseBody :=
              http.JSON (json.Array
                (map (fun x => json.Marshal (handlers.toProductResponse x))
                   (elems products))) |}, s'))
  /\ (forall customers,
      database.ListCustomers s = ((customers, None), s') ->
      handlers.CustomersHandler r s
      = ({| http.StatusCode := 200;
            http.ResponseBody :=
              http.JSON (json.Array
                (map (fun x => json.Marshal (handlers.toCustomerResponse x))
                   (elems customers))) |}, s'))
  /\ (forall invoices,
      database.ListInvoices s = ((invoices, None), s') ->
      handlers.InvoicesHandler now r s
      = ({| http.StatusCode := 200;
            http.ResponseBody :=
              http.JSON (json.Array
                (map (fun x => json.Marshal (handlers.toInvoiceResponse x))
                   (elems invoices))) |}, s'))
  /\ (forall pre sid invoiceID items,
      ~ In "invoices" pre ->
      handlers.pathSegments (http.URL_Path r) = (pre ++ ["invoices"; sid; "products"])%list ->
      strconv.Atoi sid = Some invoiceID ->
      database.ListProductsFromInvoice (int32 invoiceID) s = ((items, None), s') ->
      handlers.InvoiceHandler r s
      = ({| http.StatusCode := 200;
            http.ResponseBody :=
              http.JSON (json.Array
                (map (fun x => json.Marshal (handlers.toInvoiceProductResponse x))
                   (elems items))) |}, s'))
  /\ (forall (A T : Type) (M : json.Marshaler T) (f : A -> T) (xs : slice A),
      json.Marshal (handlers.collect f xs) <> json.Null
      /\ (elems xs = [] -> json.Marshal (handlers.collect f xs) = json.Array [])).
Proof.
  intros Hget. split; [|split; [|split; [|split]]].
  - intros products H. unfold handlers.ProductsHandler.
    rewrite Hget, streq_refl, H, collect_map.
    unfold handlers.writeServerResponse. cbn. now rewrite map_map.
  - intros customers H. unfold handlers.CustomersHandler.
    rewrite Hget, streq_refl, H, collect_map.
    unfold handlers.writeServerResponse. cbn. now rewrite map_map.
  - intros invoices H. unfold handlers.InvoicesHandler.
    rewrite Hget, streq_refl, H, collect_map.
    unfold handlers.writeServerResponse. cbn. now rewrite map_map.
  - intros pre sid invoiceID items Hpre Hseg Hid H.
    rewrite (route_list r pre Hpre sid s Hseg), Hid, Hget, streq_refl.
    unfold handlers.listInvoiceProducts. rewrite H, collect_map.
    unfold handlers.writeServerResponse. cbn. now rewrite map_map.
  - intros A T M f xs. rewrite collect_map. split; [discriminate|].
    intros H. now rewrite H.
Qed.

Lemma list_body_is_array_witness :
  let r := mock.request "GET" "/api/v1/invoices/1/products" "" in
  let empty := {| http.StatusCode := 200; http.ResponseBody := http.JSON (json.Array []) |} in
  let db := pg.empty 0 in
  handlers.ProductsHandler (Q := @pg.Products mock.columns) (rt := mock.decoders) r db
  = (empty, db)
  /\ handlers.CustomersHandler (Q := @pg.Customers mock.columns) (rt := mock.decoders) r db
     = (empty, db)
  /\ handlers.InvoicesHandler (Q := @pg.Invoices mock.columns) (rt := mock.decoders) 0 r db
     = (empty, db)
  /\ handlers.InvoiceHandler (Q := @pg.Invoices mock.columns) (rt := mock.decoders) r db
     = (empty, db).
Proof.
  intros r empty db.
  destruct (list_body_is_array pg.DB (@pg.Products mock.columns)
              (@pg.Customers mock.columns) (@pg.Invoices mock.columns)
              mock.decoders 0 r db db eq_refl) as (Hp & Hc & Hi & Hl & _).
  split; [|split; [|split]].
  - exact (Hp NilSlice eq_refl).
  - exact (Hc NilSlice eq_refl).
  - exact (Hi NilSlice eq_refl).
  - refine (Hl ["api"; "v1"] "1" 1 NilSlice _ eq_refl eq_refl eq_refl).
    simpl. intros [H|[H|[]]]; discriminate.
Defined.

(** ** Deleting: the result string *)

(** C10: in the four DELETE operations, when the store method returns no
    error, every result string other than the operation's not-found value
    (so also [delete_failed]) is answered with 204 and an empty body. *)
Theorem delete_result_is_success_unless_not_found
  (S : Type) (PQ : database.ProductQueries S) (CQ : database.CustomerQueries S)
  (IQ : database.InvoiceQueries S) (rt : handlers.Runtime)
  (r : http.Request) (s s' : S) (result : string) :
  http.Method r = http.MethodDelete ->
  (forall id,
      utils.ExtractTrailingID (http.URL_Path r) = Some id ->
      database.DeleteProduct (int32 id) s = ((result, None), s') ->
      result <> "product_not_found" ->
      handlers.ProductHandler r s = (http.WriteHeader http.StatusNoContent, s'))
  /\ (forall id,
      utils.ExtractTrailingID (http.URL_Path r) = Some id ->
      database.DeleteCustomer (int32 id) s = ((result, None), s') ->
      result <> "customer_not_found" ->
      handlers.CustomerHandler r s = (http.WriteHeader http.StatusNoContent, s'))
  /\ (forall pre sid id,
      ~ In "invoices" pre ->
      handlers.pathSegments (http.URL_Path r) = (pre ++ ["invoices"; sid])%list ->
      strconv.Atoi sid = Some id ->
      database.DeleteInvoice (int32 id) s = ((result, None), s') ->
      result <> "invoice_not_found" ->
      handlers.InvoiceHandler r s = (http.WriteHeader http.StatusNoContent, s'))
  /\ (forall pre sid spid invoiceID productID,
      ~ In "invoices" pre ->
      handlers.pathSegments (http.URL_Path r)
      = (pre ++ ["invoices"; sid; "products"; spid])%list ->
      strconv.Atoi sid = Some invoiceID ->
      strconv.Atoi spid = Some productID ->
      database.DeleteProductFromInvoice
        {| database.DeleteProduct_InvoiceID := int32 invoiceID;
           database.DeleteProduct_ProductID := int32 productID |} s
      = ((result, None), s') ->
      result <> "invoice_item_not_found" ->
      handlers.InvoiceHandler r s = (http.WriteHeader http.StatusNoContent, s')).
Proof.
  intros Hdel. split; [|split; [|split]].
  - intros id Hid H Hres. unfold handlers.ProductHandler.
    rewrite Hid, Hdel, H. cbn.
    apply streq_false in Hres. now rewrite Hres.
  - intros id Hid H Hres. unfold handlers.CustomerHandler.
    rewrite Hid, Hdel, H. cbn.
    apply streq_false in Hres. now rewrite Hres.
  - intros pre sid id Hpre Hseg Hid H Hres.
    rewrite (route_invoice r pre Hpre sid [] s Hseg) by discriminate.
    rewrite Hid. unfold handlers.invoiceOnly. rewrite Hdel, H. cbn.
    apply streq_false in Hres. now rewrite Hres.
  - intros pre sid spid invoiceID productID Hpre Hseg Hi Hp H Hres.
    rewrite (route_item r pre Hpre sid spid s Hseg), Hi, Hp, Hdel.
    cbn. unfold handlers.deleteInvoiceProduct. rewrite H.
    apply streq_false in Hres. now rewrite Hres.
Qed.

Lemma delete_result_is_success_unless_not_found_witness :
  let PQ := mock.Products NilSlice pg.zeroProduct "delete_failed" None in
  let CQ := mock.Customers NilSlice pg.zeroCustomer "delete_failed" None in
  let IQ := mock.Invoices NilSlice pg.zeroInvoice NilSlice pg.zeroInvoiceItem
              "delete_failed" None in
  let no_content := {| http.StatusCode := 204; http.ResponseBody := http.Empty |} in
  handlers.ProductHandler (Q := PQ) (rt := mock.decoders)
    (mock.request "DELETE" "/api/v1/products/7" "") 0%nat = (no_content, 1%nat)
  /\ handlers.CustomerHandler (Q := CQ) (rt := mock.decoders)
       (mock.request "DELETE" "/api/v1/customers/7" "") 0%nat = (no_content, 1%nat)
  /\ handlers.InvoiceHandler (Q := IQ) (rt := mock.decoders)
       (mock.request "DELETE" "/api/v1/invoices/7" "") 0%nat = (no_content, 1%nat)
  /\ handlers.InvoiceHandler (Q := IQ) (rt := mock.decoders)
       (mock.request "DELETE" "/api/v1/invoices/7/products/2" "") 0%nat
     = (no_content, 1%nat).
Proof.
  intros PQ CQ IQ no_content.
  assert (Hpre : ~ In "invoices" ["api"; "v1"])
    by (simpl; intros [H|[H|[]]]; discriminate).
  split; [|split; [|split]].
  - destruct (delete_result_is_success_unless_not_found nat PQ CQ IQ mock.decoders
                (mock.request "DELETE" "/api/v1/products/7" "") 0%nat 1%nat
                "delete_failed" eq_refl) as (H & _).
    apply (H 7 eq_refl eq_refl). discriminate.
  - destruct (delete_result_is_success_unless_not_found nat PQ CQ IQ mock.decoders
                (mock.request "DELETE" "/api/v1/customers/7" "") 0%nat 1%nat
                "delete_failed" eq_refl) as (_ & H & _).
    apply (H 7 eq_refl eq_refl). discriminate.
  - destruct (delete_result_is_success_unless_not_found nat PQ CQ IQ mock.decoders
                (mock.request "DELETE" "/api/v1/invoices/7" "") 0%nat 1%nat
                "delete_failed" eq_refl) as (_ & _ & H & _).
    apply (H ["api"; "v1"] "7" 7 Hpre eq_refl eq_refl eq_refl). discriminate.
  - destruct (delete_result_is_success_unless_not_found nat PQ CQ IQ mock.decoders
                (mock.request "DELETE" "/api/v1/invoices/7/products/2" "") 0%nat 1%nat
                "delete_failed" eq_refl) as (_ & _ & _ & H).
    apply (H ["api"; "v1"] "7" "2" 7 2 Hpre eq_refl eq_refl eq_refl eq_refl).
    discriminate.
Defined.

(** ** Creating an invoice *)

(** C7: POST /invoices, once the body is decoded, answers 400 and leaves the
    store as it was, whatever store that is (no method of it is called), when
    the invoice number is empty after trimming or customer_id is not
    positive; otherwise it calls CreateInvoice once, with the date of the
    request, or with the current time when the request has no date or the
    zero date. *)
Theorem invoice_create_checks_and_date
  (S : Type) (IQ : database.InvoiceQueries S) (rt : handlers.Runtime)
  (now : time.Time) (r : http.Request) (s : S) (req : handlers.createInvoiceRequest) :
  http.Method r = http.MethodPost ->
  handlers.decodeCreateInvoice (http.Body r) = Some req ->
  (strings.TrimSpace (handlers.createInvoice_InvoiceNumber req) = "" ->
     handlers.InvoicesHandler now r s
     = (http.Error "invoice_number must not be empty" http.StatusBadRequest, s))
  /\ (handlers.createInvoice_CustomerID req <= 0 ->
      exists msg,
        handlers.InvoicesHandler now r s = (http.Error msg http.StatusBadRequest, s))
  /\ (strings.TrimSpace (handlers.createInvoice_InvoiceNumber req) <> "" ->
      0 < handlers.createInvoice_CustomerID req ->
      exists invoiceDate,
        (handlers.createInvoice_InvoiceDate req = None -> invoiceDate = now)
        /\ (forall d, handlers.createInvoice_InvoiceDate req = Some d ->
                      time.IsZero d = true -> invoiceDate = now)
        /\ (forall d, handlers.createInvoice_InvoiceDate req = Some d ->
                      time.IsZero d = false -> invoiceDate = d)
        /\ handlers.InvoicesHandler now r s
           = let '((createdInvoice, err), s') :=
               database.CreateInvoice
                 {| database.CreateInvoice_InvoiceNumber :=
                      handlers.createInvoice_InvoiceNumber req;
                    database.CreateInvoice_InvoiceDate := invoiceDate;
                    database.CreateInvoice_CustomerID :=
                      handlers.createInvoice_CustomerID req |} s in
             (match err with
              | Some err => handlers.invoiceWriteError err
              | None =>
                  handlers.writeServerResponse http.StatusCreated
                    (handlers.toInvoiceResponse createdInvoice)
              end, s')).
Proof.
  intros Hpost Hdec.
  split; [|split].
  - intros Hempty. unfold handlers.InvoicesHandler.
    rewrite Hpost, Hdec. cbn. now rewrite Hempty.
  - intros Hcust. unfold handlers.InvoicesHandler.
    rewrite Hpost, Hdec. cbn.
    destruct (strings.TrimSpace _ == ""); [eexists; reflexivity|].
    apply Z.leb_le in Hcust. rewrite Hcust. eexists; reflexivity.
  - intros Hnumber Hcust.
    exists (match handlers.createInvoice_InvoiceDate req with
            | Some d => if negb (time.IsZero d) then d else now
            | None => now
            end).
    split; [|split; [|split]].
    + now intros ->.
    + intros d -> Hz. now rewrite Hz.
    + intros d -> Hz. now rewrite Hz.
    + unfold handlers.InvoicesHandler. rewrite Hpost, Hdec. cbn.
      apply streq_false in Hnumber. rewrite Hnumber.
      apply Z.leb_gt in Hcust. rewrite Hcust.
      destruct (database.CreateInvoice _ s) as [[createdInvoice [err|]] s'];
        reflexivity.
Qed.

Lemma invoice_create_checks_and_date_witness :
  let IQ := mock.Invoices NilSlice pg.zeroInvoice NilSlice pg.zeroInvoiceItem "" None in
  handlers.InvoicesHandler (Q := IQ) (rt := mock.decoders) 777
    (mock.request "POST" "/api/v1/invoices" "  ||1") 0%nat
  = (http.Error "invoice_number must not be empty" 400, 0%nat)
  /\ (exists msg,
        handlers.InvoicesHandler (Q := IQ) (rt := mock.decoders) 777
          (mock.request "POST" "/api/v1/invoices" "INV-1||0") 0%nat
        = (http.Error msg 400, 0%nat))
  /\ (exists invoiceDate,
        invoiceDate = 777
        /\ handlers.InvoicesHandler (Q := IQ) (rt := mock.decoders) 777
             (mock.request "POST" "/api/v1/invoices" "INV-1||1") 0%nat
           = (handlers.writeServerResponse 201 (handlers.toInvoiceResponse pg.zeroInvoice),
              1%nat)).
Proof.
  intros IQ. split; [|split].
  - destruct (invoice_create_checks_and_date nat IQ mock.decoders 777
                (mock.request "POST" "/api/v1/invoices" "  ||1") 0%nat
                _ eq_refl eq_refl) as (H & _).
    exact (H eq_refl).
  - destruct (invoice_create_checks_and_date nat IQ mock.decoders 777
                (mock.request "POST" "/api/v1/invoices" "INV-1||0") 0%nat
                _ eq_refl eq_refl) as (_ & H & _).
    apply H. vm_compute. discriminate.
  - destruct (invoice_create_checks_and_date nat IQ mock.decoders 777
                (mock.request "POST" "/api/v1/invoices" "INV-1||1") 0%nat
                _ eq_refl eq_refl) as (_ & _ & H).
    destruct H as (invoiceDate & Hnone & _ & _ & Hcall).
    + vm_compute. discriminate.
    + reflexivity.
    + exists invoiceDate. split; [exact (Hnone eq_refl)|]. exact Hcall.
Defined.

(** ** The shapes of an invoice path *)

Lemma invoiceOnly_request {S : Type} {Q : database.InvoiceQueries S}
  {rt : handlers.Runtime} (id : Z) (r r0 : http.Request) (s : S) :
  http.Method r0 = http.Method r -> http.Body r0 = http.Body r ->
  handlers.invoiceOnly id r0 s = handlers.invoiceOnly id r s.
Proof. intros Hm Hb. unfold handlers.invoiceOnly. now rewrite Hm, Hb. Qed.

(** X26: behind a numeric invoice id, a path that goes on with [products]
    and two or more further segments is answered with 404 "Not found",
    whatever the method and without calling the store; a path with no
    segment behind [invoices], or with an invoice id that is no number, is
    answered with 400. *)
Theorem invoice_path_shapes
  (S : Type) (IQ : database.InvoiceQueries S) (rt : handlers.Runtime)
  (r : http.Request) (pre : list string) (s : S) :
  ~ In "invoices" pre ->
  (forall sid id spid extra rest,
      handlers.pathSegments (http.URL_Path r)
      = (pre ++ "invoices" :: sid :: "products" :: spid :: extra :: rest)%list ->
      strconv.Atoi sid = Some id ->
      handlers.InvoiceHandler r s = (http.Error "Not found" http.StatusNotFound, s))
  /\ (handlers.pathSegments (http.URL_Path r) = (pre ++ ["invoices"])%list ->
      handlers.InvoiceHandler r s
      = (http.Error "Invalid invoice path" http.StatusBadRequest, s))
  /\ (forall sid rest,
      handlers.pathSegments (http.URL_Path r) = (pre ++ "invoices" :: sid :: rest)%list ->
      strconv.Atoi sid = None ->
      handlers.InvoiceHandler r s
      = (http.Error "Invalid invoice ID" http.StatusBadRequest, s)).
Proof.
  intros Hpre. split; [|split].
  - intros sid id spid extra rest Hseg Hid.
    now rewrite (route_too_long r pre Hpre sid spid extra rest s Hseg), Hid.
  - intros Hseg. exact (route_no_id r pre Hpre s Hseg).
  - intros sid rest Hseg Hid.
    destruct rest as [|x [|y [|z rest]]].
    + now rewrite (route_invoice r pre Hpre sid [] s Hseg), Hid by discriminate.
    + destruct (String.eqb_spec x "products") as [->|Hx].
      * now rewrite (route_list r pre Hpre sid s Hseg), Hid.
      * now rewrite (route_invoice r pre Hpre sid [x] s Hseg), Hid by exact Hx.
    + destruct (String.eqb_spec x "products") as [->|Hx].
      * now rewrite (route_item r pre Hpre sid y s Hseg), Hid.
      * now rewrite (route_invoice r pre Hpre sid [x; y] s Hseg), Hid by exact Hx.
    + destruct (String.eqb_spec x "products") as [->|Hx].
      * now rewrite (route_too_long r pre Hpre sid y z rest s Hseg), Hid.
      * now rewrite (route_invoice r pre Hpre sid (x :: y :: z :: rest) s Hseg), Hid
          by exact Hx.
Qed.

Lemma invoice_path_shapes_witness :
  let IQ := @pg.Invoices mock.columns in
  handlers.InvoiceHandler (Q := IQ) (rt := mock.decoders)
    (mock.request "GET" "/api/v1/invoices/1/products/2/3" "") mock.oneInvoice
  = (http.Error "Not found" 404, mock.oneInvoice)
  /\ handlers.InvoiceHandler (Q := IQ) (rt := mock.decoders)
       (mock.request "GET" "/api/v1/invoices/" "") mock.oneInvoice
     = (http.Error "Invalid invoice path" 400, mock.oneInvoice)
  /\ handlers.InvoiceHandler (Q := IQ) (rt := mock.decoders)
       (mock.request "GET" "/api/v1/invoices/abc" "") mock.oneInvoice
     = (http.Error "Invalid invoice ID" 400, mock.oneInvoice).
Proof.
  intros IQ.
  assert (Hpre : ~ In "invoices" ["api"; "v1"])
    by (simpl; intros [H|[H|[]]]; discriminate).
  split; [|split].
  - destruct (invoice_path_shapes pg.DB IQ mock.decoders
                (mock.request "GET" "/api/v1/invoices/1/products/2/3" "")
                ["api"; "v1"] mock.oneInvoice Hpre) as (H & _).
    exact (H "1" 1 "2" "3" [] eq_refl eq_refl).
  - destruct (invoice_path_shapes pg.DB IQ mock.decoders
                (mock.request "GET" "/api/v1/invoices/" "")
                ["api"; "v1"] mock.oneInvoice Hpre) as (_ & H & _).
    exact (H eq_refl).
  - destruct (invoice_path_shapes pg.DB IQ mock.decoders
                (mock.request "GET" "/api/v1/invoices/abc" "")
                ["api"; "v1"] mock.oneInvoice Hpre) as (_ & _ & H).
    exact (H "abc" [] eq_refl eq_refl).
Defined.

(** Behind the invoice id, segments that do not begin with [products] are
    ignored: the request is answered as the same request for
    /invoices/{id}. *)
Lemma other_segments_ignored
  (S : Type) (IQ : database.InvoiceQueries S) (rt : handlers.Runtime)
  (r r0 : http.Request) (pre : list string) (sid x : string) (rest : list string)
  (s : S) :
  ~ In "invoices" pre ->
  handlers.pathSegments (http.URL_Path r) = (pre ++ "invoices" :: sid :: x :: rest)%list ->
  x <> "products" ->
  handlers.pathSegments (http.URL_Path r0) = (pre ++ ["invoices"; sid])%list ->
  http.Method r0 = http.Method r -> http.Body r0 = http.Body r ->
  handlers.InvoiceHandler r s = handlers.InvoiceHandler r0 s.
Proof.
  intros Hpre Hseg Hx Hseg0 Hm Hb.
  rewrite (route_invoice r pre Hpre sid (x :: rest) s Hseg) by exact Hx.
  rewrite (route_invoice r0 pre Hpre sid [] s Hseg0) by discriminate.
  destruct (strconv.Atoi sid); [|reflexivity].
  symmetry. now apply invoiceOnly_request.
Qed.

(** C6: the handler at paths with unrecognized segments behind the invoice
    id, for which the claim asks NotFound and no single-invoice operation.
    On a database holding invoice 1, GET /api/v1/invoices/1/foo answers 200
    with the invoice and DELETE /api/v1/invoices/1/foo/bar deletes it, as
    the same requests for /api/v1/invoices/1 do; the sibling path
    /api/v1/invoices/1/products/2/3, with an extra segment behind the
    product id, is answered with 404 and nothing is deleted. *)
Lemma unrecognized_segment_reaches_invoice :
  let IQ := @pg.Invoices mock.columns in
  let serve method path :=
    handlers.InvoiceHandler (Q := IQ) (rt := mock.decoders)
      (mock.request method path "") mock.oneInvoice in
  serve "GET" "/api/v1/invoices/1/foo"
  = (handlers.writeServerResponse 200 (handlers.toInvoiceResponse mock.inv1),
     mock.oneInvoice)
  /\ serve "GET" "/api/v1/invoices/1/foo" = serve "GET" "/api/v1/invoices/1"
  /\ serve "DELETE" "/api/v1/invoices/1/foo/bar"
     = (http.WriteHeader 204, pg.set_invoice mock.oneInvoice [] 1)
  /\ serve "DELETE" "/api/v1/invoices/1/foo/bar" = serve "DELETE" "/api/v1/invoices/1"
  /\ serve "DELETE" "/api/v1/invoices/1/products/2/3"
     = (http.Error "Not found" 404, mock.oneInvoice).
Proof. repeat split; reflexivity. Qed.

(** ** Store failures and their answers *)

(** C4, as the code has it: adding a product to an invoice with a count that
    is not positive is answered with 400 and no store call; a foreign-key
    violation reported by AddProductToInvoice is answered by the name of its
    constraint (404 for the product key, 404 with another message for the
    invoice key, 500 for any other name); a failure of CreateInvoice is
    answered by its SQLSTATE alone, whatever constraint it names (409 for
    23505, 400 for 23503). *)
Theorem store_failure_answers
  (S : Type) (IQ : database.InvoiceQueries S) (rt : handlers.Runtime)
  (now : time.Time) (r : http.Request) (s s' : S) :
  http.Method r = http.MethodPost ->
  (forall pre sid spid invoiceID productID params,
      ~ In "invoices" pre ->
      handlers.pathSegments (http.URL_Path r)
      = (pre ++ ["invoices"; sid; "products"; spid])%list ->
      strconv.Atoi sid = Some invoiceID ->
      strconv.Atoi spid = Some productID ->
      handlers.decodeCreateInvoiceItem (http.Body r) = Some params ->
      (handlers.createInvoiceItem_Count params <= 0 ->
         handlers.InvoiceHandler r s
         = (http.Error "count must be greater than 0" http.StatusBadRequest, s))
      /\ (0 < handlers.createInvoiceItem_Count params ->
          forall item e,
            database.AddProductToInvoice
              {| database.AddProduct_InvoiceID := int32 invoiceID;
                 database.AddProduct_ProductID := int32 productID;
                 database.AddProduct_Count := handlers.createInvoiceItem_Count params |} s
            = ((item, Some (errors.PqError e)), s') ->
            errors.Code e = "23503" ->
            handlers.InvoiceHandler r s
            = (if errors.Constraint e == "invoice_item_product_id_fkey" then
                 http.Error "The provided product does not exist" http.StatusNotFound
               else if errors.Constraint e == "invoice_item_invoice_id_fkey" then
                 http.Error "The provided invoice does not exist" http.StatusNotFound
               else
                 http.Error config.InternalServerErrorMsg http.StatusInternalServerError,
               s')))
  /\ (forall req created err e,
      handlers.decodeCreateInvoice (http.Body r) = Some req ->
      strings.TrimSpace (handlers.createInvoice_InvoiceNumber req) <> "" ->
      0 < handlers.createInvoice_CustomerID req ->
      database.CreateInvoice
        {| database.CreateInvoice_InvoiceNumber :=
             handlers.createInvoice_InvoiceNumber req;
           database.CreateInvoice_InvoiceDate :=
             match handlers.createInvoice_InvoiceDate req with
             | Some d => if negb (time.IsZero d) then d else now
             | None => now
             end;
           database.CreateInvoice_CustomerID :=
             handlers.createInvoice_CustomerID req |} s
      = ((created, Some err), s') ->
      errors.As err = Some e ->
      (errors.Code e = "23505" ->
         handlers.InvoicesHandler now r s
         = (http.Error "Invoice number must be unique" http.StatusConflict, s'))
      /\ (errors.Code e = "23503" ->
          handlers.InvoicesHandler now r s
          = (http.Error "Specified customer does not exist" http.StatusBadRequest, s'))).
Proof.
  intros Hpost. split.
  - intros pre sid spid invoiceID productID params Hpre Hseg Hi Hp Hdec.
    rewrite (route_item r pre Hpre sid spid s Hseg), Hi, Hp, Hpost. cbn.
    unfold handlers.addInvoiceProduct. rewrite Hdec. split.
    + intros Hc. apply Z.leb_le in Hc. now rewrite Hc.
    + intros Hc item e Hadd Hcode. apply Z.leb_gt in Hc. rewrite Hc, Hadd.
      unfold handlers.addInvoiceProductError. cbn. rewrite Hcode. cbn.
      destruct (errors.Constraint e == "invoice_item_product_id_fkey"),
        (errors.Constraint e == "invoice_item_invoice_id_fkey"); reflexivity.
  - intros req created err e Hdec Hnumber Hcust Hcreate Has.
    unfold handlers.InvoicesHandler. rewrite Hpost, Hdec.
    cbn [String.eqb Ascii.eqb Bool.eqb].
    apply streq_false in Hnumber. rewrite Hnumber.
    apply Z.leb_gt in Hcust. rewrite Hcust. cbv zeta. rewrite Hcreate.
    unfold handlers.invoiceWriteError. rewrite Has. split.
    + intros Hcode. now rewrite Hcode.
    + intros Hcode. now rewrite Hcode.
Qed.

Lemma store_failure_answers_witness :
  let failing name :=
    mock.Invoices NilSlice pg.zeroInvoice NilSlice pg.zeroInvoiceItem ""
      (mock.fkViolation name) in
  handlers.InvoiceHandler (Q := failing "invoice_item_product_id_fkey")
    (rt := mock.decoders)
    (mock.request "POST" "/api/v1/invoices/1/products/1" "0") 0%nat
  = (http.Error "count must be greater than 0" 400, 0%nat)
  /\ handlers.InvoiceHandler (Q := failing "invoice_item_product_id_fkey")
       (rt := mock.decoders)
       (mock.request "POST" "/api/v1/invoices/1/products/1" "5") 0%nat
     = (http.Error "The provided product does not exist" 404, 1%nat)
  /\ handlers.InvoiceHandler (Q := failing "invoice_item_invoice_id_fkey")
       (rt := mock.decoders)
       (mock.request "POST" "/api/v1/invoices/1/products/1" "5") 0%nat
     = (http.Error "The provided invoice does not exist" 404, 1%nat)
  /\ handlers.InvoicesHandler (Q := failing "invoice_customer_id_fkey")
       (rt := mock.decoders) 777
       (mock.request "POST" "/api/v1/invoices" "INV-1||1") 0%nat
     = (http.Error "Specified customer does not exist" 400, 1%nat)
  /\ handlers.InvoiceHandler (Q := @pg.Invoices mock.columns) (rt := mock.decoders)
       (mock.request "POST" "/api/v1/invoices/1/products/9" "5") mock.oneProduct
     = (http.Error "The provided product does not exist" 404,
        pg.set_invoice_item mock.oneProduct [] 2)
  /\ handlers.InvoicesHandler (Q := @pg.Invoices mock.columns) (rt := mock.decoders)
       777 (mock.request "POST" "/api/v1/invoices" "INV-1||1") mock.oneInvoice
     = (http.Error "Invoice number must be unique" 409,
        pg.set_invoice mock.oneInvoice [mock.inv1] 2)
  /\ handlers.InvoicesHandler (Q := @pg.Invoices mock.columns) (rt := mock.decoders)
       777 (mock.request "POST" "/api/v1/invoices" "INV-2||8") mock.oneInvoice
     = (http.Error "Specified customer does not exist" 400,
        pg.set_invoice mock.oneInvoice [mock.inv1] 2).
Proof.
  intros failing.
  assert (Hpre : ~ In "invoices" ["api"; "v1"])
    by (simpl; intros [H|[H|[]]]; discriminate).
  split; [|split; [|split; [|split; [|split; [|split]]]]].
  - destruct (store_failure_answers nat (failing "invoice_item_product_id_fkey")
                mock.decoders 777
                (mock.request "POST" "/api/v1/invoices/1/products/1" "0")
                0%nat 1%nat eq_refl) as (H & _).
    destruct (H ["api"; "v1"] "1" "1" 1 1 _ Hpre eq_refl eq_refl eq_refl eq_refl)
      as (H0 & _).
    apply H0. vm_compute. discriminate.
  - destruct (store_failure_answers nat (failing "invoice_item_product_id_fkey")
                mock.decoders 777
                (mock.request "POST" "/api/v1/invoices/1/products/1" "5")
                0%nat 1%nat eq_refl) as (H & _).
    destruct (H ["api"; "v1"] "1" "1" 1 1 _ Hpre eq_refl eq_refl eq_refl eq_refl)
      as (_ & H1).
    exact (H1 eq_refl _ _ eq_refl eq_refl).
  - destruct (store_failure_answers nat (failing "invoice_item_invoice_id_fkey")
                mock.decoders 777
                (mock.request "POST" "/api/v1/invoices/1/products/1" "5")
                0%nat 1%nat eq_refl) as (H & _).
    destruct (H ["api"; "v1"] "1" "1" 1 1 _ Hpre eq_refl eq_refl eq_refl eq_refl)
      as (_ & H1).
    exact (H1 eq_refl _ _ eq_refl eq_refl).
  - destruct (store_failure_answers nat (failing "invoice_customer_id_fkey")
                mock.decoders 777
                (mock.request "POST" "/api/v1/invoices" "INV-1||1")
                0%nat 1%nat eq_refl) as (_ & H).
    destruct (H _ pg.zeroInvoice
                (errors.PqError {| errors.Code := "23503";
                                   errors.Constraint := "invoice_customer_id_fkey" |})
                {| errors.Code := "23503";
                   errors.Constraint := "invoice_customer_id_fkey" |}
                eq_refl) as (_ & H1).
    + vm_compute. discriminate.
    + reflexivity.
    + reflexivity.
    + reflexivity.
    + exact (H1 eq_refl).
  - destruct (store_failure_answers pg.DB (@pg.Invoices mock.columns)
                mock.decoders 777
                (mock.request "POST" "/api/v1/invoices/1/products/9" "5")
                mock.oneProduct (pg.set_invoice_item mock.oneProduct [] 2) eq_refl)
      as (H & _).
    destruct (H ["api"; "v1"] "1" "9" 1 9 _ Hpre eq_refl eq_refl eq_refl eq_refl)
      as (_ & H1).
    exact (H1 eq_refl pg.zeroInvoiceItem
             {| errors.Code := "23503";
                errors.Constraint := "invoice_item_product_id_fkey" |}
             eq_refl eq_refl).
  - destruct (store_failure_answers pg.DB (@pg.Invoices mock.columns)
                mock.decoders 777
                (mock.request "POST" "/api/v1/invoices" "INV-1||1")
                mock.oneInvoice (pg.set_invoice mock.oneInvoice [mock.inv1] 2) eq_refl)
      as (_ & H).
    destruct (H _ pg.zeroInvoice
                (errors.PqError {| errors.Code := "23505";
                                   errors.Constraint := "invoice_invoice_number_key" |})
                {| errors.Code := "23505";
                   errors.Constraint := "invoice_invoice_number_key" |}
                eq_refl) as (H1 & _).
    + vm_compute. discriminate.
    + reflexivity.
    + reflexivity.
    + reflexivity.
    + exact (H1 eq_refl).
  - destruct (store_failure_answers pg.DB (@pg.Invoices mock.columns)
                mock.decoders 777
                (mock.request "POST" "/api/v1/invoices" "INV-2||8")
                mock.oneInvoice (pg.set_invoice mock.oneInvoice [mock.inv1] 2) eq_refl)
      as (_ & H).
    destruct (H _ pg.zeroInvoice
                (errors.PqError {| errors.Code := "23503";
                                   errors.Constraint := "invoice_customer_id_fkey" |})
                {| errors.Code := "23503";
                   errors.Constraint := "invoice_customer_id_fkey" |}
                eq_refl) as (_ & H1).
    + vm_compute. discriminate.
    + reflexivity.
    + reflexivity.
    + reflexivity.
    + exact (H1 eq_refl).
Defined.

(** C4 as stated fails: the answer to a failed CreateInvoice does not depend
    on the constraint the store names. A foreign-key violation naming the
    product key of invoice_item gets the answer of the customer key of
    invoice. *)
Lemma invoice_create_answers_by_sqlstate :
  let failing name :=
    mock.Invoices NilSlice pg.zeroInvoice NilSlice pg.zeroInvoiceItem ""
      (mock.fkViolation name) in
  let r := mock.request "POST" "/api/v1/invoices" "INV-1||1" in
  handlers.InvoicesHandler (Q := failing "invoice_customer_id_fkey")
    (rt := mock.decoders) 777 r 0%nat
  = (http.Error "Specified customer does not exist" 400, 1%nat)
  /\ handlers.InvoicesHandler (Q := failing "invoice_item_product_id_fkey")
       (rt := mock.decoders) 777 r 0%nat
     = (http.Error "Specified customer does not exist" 400, 1%nat).
Proof. split; reflexivity. Qed.

(** ** Check constraints of product *)

Lemma createProductInvalid_messages (rt : handlers.Runtime)
  (product : handlers.createProductRequest) (msg : string) :
  handlers.createProductInvalid product = Some msg ->
  In msg [ "Product name is required"; "Product price is required"; "Invalid price";
           "available_items must be greater than or equal to 0" ].
Proof.
  unfold handlers.createProductInvalid.
  destruct (_ == ""); [intros [= <-]; simpl; tauto|].
  destruct (_ == ""); [intros [= <-]; simpl; tauto|].
  destruct (handlers.ParseFloat_err _); [intros [= <-]; simpl; tauto|].
  destruct (_ <? 0); [intros [= <-]; simpl; tauto|discriminate].
Qed.

(** C5, as the code has it: when the store reports a violation of the check
    on available_items, POST /products and PATCH /products/{id} answer 400
    with the message their own check of available_items gives; when the
    store reports a violation of the check on price, POST /products answers
    400 with "price should be a positive number". *)
Theorem product_check_answers
  (S : Type) (PQ : database.ProductQueries S) (rt : handlers.Runtime) (s s' : S)
  (e : errors.pq_Error) :
  let available_items_msg := "available_items must be greater than or equal to 0" in
  (forall r product row,
      http.Method r = http.MethodPost ->
      handlers.decodeCreateProduct (http.Body r) = Some product ->
      handlers.createProductInvalid product = None ->
      database.CreateProduct
        {| database.CreateProduct_Name := handlers.createProduct_Name product;
           database.CreateProduct_Description :=
             {| sql.NullString_String := handlers.createProduct_Description product;
                sql.NullString_Valid :=
                  negb (handlers.createProduct_Description product == "") |};
           database.CreateProduct_Price := handlers.createProduct_Price product;
           database.CreateProduct_AvailableItems :=
             handlers.createProduct_AvailableItems product |} s
      = ((row, Some (errors.PqError e)), s') ->
      (errors.Constraint e = "product_available_items_check" ->
         handlers.ProductsHandler r s
         = (http.Error available_items_msg http.StatusBadRequest, s'))
      /\ (errors.Constraint e = "product_price_check" ->
          handlers.ProductsHandler r s
          = (http.Error "price should be a positive number" http.StatusBadRequest, s')))
  /\ (forall r id product row,
      http.Method r = http.MethodPatch ->
      utils.ExtractTrailingID (http.URL_Path r) = Some id ->
      handlers.decodeUpdateProduct (http.Body r) = Some product ->
      handlers.updateProductInvalid product = None ->
      database.UpdateProduct
        {| database.UpdateProduct_ID := int32 id;
           database.UpdateProduct_Name := handlers.updateProduct_Name product;
           database.UpdateProduct_Description :=
             {| sql.NullString_String := handlers.updateProduct_Description product;
                sql.NullString_Valid :=
                  negb (handlers.updateProduct_Description product == "") |};
           database.UpdateProduct_Price := handlers.updateProduct_Price product;
           database.UpdateProduct_AvailableItems :=
             handlers.updateProduct_AvailableItems product |} s
      = ((row, Some (errors.PqError e)), s') ->
      errors.Constraint e = "product_available_items_check" ->
      handlers.ProductHandler r s
      = (http.Error available_items_msg http.StatusBadRequest, s'))
  /\ (forall product,
      strings.TrimSpace (handlers.createProduct_Name product) <> "" ->
      strings.TrimSpace (handlers.createProduct_Price product) <> "" ->
      handlers.ParseFloat_err (handlers.createProduct_Price product) = false ->
      handlers.createProduct_AvailableItems product < 0 ->
      handlers.createProductInvalid product = Some available_items_msg)
  /\ (forall product,
      strings.TrimSpace (handlers.updateProduct_Name product) <> "" ->
      strings.TrimSpace (handlers.updateProduct_Price product) <> "" ->
      handlers.ParseFloat_err (handlers.updateProduct_Price product) = false ->
      handlers.updateProduct_AvailableItems product < 0 ->
      handlers.updateProductInvalid product = Some available_items_msg).
Proof.
  intros msg. split; [|split; [|split]].
  - intros r product row Hpost Hdec Hvalid Hstore.
    unfold handlers.ProductsHandler. rewrite Hpost, Hdec, Hvalid, Hstore. cbn.
    unfold handlers.createProductError. cbn. split.
    + intros ->. reflexivity.
    + intros ->. reflexivity.
  - intros r id product row Hpatch Hid Hdec Hvalid Hstore Hc.
    unfold handlers.ProductHandler. rewrite Hid, Hpatch, Hdec, Hvalid, Hstore. cbn.
    unfold handlers.updateProductError. cbn. now rewrite Hc.
  - intros product Hn Hp Hf Ha. unfold handlers.createProductInvalid.
    apply streq_false in Hn, Hp. apply Z.ltb_lt in Ha.
    now rewrite Hn, Hp, Hf, Ha.
  - intros product Hn Hp Hf Ha. unfold handlers.updateProductInvalid.
    apply streq_false in Hn, Hp. apply Z.ltb_lt in Ha.
    now rewrite Hn, Hp, Hf, Ha.
Qed.

Lemma product_check_answers_witness :
  let failing name :=
    mock.Products NilSlice pg.zeroProduct "" (mock.checkViolation name) in
  let msg := "available_items must be greater than or equal to 0" in
  handlers.ProductsHandler (Q := failing "product_available_items_check")
    (rt := mock.decoders)
    (mock.request "POST" "/api/v1/products" "Mouse||222|22") 0%nat
  = (http.Error msg 400, 1%nat)
  /\ handlers.ProductsHandler (Q := failing "product_price_check")
       (rt := mock.decoders)
       (mock.request "POST" "/api/v1/products" "Mouse||222|22") 0%nat
     = (http.Error "price should be a positive number" 400, 1%nat)
  /\ handlers.ProductHandler (Q := failing "product_available_items_check")
       (rt := mock.decoders)
       (mock.request "PATCH" "/api/v1/products/1" "Mouse||222|22") 0%nat
     = (http.Error msg 400, 1%nat)
  /\ handlers.createProductInvalid (rt := mock.decoders)
       {| handlers.createProduct_Name := "Mouse";
          handlers.createProduct_Description := "";
          handlers.createProduct_Price := "222";
          handlers.createProduct_AvailableItems := -1 |}
     = Some msg
  /\ handlers.ProductsHandler (Q := @pg.Products mock.columns) (rt := mock.decoders)
       (mock.request "POST" "/api/v1/products" "Pen||-3|10") mock.oneProduct
     = (http.Error "price should be a positive number" 400,
        pg.set_product mock.oneProduct [mock.mouse] 2).
Proof.
  intros failing msg.
  split; [|split; [|split; [|split]]].
  - destruct (product_check_answers nat (failing "product_available_items_check")
                mock.decoders 0%nat 1%nat
                {| errors.Code := "23514";
                   errors.Constraint := "product_available_items_check" |})
      as (H & _).
    destruct (H (mock.request "POST" "/api/v1/products" "Mouse||222|22") _
                pg.zeroProduct eq_refl eq_refl eq_refl eq_refl) as (H1 & _).
    exact (H1 eq_refl).
  - destruct (product_check_answers nat (failing "product_price_check")
                mock.decoders 0%nat 1%nat
                {| errors.Code := "23514"; errors.Constraint := "product_price_check" |})
      as (H & _).
    destruct (H (mock.request "POST" "/api/v1/products" "Mouse||222|22") _
                pg.zeroProduct eq_refl eq_refl eq_refl eq_refl) as (_ & H1).
    exact (H1 eq_refl).
  - destruct (product_check_answers nat (failing "product_available_items_check")
                mock.decoders 0%nat 1%nat
                {| errors.Code := "23514";
                   errors.Constraint := "product_available_items_check" |})
      as (_ & H & _).
    exact (H (mock.request "PATCH" "/api/v1/products/1" "Mouse||222|22") 1 _
             pg.zeroProduct eq_refl eq_refl eq_refl eq_refl eq_refl eq_refl).
  - destruct (product_check_answers nat (failing "product_available_items_check")
                mock.decoders 0%nat 1%nat
                {| errors.Code := "23514";
                   errors.Constraint := "product_available_items_check" |})
      as (_ & _ & H & _).
    apply H; vm_compute; congruence.
  - destruct (product_check_answers pg.DB (@pg.Products mock.columns)
                mock.decoders mock.oneProduct
                (pg.set_product mock.oneProduct [mock.mouse] 2)
                {| errors.Code := "23514"; errors.Constraint := "product_price_check" |})
      as (H & _).
    destruct (H (mock.request "POST" "/api/v1/products" "Pen||-3|10") _
                pg.zeroProduct eq_refl eq_refl eq_refl eq_refl) as (_ & H1).
    exact (H1 eq_refl).
Defined.

(** C5 as stated fails: on POST /products a violation of the check on price
    is answered with a message that no check of the handler gives, whatever
    the request; on PATCH /products/{id} it is answered with 500. *)
Lemma price_check_message_is_not_a_validation_message :
  let failing :=
    mock.Products NilSlice pg.zeroProduct "" (mock.checkViolation "product_price_check") in
  handlers.ProductsHandler (Q := failing) (rt := mock.decoders)
    (mock.request "POST" "/api/v1/products" "Mouse||222|22") 0%nat
  = (http.Error "price should be a positive number" 400, 1%nat)
  /\ (forall (rt : handlers.Runtime) product,
        handlers.createProductInvalid product
        <> Some "price should be a positive number")
  /\ handlers.ProductHandler (Q := failing) (rt := mock.decoders)
       (mock.request "PATCH" "/api/v1/products/1" "Mouse||222|22") 0%nat
     = (http.Error "Internal server error" 500, 1%nat).
Proof.
  split; [reflexivity|split; [|reflexivity]].
  intros rt product H. apply createProductInvalid_messages in H.
  simpl in H. intuition discriminate.
Qed.

(** ** The products of an invoice *)

Lemma filter_nil {A} (f : A -> bool) (l : list A) :
  (forall x, In x l -> f x = false) -> filter f l = [].
Proof.
  induction l as [|x l IH]; simpl; intros H; [reflexivity|].
  rewrite (H x) by now left. apply IH. intros y Hy. apply H. now right.
Qed.

Lemma exists_by_false {A} (key : A -> Z) (id : Z) (rows : list A) :
  pg.exists_by key id rows = false <-> (forall r, In r rows -> key r <> id).
Proof.
  unfold pg.exists_by. split.
  - intros H r Hr E. apply not_true_iff_false in H. apply H.
    apply existsb_exists. exists r. split; [exact Hr|]. now apply Z.eqb_eq.
  - intros H. apply not_true_iff_false. intros E.
    apply existsb_exists in E as (r & Hr & E). apply Z.eqb_eq in E.
    exact (H r Hr E).
Qed.

Lemma exists_by_true {A} (key : A -> Z) (id : Z) (rows : list A) :
  pg.exists_by key id rows = true <-> (exists r, In r rows /\ key r = id).
Proof.
  unfold pg.exists_by. rewrite existsb_exists.
  split; intros (r & Hr & E); exists r; split; auto; now apply Z.eqb_eq.
Qed.

Lemma joinProducts_no_items (invoiceID : Z) (db : pg.DB) :
  (forall it, In it (pg.invoice_item db) ->
              database.InvoiceItem_InvoiceID it <> invoiceID) ->
  pg.joinProducts invoiceID db = [].
Proof.
  intros H. unfold pg.joinProducts. rewrite filter_nil; [reflexivity|].
  intros it Hit. apply Z.eqb_neq. now apply H.
Qed.

(** C1 on the code: GET /invoices/{id}/products on the tables of schema.sql
    answers 200 with the empty array both for an id that no invoice has and
    for an invoice without line items; the 404 of the handler is never
    reached, since the statement reports no rows by an empty result and not
    by [sql.ErrNoRows]. *)
Theorem relation_list_of_missing_invoice
  (ci : pg.ColumnInput) (rt : handlers.Runtime) (r : http.Request) (db : pg.DB)
  (pre : list string) (sid : string) (id : Z) :
  http.Method r = http.MethodGet ->
  ~ In "invoices" pre ->
  handlers.pathSegments (http.URL_Path r) = (pre ++ ["invoices"; sid; "products"])%list ->
  strconv.Atoi sid = Some id ->
  let empty_list :=
    {| http.StatusCode := 200; http.ResponseBody := http.JSON (json.Array []) |} in
  (pg.exists_by database.Invoice_ID (int32 id) (pg.invoice db) = false ->
     pg.invoice_id_fkey db ->
     handlers.InvoiceHandler r db = (empty_list, db))
  /\ (pg.exists_by database.Invoice_ID (int32 id) (pg.invoice db) = true ->
      pg.exists_by database.InvoiceItem_InvoiceID (int32 id) (pg.invoice_item db) = false ->
      handlers.InvoiceHandler r db = (empty_list, db)).
Proof.
  intros Hget Hpre Hseg Hid empty_list.
  assert (Hnone : (forall it, In it (pg.invoice_item db) ->
                              database.InvoiceItem_InvoiceID it <> int32 id) ->
                  handlers.InvoiceHandler r db = (empty_list, db)).
  { intros Hitems.
    rewrite (route_list r pre Hpre sid db Hseg), Hid, Hget, streq_refl.
    unfold handlers.listInvoiceProducts. cbn.
    unfold pg.ListProductsFromInvoice.
    now rewrite (joinProducts_no_items _ _ Hitems). }
  split.
  - intros Hmissing Hfk. apply Hnone. intros it Hit E.
    specialize (Hfk it Hit). rewrite E, Hmissing in Hfk. discriminate.
  - intros _ Hitems. apply Hnone. now apply exists_by_false.
Qed.

Lemma relation_list_of_missing_invoice_witness :
  let IQ := @pg.Invoices mock.columns in
  let empty_list :=
    {| http.StatusCode := 200; http.ResponseBody := http.JSON (json.Array []) |} in
  pg.exists_by database.Invoice_ID 7 (pg.invoice mock.oneInvoice) = false
  /\ handlers.InvoiceHandler (Q := IQ) (rt := mock.decoders)
       (mock.request "GET" "/api/v1/invoices/7/products" "") mock.oneInvoice
     = (empty_list, mock.oneInvoice)
  /\ handlers.InvoiceHandler (Q := IQ) (rt := mock.decoders)
       (mock.request "GET" "/api/v1/invoices/1/products" "") mock.oneInvoice
     = (empty_list, mock.oneInvoice).
Proof.
  intros IQ empty_list.
  assert (Hpre : ~ In "invoices" ["api"; "v1"])
    by (simpl; intros [H|[H|[]]]; discriminate).
  split; [reflexivity|split].
  - destruct (relation_list_of_missing_invoice mock.columns mock.decoders
                (mock.request "GET" "/api/v1/invoices/7/products" "") mock.oneInvoice
                ["api"; "v1"] "7" 7 eq_refl Hpre eq_refl eq_refl) as (H & _).
    apply H; [reflexivity|]. intros it [].
  - destruct (relation_list_of_missing_invoice mock.columns mock.decoders
                (mock.request "GET" "/api/v1/invoices/1/products" "") mock.oneInvoice
                ["api"; "v1"] "1" 1 eq_refl Hpre eq_refl eq_refl) as (_ & H).
    apply H; reflexivity.
Defined.

(** ** Deleting an entity *)

Lemma filter_existsb {A} (f : A -> bool) (l : list A) :
  match filter f l with
  | [] => existsb f l = false
  | _ :: _ => existsb f l = true
  end.
Proof.
  induction l as [|x l IH]; simpl; [reflexivity|].
  destruct (f x); simpl; [reflexivity|exact IH].
Qed.

Lemma delete_by_gone {A} (key : A -> Z) (id : Z) (rows : list A) :
  pg.exists_by key id (pg.delete_by key id rows) = false.
Proof.
  apply exists_by_false. intros r Hr E.
  apply filter_In in Hr as (_ & Hr). apply Z.eqb_eq in E.
  rewrite E in Hr. discriminate.
Qed.

(** The three outcomes of each delete statement: the CASE of the statement
    never reaches [delete_failed], since the DELETE returns the rows the
    existence check saw. *)
Section DeleteStatement.

Context {ci : pg.ColumnInput}.

Lemma DeleteCustomer_outcomes (id : Z) (db : pg.DB) :
  pg.DeleteCustomer id db
  = if negb (pg.exists_by database.Customer_ID id (pg.customer db)) then
      (("customer_not_found", None), db)
    else if pg.exists_by database.Invoice_CustomerID id (pg.invoice db) then
      pg.fail "" pg.foreign_key_violation "invoice_customer_id_fkey" db
    else
      (("success", None),
       pg.set_customer db (pg.delete_by database.Customer_ID id (pg.customer db))
         (pg.customer_id_seq db)).
Proof.
  unfold pg.DeleteCustomer.
  pose proof (filter_existsb (fun r => database.Customer_ID r =? id) (pg.customer db)) as H.
  change (existsb _ (pg.customer db)) with (pg.exists_by database.Customer_ID id (pg.customer db)) in H.
  destruct (filter _ (pg.customer db)); rewrite H; cbn; [reflexivity|].
  now destruct (pg.exists_by _ id (pg.invoice db)).
Qed.

Lemma DeleteProduct_outcomes (id : Z) (db : pg.DB) :
  pg.DeleteProduct id db
  = if negb (pg.exists_by pg.product_id id (pg.product db)) then
      (("product_not_found", None), db)
    else if pg.exists_by database.InvoiceItem_ProductID id (pg.invoice_item db) then
      pg.fail "" pg.foreign_key_violation "invoice_item_product_id_fkey" db
    else
      (("success", None),
       pg.set_product db (pg.delete_by pg.product_id id (pg.product db))
         (pg.product_id_seq db)).
Proof.
  unfold pg.DeleteProduct.
  pose proof (filter_existsb (fun r => pg.product_id r =? id) (pg.product db)) as H.
  change (existsb _ (pg.product db)) with (pg.exists_by pg.product_id id (pg.product db)) in H.
  destruct (filter _ (pg.product db)); rewrite H; cbn; [reflexivity|].
  now destruct (pg.exists_by _ id (pg.invoice_item db)).
Qed.

Lemma DeleteInvoice_outcomes (id : Z) (db : pg.DB) :
  pg.DeleteInvoice id db
  = if negb (pg.exists_by database.Invoice_ID id (pg.invoice db)) then
      (("invoice_not_found", None), db)
    else if pg.exists_by database.InvoiceItem_InvoiceID id (pg.invoice_item db) then
      pg.fail "" pg.foreign_key_violation "invoice_item_invoice_id_fkey" db
    else
      (("success", None),
       pg.set_invoice db (pg.delete_by database.Invoice_ID id (pg.invoice db))
         (pg.invoice_id_seq db)).
Proof.
  unfold pg.DeleteInvoice.
  pose proof (filter_existsb (fun r => database.Invoice_ID r =? id) (pg.invoice db)) as H.
  change (existsb _ (pg.invoice db)) with (pg.exists_by database.Invoice_ID id (pg.invoice db)) in H.
  destruct (filter _ (pg.invoice db)); rewrite H; cbn; [reflexivity|].
  now destruct (pg.exists_by _ id (pg.invoice_item db)).
Qed.

End DeleteStatement.

(** X1: on the tables of schema.sql, DELETE /customers/{id}, /products/{id} and
    /invoices/{id} address the row whose id is [int32(id)] (the id itself
    when it fits 32 bits) and have three outcomes, each with one call of the
    store: 404 and no change when the table has no such row, 409 and no
    change when a row of the referencing table points to it, 204 and the row
    removed otherwise. *)
Theorem delete_three_outcomes
  (ci : pg.ColumnInput) (rt : handlers.Runtime) (r : http.Request) (db : pg.DB) (id : Z) :
  http.Method r = http.MethodDelete ->
  (utils.ExtractTrailingID (http.URL_Path r) = Some id ->
     handlers.CustomerHandler r db
     = if negb (pg.exists_by database.Customer_ID (int32 id) (pg.customer db)) then
         (http.Error "Customer not found" http.StatusNotFound, db)
       else if pg.exists_by database.Invoice_CustomerID (int32 id) (pg.invoice db) then
         (http.Error "cannot delete customer: customer is referenced in the invoice table"
            http.StatusConflict, db)
       else
         (http.WriteHeader http.StatusNoContent,
          pg.set_customer db
            (pg.delete_by database.Customer_ID (int32 id) (pg.customer db))
            (pg.customer_id_seq db)))
  /\ (utils.ExtractTrailingID (http.URL_Path r) = Some id ->
      handlers.ProductHandler r db
      = if negb (pg.exists_by pg.product_id (int32 id) (pg.product db)) then
          (http.Error "Product not found" http.StatusNotFound, db)
        else if pg.exists_by database.InvoiceItem_ProductID (int32 id)
                  (pg.invoice_item db) then
          (http.Error
             "cannot delete product: product is referenced in the invoice_item table"
             http.StatusConflict, db)
        else
          (http.WriteHeader http.StatusNoContent,
           pg.set_product db (pg.delete_by pg.product_id (int32 id) (pg.product db))
             (pg.product_id_seq db)))
  /\ (forall pre sid,
      ~ In "invoices" pre ->
      handlers.pathSegments (http.URL_Path r) = (pre ++ ["invoices"; sid])%list ->
      strconv.Atoi sid = Some id ->
      handlers.InvoiceHandler r db
      = if negb (pg.exists_by database.Invoice_ID (int32 id) (pg.invoice db)) then
          (http.Error "Invoice not found" http.StatusNotFound, db)
        else if pg.exists_by database.InvoiceItem_InvoiceID (int32 id)
                  (pg.invoice_item db) then
          (http.Error
             "cannot delete invoice: invoice is referenced in the invoice_item table"
             http.StatusConflict, db)
        else
          (http.WriteHeader http.StatusNoContent,
           pg.set_invoice db (pg.delete_by database.Invoice_ID (int32 id) (pg.invoice db))
             (pg.invoice_id_seq db))).
Proof.
  intros Hdel. split; [|split].
  - intros Hid. unfold handlers.CustomerHandler. rewrite Hid, Hdel. cbn.
    rewrite DeleteCustomer_outcomes.
    destruct (pg.exists_by _ _ (pg.customer db)); cbn; [|reflexivity].
    destruct (pg.exists_by _ _ (pg.invoice db)); reflexivity.
  - intros Hid. unfold handlers.ProductHandler. rewrite Hid, Hdel. cbn.
    rewrite DeleteProduct_outcomes.
    destruct (pg.exists_by _ _ (pg.product db)); cbn; [|reflexivity].
    destruct (pg.exists_by _ _ (pg.invoice_item db)); reflexivity.
  - intros pre sid Hpre Hseg Hid.
    rewrite (route_invoice r pre Hpre sid [] db Hseg) by discriminate.
    rewrite Hid. unfold handlers.invoiceOnly. rewrite Hdel. cbn.
    rewrite DeleteInvoice_outcomes.
    destruct (pg.exists_by _ _ (pg.invoice db)); cbn; [|reflexivity].
    destruct (pg.exists_by _ _ (pg.invoice_item db)); reflexivity.
Qed.

Lemma delete_three_outcomes_witness :
  let CQ := @pg.Customers mock.columns in
  handlers.CustomerHandler (Q := CQ) (rt := mock.decoders)
    (mock.request "DELETE" "/api/v1/customers/2" "") mock.oneInvoice
  = (http.Error "Customer not found" 404, mock.oneInvoice)
  /\ handlers.CustomerHandler (Q := CQ) (rt := mock.decoders)
       (mock.request "DELETE" "/api/v1/customers/1" "") mock.oneInvoice
     = (http.Error "cannot delete customer: customer is referenced in the invoice table"
          409, mock.oneInvoice)
  /\ handlers.CustomerHandler (Q := CQ) (rt := mock.decoders)
       (mock.request "DELETE" "/api/v1/customers/1" "") mock.oneCustomer
     = (http.WriteHeader 204, pg.set_customer mock.oneCustomer [] 1).
Proof.
  intros CQ. split; [|split].
  - destruct (delete_three_outcomes mock.columns mock.decoders
                (mock.request "DELETE" "/api/v1/customers/2" "") mock.oneInvoice 2
                eq_refl) as (H & _).
    exact (H eq_refl).
  - destruct (delete_three_outcomes mock.columns mock.decoders
                (mock.request "DELETE" "/api/v1/customers/1" "") mock.oneInvoice 1
                eq_refl) as (H & _).
    exact (H eq_refl).
  - destruct (delete_three_outcomes mock.columns mock.decoders
                (mock.request "DELETE" "/api/v1/customers/1" "") mock.oneCustomer 1
                eq_refl) as (H & _).
    exact (H eq_refl).
Defined.

(** C3 on the code: the id of the path is narrowed to 32 bits before the
    store sees it. The table customer has no row with id 4294967297, and
    DELETE /api/v1/customers/4294967297 answers 204 having removed
    customer 1. *)
Theorem customer_delete_wraps_id :
  let CQ := @pg.Customers mock.columns in
  utils.ExtractTrailingID "/api/v1/customers/4294967297" = Some 4294967297
  /\ pg.exists_by database.Customer_ID 4294967297 (pg.customer mock.oneCustomer) = false
  /\ handlers.CustomerHandler (Q := CQ) (rt := mock.decoders)
       (mock.request "DELETE" "/api/v1/customers/4294967297" "") mock.oneCustomer
     = (http.WriteHeader 204, pg.set_customer mock.oneCustomer [] 1).
Proof. repeat split. Qed.

(** ** Adding a product to an invoice *)
Section Upsert.

Context {ci : pg.ColumnInput}.

Variables (invoiceID productID count : Z).

#[local] Abbreviation same := (pg.samePair invoiceID productID).
#[local] Abbreviation upd :=
  (fun r => if pg.samePair invoiceID productID r then pg.setCount count r else r).

Lemma samePair_setCount (r : database.InvoiceItem) :
  same (pg.setCount count r) = same r.
Proof. reflexivity. Qed.

Lemma setCount_same_count (r : database.InvoiceItem) :
  database.InvoiceItem_Count r = count -> pg.setCount count r = r.
Proof. destruct r. simpl. now intros ->. Qed.

Lemma filter_upd (items : list database.InvoiceItem) :
  filter same (map upd items) = map (pg.setCount count) (filter same items).
Proof.
  induction items as [|x items IH]; simpl; [reflexivity|].
  destruct (same x) eqn:E.
  - rewrite samePair_setCount, E. simpl. now rewrite IH.
  - now rewrite E.
Qed.

Lemma upd_others (items : list database.InvoiceItem) (it : database.InvoiceItem) :
  same it = false -> (In it (map upd items) <-> In it items).
Proof.
  intros Hit. rewrite in_map_iff. split.
  - intros (x & Hx & Hin). destruct (same x) eqn:E.
    + subst it. rewrite samePair_setCount, E in Hit. discriminate.
    + now subst.
  - intros Hin. exists it. now rewrite Hit.
Qed.

Lemma upd_pairs (items : list database.InvoiceItem) :
  map (fun it => (database.InvoiceItem_InvoiceID it, database.InvoiceItem_ProductID it))
    (map upd items)
  = map (fun it => (database.InvoiceItem_InvoiceID it, database.InvoiceItem_ProductID it))
      items.
Proof.
  rewrite map_map. apply map_ext. intros x. now destruct (same x).
Qed.

Lemma upd_fixed (items : list database.InvoiceItem) :
  (forall it, In it items -> same it = true -> database.InvoiceItem_Count it = count) ->
  map upd items = items.
Proof.
  intros H. rewrite <- (map_id items) at 2. apply map_ext_in.
  intros x Hx. destruct (same x) eqn:E; [|reflexivity].
  apply setCount_same_count. now apply H.
Qed.

Lemma find_filter {A} (f : A -> bool) (l : list A) :
  find f l = hd_error (filter f l).
Proof.
  induction l as [|x l IH]; simpl; [reflexivity|]. now destruct (f x).
Qed.

Lemma samePair_true (r : database.InvoiceItem) :
  same r = true
  <-> (database.InvoiceItem_InvoiceID r, database.InvoiceItem_ProductID r)
      = (invoiceID, productID).
Proof.
  unfold pg.samePair. rewrite andb_true_iff, !Z.eqb_eq.
  split; [intros [-> ->]; reflexivity | intros [= -> ->]; auto].
Qed.

(** Under UNIQUE (invoice_id, product_id) a pair has one row at most. *)
Lemma unique_filter (items : list database.InvoiceItem) (old : database.InvoiceItem) :
  pg.invoice_item_unique items -> In old items -> same old = true ->
  filter same items = [old].
Proof.
  unfold pg.invoice_item_unique.
  induction items as [|x items IH]; simpl; intros Hu Hin Hold; [contradiction|].
  inversion Hu as [|? ? Hx Hu']; subst.
  destruct (same x) eqn:E.
  - assert (Hnone : filter same items = []).
    { apply filter_nil. intros y Hy. apply not_true_iff_false. intros Ey.
      apply Hx. apply samePair_true in E, Ey. rewrite E, <- Ey.
      apply (in_map (fun it => (database.InvoiceItem_InvoiceID it,
                                database.InvoiceItem_ProductID it))), Hy. }
    rewrite Hnone. destruct Hin as [->|Hin]; [reflexivity|].
    assert (Hf : In old (filter same items)) by (apply filter_In; auto).
    rewrite Hnone in Hf. contradiction.
  - destruct Hin as [->|Hin]; [congruence|]. now apply IH.
Qed.

(** The statement, once an id is left in the sequence and the count passes
    the check. *)
Lemma AddProductToInvoice_cases (db : pg.DB) :
  pg.invoice_item_id_seq db < 2147483647 -> 0 < count ->
  let id := pg.invoice_item_id_seq db + 1 in
  let arg := {| database.AddProduct_InvoiceID := invoiceID;
                database.AddProduct_ProductID := productID;
                database.AddProduct_Count := count |} in
  pg.AddProductToInvoice arg db
  = match find same (pg.invoice_item db) with
    | Some old =>
        ((pg.setCount count old, None),
         pg.set_invoice_item db (map upd (pg.invoice_item db)) id)
    | None =>
        if negb (pg.exists_by database.Invoice_ID invoiceID (pg.invoice db)) then
          pg.fail pg.zeroInvoiceItem pg.foreign_key_violation
            "invoice_item_invoice_id_fkey"
            (pg.set_invoice_item db (pg.invoice_item db) id)
        else if negb (pg.exists_by pg.product_id productID (pg.product db)) then
          pg.fail pg.zeroInvoiceItem pg.foreign_key_violation
            "invoice_item_product_id_fkey"
            (pg.set_invoice_item db (pg.invoice_item db) id)
        else
          let row :=
            {| database.InvoiceItem_ID := id;
               database.InvoiceItem_InvoiceID := invoiceID;
               database.InvoiceItem_ProductID := productID;
               database.InvoiceItem_Count := count;
               database.InvoiceItem_CreatedAt := pg.clock db;
               database.InvoiceItem_UpdatedAt := pg.clock db |} in
          ((row, None), pg.set_invoice_item db (pg.invoice_item db ++ [row]) id)
    end.
Proof.
  intros Hseq Hcount id arg. unfold pg.AddProductToInvoice, pg.nextval.
  apply Z.ltb_lt in Hseq. rewrite Hseq.
  cbn [database.AddProduct_Count database.AddProduct_InvoiceID
         database.AddProduct_ProductID arg].
  apply Z.gtb_lt in Hcount. rewrite Hcount. reflexivity.
Qed.

End Upsert.

Lemma add_product_call {S : Type} {Q : database.InvoiceQueries S}
  {rt : handlers.Runtime} (r : http.Request) (s : S) (pre : list string)
  (sid spid : string) (i p : Z) (params : handlers.createInvoiceItemRequest) :
  http.Method r = http.MethodPost ->
  ~ In "invoices" pre ->
  handlers.pathSegments (http.URL_Path r)
  = (pre ++ ["invoices"; sid; "products"; spid])%list ->
  strconv.Atoi sid = Some i ->
  strconv.Atoi spid = Some p ->
  handlers.decodeCreateInvoiceItem (http.Body r) = Some params ->
  0 < handlers.createInvoiceItem_Count params ->
  handlers.InvoiceHandler r s
  = let '((item, err), s') :=
      database.AddProductToInvoice
        {| database.AddProduct_InvoiceID := int32 i;
           database.AddProduct_ProductID := int32 p;
           database.AddProduct_Count := handlers.createInvoiceItem_Count params |} s in
    (match err with
     | Some err => handlers.addInvoiceProductError err
     | None =>
         handlers.writeServerResponse http.StatusCreated
           (handlers.toInvoiceItemResponse item)
     end, s').
Proof.
  intros Hpost Hpre Hseg Hi Hp Hdec Hc.
  rewrite (route_item r pre Hpre sid spid s Hseg), Hi, Hp, Hpost. cbn.
  unfold handlers.addInvoiceProduct. rewrite Hdec.
  apply Z.leb_gt in Hc. rewrite Hc.
  destruct (database.AddProductToInvoice _ s) as [[item [err|]] s']; reflexivity.
Qed.

(** C2, as the code has it: POST /invoices/{id}/products/{product_id} with a
    positive count, on the tables of schema.sql. When invoice_item has a row
    for the pair and the sequence of its ids has a value left, the answer is
    201 with that row carrying the new count, the table keeps its length and
    its other rows, and the pair still has exactly one row; when the
    sequence is exhausted the answer is 500 and the database is as it was
    (the statement draws an id before it looks for the conflict). Whenever
    the request is answered with 201 and a value is left after it, repeating
    it gives the same answer and leaves invoice_item as it is, with exactly
    one row for the pair and the count requested. *)
Theorem upsert_replaces_count
  (ci : pg.ColumnInput) (rt : handlers.Runtime) (r : http.Request) (db : pg.DB)
  (pre : list string) (sid spid : string) (i p : Z)
  (params : handlers.createInvoiceItemRequest) :
  http.Method r = http.MethodPost ->
  ~ In "invoices" pre ->
  handlers.pathSegments (http.URL_Path r)
  = (pre ++ ["invoices"; sid; "products"; spid])%list ->
  strconv.Atoi sid = Some i ->
  strconv.Atoi spid = Some p ->
  handlers.decodeCreateInvoiceItem (http.Body r) = Some params ->
  0 < handlers.createInvoiceItem_Count params ->
  pg.invoice_item_unique (pg.invoice_item db) ->
  let count := handlers.createInvoiceItem_Count params in
  let same := pg.samePair (int32 i) (int32 p) in
  (forall old,
      In old (pg.invoice_item db) ->
      database.InvoiceItem_InvoiceID old = int32 i ->
      database.InvoiceItem_ProductID old = int32 p ->
      pg.invoice_item_id_seq db < 2147483647 ->
      exists db',
        handlers.InvoiceHandler r db
        = (handlers.writeServerResponse http.StatusCreated
             (handlers.toInvoiceItemResponse (pg.setCount count old)), db')
        /\ filter same (pg.invoice_item db') = [pg.setCount count old]
        /\ length (pg.invoice_item db') = length (pg.invoice_item db)
        /\ (forall it, same it = false ->
                       (In it (pg.invoice_item db') <-> In it (pg.invoice_item db)))
        /\ pg.invoice_item_unique (pg.invoice_item db'))
  /\ (2147483647 <= pg.invoice_item_id_seq db ->
      handlers.InvoiceHandler r db
      = (http.Error config.InternalServerErrorMsg http.StatusInternalServerError, db))
  /\ (forall resp db1,
      handlers.InvoiceHandler r db = (resp, db1) ->
      http.StatusCode resp = http.StatusCreated ->
      pg.invoice_item_id_seq db1 < 2147483647 ->
      exists item db2,
        resp = handlers.writeServerResponse http.StatusCreated
                 (handlers.toInvoiceItemResponse item)
        /\ database.InvoiceItem_Count item = count
        /\ filter same (pg.invoice_item db1) = [item]
        /\ handlers.InvoiceHandler r db1 = (resp, db2)
        /\ pg.invoice_item db2 = pg.invoice_item db1).
Proof.
  intros Hpost Hpre Hseg Hi Hp Hdec Hc Hu count same.
  pose proof (fun s => add_product_call r s pre sid spid i p params
                         Hpost Hpre Hseg Hi Hp Hdec Hc) as Hcall.
  fold count in Hcall.
  assert (Hlast : 2147483647 <= pg.invoice_item_id_seq db ->
                  handlers.InvoiceHandler r db
                  = (http.Error config.InternalServerErrorMsg
                       http.StatusInternalServerError, db)).
  { intros Hfull. rewrite Hcall. cbn [database.AddProductToInvoice pg.Invoices].
    unfold pg.AddProductToInvoice, pg.nextval.
    now rewrite (proj2 (Z.ltb_ge _ _) Hfull). }
  split; [|split; [exact Hlast|]].
  - intros old Hin Hio Hpo Hseq1.
    pose proof (AddProductToInvoice_cases (int32 i) (int32 p) count db Hseq1 Hc) as Hadd.
    cbv zeta in Hadd.
    assert (Hsame : same old = true)
      by (apply samePair_true; now rewrite Hio, Hpo).
    pose proof (unique_filter _ _ _ old Hu Hin Hsame) as Hf.
    rewrite find_filter, Hf in Hadd. simpl in Hadd.
    eexists. rewrite Hcall. cbn. rewrite Hadd. split; [reflexivity|].
    cbn. split; [|split; [|split]].
    + unfold same. now rewrite filter_upd, Hf.
    + now rewrite length_map.
    + intros it Hit. now apply upd_others.
    + unfold pg.invoice_item_unique. now rewrite upd_pairs.
  - intros resp db1 Hr Hstatus Hleft.
    assert (Hseq1 : pg.invoice_item_id_seq db < 2147483647).
    { destruct (Z.lt_ge_cases (pg.invoice_item_id_seq db) 2147483647) as [Hlt|Hfull];
        [exact Hlt|].
      rewrite (Hlast Hfull) in Hr. injection Hr as <- _. discriminate Hstatus. }
    pose proof (AddProductToInvoice_cases (int32 i) (int32 p) count db Hseq1 Hc) as Hadd.
    cbv zeta in Hadd.
    rewrite Hcall in Hr. cbn in Hr. rewrite Hadd in Hr.
    assert (Hsecond : forall item,
               database.InvoiceItem_Count item = count ->
               filter same (pg.invoice_item db1) = [item] ->
               pg.invoice_item_id_seq db1 = pg.invoice_item_id_seq db + 1 ->
               resp = handlers.writeServerResponse http.StatusCreated
                        (handlers.toInvoiceItemResponse item) ->
               exists db2, handlers.InvoiceHandler r db1 = (resp, db2)
                           /\ pg.invoice_item db2 = pg.invoice_item db1).
    { intros item Hcount Hf Hs Hresp.
      assert (Hseq2 : pg.invoice_item_id_seq db1 < 2147483647) by exact Hleft.
      pose proof (AddProductToInvoice_cases (int32 i) (int32 p) count db1 Hseq2 Hc)
        as Hadd1.
      cbv zeta in Hadd1. fold same in Hadd1.
      rewrite find_filter, Hf in Hadd1. simpl in Hadd1.
      eexists. rewrite Hcall. cbn. rewrite Hadd1. split.
      - now rewrite (setCount_same_count count item Hcount), Hresp.
      - cbn. apply upd_fixed. intros it Hit Hs'.
        assert (Hin : In it (filter same (pg.invoice_item db1)))
          by (apply filter_In; auto).
        rewrite Hf in Hin. destruct Hin as [<-|[]]. exact Hcount. }
    fold same in Hr.
    destruct (find same (pg.invoice_item db)) as [old|] eqn:Hfind.
    + injection Hr as <- <-.
      apply find_some in Hfind as (Hin & Hsame).
      pose proof (unique_filter _ _ _ old Hu Hin Hsame) as Hf.
      assert (Hf1 : filter same (map (fun r0 => if same r0 then pg.setCount count r0 else r0)
                                   (pg.invoice_item db))
                    = [pg.setCount count old])
        by (unfold same; now rewrite filter_upd, Hf).
      destruct (Hsecond (pg.setCount count old) eq_refl Hf1 eq_refl eq_refl)
        as (db2 & H2 & H3).
      exists (pg.setCount count old), db2. auto.
    + destruct (pg.exists_by database.Invoice_ID (int32 i) (pg.invoice db)); cbn in Hr;
        [|injection Hr as <- <-; discriminate].
      destruct (pg.exists_by pg.product_id (int32 p) (pg.product db)); cbn in Hr;
        [|injection Hr as <- <-; discriminate].
      injection Hr as <- <-.
      set (row := {| database.InvoiceItem_ID := pg.invoice_item_id_seq db + 1;
                     database.InvoiceItem_InvoiceID := int32 i;
                     database.InvoiceItem_ProductID := int32 p;
                     database.InvoiceItem_Count := count;
                     database.InvoiceItem_CreatedAt := pg.clock db;
                     database.InvoiceItem_UpdatedAt := pg.clock db |}) in *.
      assert (Hf1 : filter same (pg.invoice_item db ++ [row]) = [row]).
      { rewrite filter_app, (filter_nil same (pg.invoice_item db)).
        - simpl. unfold same, pg.samePair. simpl. now rewrite !Z.eqb_refl.
        - intros x Hx. exact (find_none _ _ Hfind x Hx). }
      destruct (Hsecond row eq_refl Hf1 eq_refl eq_refl) as (db2 & H2 & H3).
      exists row, db2. auto.
Qed.

Lemma upsert_replaces_count_witness :
  let IQ := @pg.Invoices mock.columns in
  let post count := mock.request "POST" "/api/v1/invoices/1/products/1" count in
  let first := handlers.InvoiceHandler (Q := IQ) (rt := mock.decoders) (post "5")
                 mock.oneProduct in
  (exists db',
      handlers.InvoiceHandler (Q := IQ) (rt := mock.decoders) (post "3") mock.oneLine
      = (handlers.writeServerResponse 201
           (handlers.toInvoiceItemResponse (pg.setCount 3 mock.line)), db')
      /\ filter (pg.samePair 1 1) (pg.invoice_item db') = [pg.setCount 3 mock.line]
      /\ length (pg.invoice_item db') = 1%nat)
  /\ (exists item db2,
        database.InvoiceItem_Count item = 5
        /\ filter (pg.samePair 1 1) (pg.invoice_item (snd first)) = [item]
        /\ handlers.InvoiceHandler (Q := IQ) (rt := mock.decoders) (post "5") (snd first)
           = (fst first, db2)
        /\ pg.invoice_item db2 = pg.invoice_item (snd first)).
Proof.
  intros IQ post first.
  assert (Hpre : ~ In "invoices" ["api"; "v1"])
    by (simpl; intros [H|[H|[]]]; discriminate).
  split.
  - destruct (upsert_replaces_count mock.columns mock.decoders (post "3") mock.oneLine
                ["api"; "v1"] "1" "1" 1 1 _ eq_refl Hpre eq_refl eq_refl eq_refl
                eq_refl eq_refl) as (H & _).
    + unfold pg.invoice_item_unique. simpl. constructor; [intros []|constructor].
    + destruct (H mock.line (or_introl eq_refl) eq_refl eq_refl eq_refl)
        as (db' & Heq & Hf & Hlen & _).
      exists db'. auto.
  - destruct (upsert_replaces_count mock.columns mock.decoders (post "5") mock.oneProduct
                ["api"; "v1"] "1" "1" 1 1 _ eq_refl Hpre eq_refl eq_refl eq_refl
                eq_refl eq_refl) as (_ & _ & H).
    + constructor.
    + destruct (H (fst first) (snd first) (surjective_pairing first) eq_refl eq_refl)
        as (item & db2 & _ & Hcount & Hf & H2 & H3).
      exists item, db2. auto.
Defined.

(** C2 as stated fails: with the sequence of invoice_item ids at its last
    value, the upsert of a pair that has a row is answered with 500 and the
    row keeps its count. *)
Lemma upsert_fails_without_an_id :
  let IQ := @pg.Invoices mock.columns in
  let full := pg.set_invoice_item mock.oneLine [mock.line] 2147483647 in
  pg.valid full
  /\ handlers.InvoiceHandler (Q := IQ) (rt := mock.decoders)
       (mock.request "POST" "/api/v1/invoices/1/products/1" "3") full
     = (http.Error "Internal server error" 500, full)
  /\ database.InvoiceItem_Count mock.line = 5.
Proof.
  intros IQ full. split; [|split; reflexivity].
  unfold pg.valid, pg.primary_keys, pg.consistent, pg.checks, pg.keys,
    pg.invoice_number_unique, pg.invoice_item_unique, pg.invoice_id_fkey,
    pg.customer_id_fkey, pg.product_id_fkey.
  simpl.
  repeat match goal with
    | |- _ /\ _ => split
    | |- NoDup _ => constructor
    | |- Forall _ _ => constructor
    | |- ~ _ => simpl; intros H; repeat destruct H as [H|H]; try discriminate H; try exact H
    | |- forall _, _ => intros
    | H : _ \/ _ |- _ => destruct H
    | H : False |- _ => destruct H
    | H : _ = _ |- _ => subst
    | |- _ <= _ => now vm_compute
    | |- _ < _ => now vm_compute
    | |- _ = _ => reflexivity
    end.
Qed.


(** ** The constraints of invoice_item are kept

    [pg.consistent] holds of the empty database and every statement that
    writes invoice or invoice_item keeps it, whatever its arguments and
    whether it succeeds or fails. *)
Section Consistent.

Context {ci : pg.ColumnInput}.

Lemma consistent_empty (now : time.Time) : pg.consistent (pg.empty now).
Proof. split; [constructor|intros it []]. Qed.

Lemma consistent_frame (db db' : pg.DB) :
  pg.invoice db' = pg.invoice db -> pg.invoice_item db' = pg.invoice_item db ->
  pg.consistent db -> pg.consistent db'.
Proof.
  unfold pg.consistent, pg.invoice_id_fkey. intros -> ->. tauto.
Qed.

Lemma NoDup_map_filter {A B} (f : A -> B) (g : A -> bool) (l : list A) :
  NoDup (map f l) -> NoDup (map f (filter g l)).
Proof.
  induction l as [|x l IH]; simpl; intros H; [constructor|].
  inversion H as [|? ? Hx Hl]; subst.
  destruct (g x); simpl; [constructor|]; auto.
  intros Hin. apply Hx. apply in_map_iff in Hin as (y & <- & Hy).
  apply in_map. apply filter_In in Hy. tauto.
Qed.

Lemma NoDup_snoc {A} (x : A) (l : list A) :
  NoDup l -> ~ In x l -> NoDup (l ++ [x]).
Proof.
  intros Hl Hx. eapply Permutation_NoDup; [apply Permutation_cons_append|].
  now constructor.
Qed.

Lemma exists_by_app {A} (key : A -> Z) (id : Z) (l1 l2 : list A) :
  pg.exists_by key id l1 = true -> pg.exists_by key id (l1 ++ l2) = true.
Proof.
  unfold pg.exists_by. rewrite existsb_app. now intros ->.
Qed.

Lemma AddProductToInvoice_consistent (arg : database.AddProductToInvoiceParams)
  (db : pg.DB) :
  pg.consistent db -> pg.consistent (snd (pg.AddProductToInvoice arg db)).
Proof.
  intros (Hu & Hfk). unfold pg.AddProductToInvoice.
  destruct (pg.nextval _) as [id|]; [|now split].
  destruct (negb _); [now split|].
  destruct (find _ (pg.invoice_item db)) as [old|] eqn:Hfind.
  - split; cbn.
    + unfold pg.invoice_item_unique. now rewrite upd_pairs.
    + intros it Hit. cbn in *. apply in_map_iff in Hit as (x & <- & Hx).
      specialize (Hfk x Hx). now destruct (pg.samePair _ _ x).
  - destruct (pg.exists_by database.Invoice_ID _ (pg.invoice db)) eqn:Hinv;
      [|now split].
    destruct (pg.exists_by pg.product_id _ (pg.product db)); [|now split].
    split; cbn.
    + unfold pg.invoice_item_unique. rewrite map_app. simpl.
      apply NoDup_snoc; [exact Hu|].
      intros Hin. apply in_map_iff in Hin as (x & E & Hx).
      pose proof (find_none _ _ Hfind x Hx) as Hnone.
      apply not_true_iff_false in Hnone. apply Hnone.
      now apply samePair_true.
    + intros it Hit. cbn in *. apply in_app_or in Hit as [Hit|[<-|[]]].
      * now apply Hfk.
      * exact Hinv.
Qed.

Lemma DeleteProductFromInvoice_consistent
  (arg : database.DeleteProductFromInvoiceParams) (db : pg.DB) :
  pg.consistent db -> pg.consistent (snd (pg.DeleteProductFromInvoice arg db)).
Proof.
  intros (Hu & Hfk). split; cbn.
  - now apply NoDup_map_filter.
  - intros it Hit. cbn in *. apply filter_In in Hit as (Hit & _). now apply Hfk.
Qed.

Lemma CreateInvoice_consistent (arg : database.CreateInvoiceParams) (db : pg.DB) :
  pg.consistent db -> pg.consistent (snd (pg.CreateInvoice arg db)).
Proof.
  intros (Hu & Hfk). unfold pg.CreateInvoice, pg.input.
  destruct (pg.varchar _ _); [|now split].
  destruct (pg.timestamp _); [|now split].
  destruct (pg.nextval _) as [id|]; [|now split].
  destruct (existsb _ _); [now split|].
  destruct (negb _); [now split|].
  split; [exact Hu|]. intros it Hit. cbn in *. now apply exists_by_app, Hfk.
Qed.

Lemma update_by_keys {A} (key : A -> Z) (id : Z) (row : A) (rows : list A) :
  key row = id ->
  map key (pg.update_by key id (fun _ => row) rows) = map key rows.
Proof.
  intros Hrow. unfold pg.update_by. rewrite map_map. apply map_ext.
  intros r. destruct (key r =? id) eqn:E; [|reflexivity].
  apply Z.eqb_eq in E. congruence.
Qed.

Lemma exists_by_keys {A} (key : A -> Z) (id : Z) (l1 l2 : list A) :
  map key l1 = map key l2 -> pg.exists_by key id l1 = pg.exists_by key id l2.
Proof.
  unfold pg.exists_by. revert l2.
  induction l1 as [|x l1 IH]; intros [|y l2]; simpl; try discriminate; auto.
  intros [= -> H]. now rewrite (IH l2 H).
Qed.

Lemma UpdateInvoice_consistent (arg : database.UpdateInvoiceParams) (db : pg.DB) :
  pg.consistent db -> pg.consistent (snd (pg.UpdateInvoice arg db)).
Proof.
  intros (Hu & Hfk). unfold pg.UpdateInvoice, pg.input.
  destruct (pg.varchar _ _); [|now split].
  destruct (pg.timestamp _); [|now split].
  destruct (pg.find_by _ _ _) as [old|] eqn:Hfind; [|now split].
  destruct (existsb _ _); [now split|].
  destruct (negb _); [now split|].
  split; [exact Hu|]. intros it Hit.
  cbn [snd pg.invoice pg.invoice_item pg.set_invoice] in *.
  rewrite (exists_by_keys _ _ _ (pg.invoice db)); [now apply Hfk|].
  apply update_by_keys. cbn.
  apply find_some in Hfind as (_ & E). now apply Z.eqb_eq in E.
Qed.

Lemma DeleteInvoice_consistent (id : Z) (db : pg.DB) :
  pg.consistent db -> pg.consistent (snd (pg.DeleteInvoice id db)).
Proof.
  intros (Hu & Hfk). rewrite DeleteInvoice_outcomes.
  destruct (negb _); [now split|].
  destruct (pg.exists_by database.InvoiceItem_InvoiceID id _) eqn:Href; [now split|].
  split; [exact Hu|]. intros it Hit. cbn in *.
  pose proof (proj1 (exists_by_false _ _ _) Href it Hit) as Hne.
  destruct (proj1 (exists_by_true _ _ _) (Hfk it Hit)) as (r & Hr & E).
  apply exists_by_true. exists r. split; [|exact E].
  apply filter_In. split; [exact Hr|].
  apply negb_true_iff, Z.eqb_neq. congruence.
Qed.

End Consistent.

(** ** The scenario of the specification and the tests of the repository *)

(** The scenario of section 8 of the specification, on the tables of
    schema.sql: the customer and the invoice get id 1, the product is missing
    at first (404), then added to the invoice with count 5 (sum 1110.00) and
    again with count 3, which replaces the 5; the product cannot be deleted
    (409) until the line is (204, 204). *)
Example spec_scenario :
  let h := (handlers.ProductsHandler (Q := @pg.Products mock.columns) (rt := mock.decoders),
            handlers.ProductHandler (Q := @pg.Products mock.columns) (rt := mock.decoders),
            handlers.CustomersHandler (Q := @pg.Customers mock.columns) (rt := mock.decoders),
            handlers.InvoicesHandler (Q := @pg.Invoices mock.columns) (rt := mock.decoders) 777,
            handlers.InvoiceHandler (Q := @pg.Invoices mock.columns) (rt := mock.decoders)) in
  let '(products, product, customers, invoices, invoice) := h in
  let answers :=
    fst (mock.session
           [ (customers, mock.request "POST" "/api/v1/customers" "Jarred|Black");
             (invoices, mock.request "POST" "/api/v1/invoices" "INV-1||1");
             (invoice, mock.request "POST" "/api/v1/invoices/1/products/1" "5");
             (products, mock.request "POST" "/api/v1/products" "Mouse||222|22");
             (invoice, mock.request "POST" "/api/v1/invoices/1/products/1" "5");
             (invoice, mock.request "GET" "/api/v1/invoices/1/products" "");
             (invoice, mock.request "POST" "/api/v1/invoices/1/products/1" "3");
             (invoice, mock.request "GET" "/api/v1/invoices/1/products" "");
             (product, mock.request "DELETE" "/api/v1/products/1" "");
             (invoice, mock.request "DELETE" "/api/v1/invoices/1/products/1" "");
             (product, mock.request "DELETE" "/api/v1/products/1" "") ]
           (pg.empty 0)) in
  map http.StatusCode answers = [201; 201; 404; 201; 201; 200; 201; 200; 409; 204; 204]
  /\ nth 2 answers (http.WriteHeader 0)
     = http.Error "The provided product does not exist" 404
  /\ nth 5 answers (http.WriteHeader 0)
     = handlers.writeServerResponse 200
         (Slice [ {| handlers.invoiceProductResponse_ID := 1;
                     handlers.invoiceProductResponse_Name := "Mouse";
                     handlers.invoiceProductResponse_Description := "";
                     handlers.invoiceProductResponse_Price := "222.00";
                     handlers.invoiceProductResponse_Count := 5;
                     handlers.invoiceProductResponse_Sum := "1110.00" |} ])
  /\ nth 7 answers (http.WriteHeader 0)
     = handlers.writeServerResponse 200
         (Slice [ {| handlers.invoiceProductResponse_ID := 1;
                     handlers.invoiceProductResponse_Name := "Mouse";
                     handlers.invoiceProductResponse_Description := "";
                     handlers.invoiceProductResponse_Price := "222.00";
                     handlers.invoiceProductResponse_Count := 3;
                     handlers.invoiceProductResponse_Sum := "666.00" |} ]).
Proof. vm_compute. repeat split. Qed.

(** handlers/invoice_test.go, "GET invoices/{id} - Not Found": the mock
    returns sql.ErrNoRows. *)
Example test_get_invoice_not_found :
  fst (handlers.InvoiceHandler
         (Q := mock.Invoices NilSlice pg.zeroInvoice NilSlice pg.zeroInvoiceItem ""
                 (Some errors.ErrNoRows))
         (rt := mock.decoders)
         (mock.request "GET" "/api/v1/invoices/1" "") 0%nat)
  = http.Error "Invoice not found" 404.
Proof. reflexivity. Qed.

(** handlers/invoice_test.go, "DELETE invoice items - Success". *)
Example test_delete_invoice_item :
  fst (handlers.InvoiceHandler
         (Q := mock.Invoices NilSlice pg.zeroInvoice NilSlice pg.zeroInvoiceItem
                 "success" None)
         (rt := mock.decoders)
         (mock.request "DELETE" "/api/v1/invoices/678/products/345" "") 0%nat)
  = http.WriteHeader 204.
Proof. reflexivity. Qed.

(** handlers/product_test.go, "DELETE products/{id} - Success". *)
Example test_delete_product :
  fst (handlers.ProductHandler
         (Q := mock.Products NilSlice pg.zeroProduct "success" None)
         (rt := mock.decoders)
         (mock.request "DELETE" "/api/v1/products/444" "") 0%nat)
  = http.WriteHeader 204.
Proof. reflexivity. Qed.

(** X3: the delete statements of query.sql never answer [delete_failed] on the
    tables as modelled (one session at a time): the handlers' treatment of
    that value is not exercised by this store. *)
Lemma delete_failed_unreachable (ci : pg.ColumnInput) (id : Z) (db : pg.DB)
  (arg : database.DeleteProductFromInvoiceParams) :
  fst (fst (pg.DeleteCustomer id db)) <> "delete_failed"
  /\ fst (fst (pg.DeleteProduct id db)) <> "delete_failed"
  /\ fst (fst (pg.DeleteInvoice id db)) <> "delete_failed"
  /\ fst (fst (pg.DeleteProductFromInvoice arg db)) <> "delete_failed".
Proof.
  rewrite DeleteCustomer_outcomes, DeleteProduct_outcomes, DeleteInvoice_outcomes.
  repeat split.
  - destruct (negb _); [discriminate|]. destruct (pg.exists_by _ _ _); discriminate.
  - destruct (negb _); [discriminate|]. destruct (pg.exists_by _ _ _); discriminate.
  - destruct (negb _); [discriminate|]. destruct (pg.exists_by _ _ _); discriminate.
  - unfold pg.DeleteProductFromInvoice. cbn.
    pose proof (filter_existsb
                  (pg.samePair (database.DeleteProduct_InvoiceID arg)
                     (database.DeleteProduct_ProductID arg)) (pg.invoice_item db)) as H.
    destruct (filter _ _); rewrite H; discriminate.
Qed.

(** ** The constraints of schema.sql are kept by every statement *)
Section Valid.

Context {ci : pg.ColumnInput}.

Lemma nextval_some (seq id : Z) :
  pg.nextval seq = Some id -> id = seq + 1 /\ seq < 2147483647.
Proof.
  unfold pg.nextval. destruct (seq <? 2147483647) eqn:E; [|discriminate].
  apply Z.ltb_lt in E. now intros [= <-].
Qed.

Lemma keys_advance {A} (key : A -> Z) (rows : list A) (seq : Z) :
  pg.keys key rows seq -> seq < 2147483647 -> pg.keys key rows (seq + 1).
Proof.
  intros (Hd & Hb & Hs) Hlt. split; [exact Hd|split; [|lia]].
  eapply Forall_impl; [|exact Hb]. simpl. intros; lia.
Qed.

Lemma keys_insert {A} (key : A -> Z) (rows : list A) (seq : Z) (row : A) :
  pg.keys key rows seq -> seq < 2147483647 -> key row = seq + 1 ->
  pg.keys key (rows ++ [row]) (seq + 1).
Proof.
  intros (Hd & Hb & Hs) Hlt Hrow. unfold pg.keys. rewrite map_app. simpl.
  split; [|split; [|lia]].
  - apply NoDup_snoc; [exact Hd|]. intros Hin.
    rewrite Forall_forall in Hb. specialize (Hb _ Hin). lia.
  - apply Forall_app. split.
    + eapply Forall_impl; [|exact Hb]. simpl. intros; lia.
    + constructor; [lia|constructor].
Qed.

Lemma map_filter_NoDup {A B} (f : A -> B) (g : A -> bool) (l : list A) :
  NoDup (map f l) -> NoDup (map f (filter g l)).
Proof. apply NoDup_map_filter. Qed.

Lemma keys_delete {A} (key : A -> Z) (g : A -> bool) (rows : list A) (seq : Z) :
  pg.keys key rows seq -> pg.keys key (filter g rows) seq.
Proof.
  intros (Hd & Hb & Hs). split; [now apply NoDup_map_filter|split; [|exact Hs]].
  rewrite Forall_forall in *. intros id Hin. apply Hb.
  apply in_map_iff in Hin as (r & <- & Hr). apply in_map.
  apply filter_In in Hr. tauto.
Qed.

Lemma keys_same {A} (key : A -> Z) (rows rows' : list A) (seq : Z) :
  map key rows' = map key rows -> pg.keys key rows seq -> pg.keys key rows' seq.
Proof. unfold pg.keys. now intros ->. Qed.

Lemma upd_ids (invoiceID productID count : Z) (items : list database.InvoiceItem) :
  map database.InvoiceItem_ID
    (map (fun r => if pg.samePair invoiceID productID r then pg.setCount count r else r)
       items)
  = map database.InvoiceItem_ID items.
Proof.
  rewrite map_map. apply map_ext. intros r. now destruct (pg.samePair _ _ r).
Qed.

Lemma upd_products (invoiceID productID count : Z) (items : list database.InvoiceItem) :
  map database.InvoiceItem_ProductID
    (map (fun r => if pg.samePair invoiceID productID r then pg.setCount count r else r)
       items)
  = map database.InvoiceItem_ProductID items.
Proof.
  rewrite map_map. apply map_ext. intros r. now destruct (pg.samePair _ _ r).
Qed.

(** A foreign key, by the referencing and the referenced columns. *)
Lemma fkey_columns {A B} (ref : A -> Z) (key : B -> Z) (refs : list A) (rows : list B) :
  (forall x, In x refs -> pg.exists_by key (ref x) rows = true)
  <-> incl (map ref refs) (map key rows).
Proof.
  split.
  - intros H id Hid. apply in_map_iff in Hid as (x & <- & Hx).
    destruct (proj1 (exists_by_true _ _ _) (H x Hx)) as (r & Hr & <-).
    now apply in_map.
  - intros H x Hx. apply exists_by_true.
    specialize (H (ref x) (in_map ref _ _ Hx)).
    apply in_map_iff in H as (r & E & Hr). now exists r.
Qed.

Ltac valid_intro H :=
  destruct H as ((Hkc & Hkp & Hki & Hkt) & Hnum & (Huniq & Hfi) & Hfc & Hfp & (Hcp & Hct)).

Ltac valid_split :=
  unfold pg.valid, pg.primary_keys, pg.consistent, pg.checks;
  repeat match goal with |- _ /\ _ => split end;
  unfold pg.invoice_id_fkey, pg.customer_id_fkey, pg.product_id_fkey in *;
  cbn [pg.customer pg.product pg.invoice pg.invoice_item pg.customer_id_seq
         pg.product_id_seq pg.invoice_id_seq pg.invoice_item_id_seq
         pg.set_customer pg.set_product pg.set_invoice pg.set_invoice_item];
  try assumption.

Lemma valid_empty (now : time.Time) : pg.valid (pg.empty now).
Proof.
  valid_split;
    unfold pg.keys, pg.invoice_number_unique, pg.invoice_item_unique; simpl;
    repeat match goal with |- _ /\ _ => split end;
    try constructor; try lia; intros x [].
Qed.

(** A sequence that hands out a value which is then not used. *)
Lemma valid_customer_seq (db : pg.DB) :
  pg.valid db -> pg.customer_id_seq db < 2147483647 ->
  pg.valid (pg.set_customer db (pg.customer db) (pg.customer_id_seq db + 1)).
Proof. intros Hv Hs. valid_intro Hv. valid_split. now apply keys_advance. Qed.

Lemma valid_product_seq (db : pg.DB) :
  pg.valid db -> pg.product_id_seq db < 2147483647 ->
  pg.valid (pg.set_product db (pg.product db) (pg.product_id_seq db + 1)).
Proof. intros Hv Hs. valid_intro Hv. valid_split. now apply keys_advance. Qed.

Lemma valid_invoice_seq (db : pg.DB) :
  pg.valid db -> pg.invoice_id_seq db < 2147483647 ->
  pg.valid (pg.set_invoice db (pg.invoice db) (pg.invoice_id_seq db + 1)).
Proof. intros Hv Hs. valid_intro Hv. valid_split. now apply keys_advance. Qed.

Lemma valid_invoice_item_seq (db : pg.DB) :
  pg.valid db -> pg.invoice_item_id_seq db < 2147483647 ->
  pg.valid (pg.set_invoice_item db (pg.invoice_item db) (pg.invoice_item_id_seq db + 1)).
Proof. intros Hv Hs. valid_intro Hv. valid_split. now apply keys_advance. Qed.

(** customer *)

Lemma valid_customer_insert (db : pg.DB) (row : database.Customer) :
  pg.valid db -> pg.customer_id_seq db < 2147483647 ->
  database.Customer_ID row = pg.customer_id_seq db + 1 ->
  pg.valid (pg.set_customer db (pg.customer db ++ [row]) (pg.customer_id_seq db + 1)).
Proof.
  intros Hv Hs Hrow. valid_intro Hv. valid_split.
  - now apply keys_insert.
  - intros inv Hinv. now apply exists_by_app, Hfc.
Qed.

Lemma valid_customer_update (db : pg.DB) (id : Z) (row : database.Customer) :
  pg.valid db -> database.Customer_ID row = id ->
  pg.valid (pg.set_customer db
              (pg.update_by database.Customer_ID id (fun _ => row) (pg.customer db))
              (pg.customer_id_seq db)).
Proof.
  intros Hv Hrow. valid_intro Hv. valid_split.
  - eapply keys_same; [|exact Hkc]. now apply update_by_keys.
  - intros inv Hinv. rewrite (exists_by_keys _ _ _ (pg.customer db)); [now apply Hfc|].
    now apply update_by_keys.
Qed.

Lemma exists_by_delete {A} (key : A -> Z) (id id' : Z) (rows : list A) :
  id' <> id -> pg.exists_by key id' (pg.delete_by key id rows) = pg.exists_by key id' rows.
Proof.
  intros Hne. unfold pg.exists_by, pg.delete_by.
  induction rows as [|r rows IH]; simpl; [reflexivity|].
  destruct (key r =? id) eqn:E; simpl.
  - rewrite IH. apply Z.eqb_eq in E.
    replace (key r =? id') with false by (symmetry; apply Z.eqb_neq; lia).
    reflexivity.
  - now rewrite IH.
Qed.

Lemma valid_customer_delete (db : pg.DB) (id : Z) :
  pg.valid db -> pg.exists_by database.Invoice_CustomerID id (pg.invoice db) = false ->
  pg.valid (pg.set_customer db (pg.delete_by database.Customer_ID id (pg.customer db))
              (pg.customer_id_seq db)).
Proof.
  intros Hv Href. valid_intro Hv. valid_split.
  - now apply keys_delete.
  - intros inv Hinv. rewrite exists_by_delete; [now apply Hfc|].
    exact (proj1 (exists_by_false _ _ _) Href inv Hinv).
Qed.

(** product *)

Lemma valid_product_insert (db : pg.DB) (row : pg.product_row) :
  pg.valid db -> pg.product_id_seq db < 2147483647 ->
  pg.product_id row = pg.product_id_seq db + 1 ->
  pg.numeric_ge0 (pg.product_price row) = true -> 0 <= pg.product_available_items row ->
  pg.valid (pg.set_product db (pg.product db ++ [row]) (pg.product_id_seq db + 1)).
Proof.
  intros Hv Hs Hrow Hp Ha. valid_intro Hv. valid_split.
  - now apply keys_insert.
  - intros it Hit. now apply exists_by_app, Hfp.
  - intros x Hx. apply in_app_or in Hx as [Hx|[<-|[]]]; auto.
Qed.

Lemma valid_product_update (db : pg.DB) (id : Z) (row : pg.product_row) :
  pg.valid db -> pg.product_id row = id ->
  pg.numeric_ge0 (pg.product_price row) = true -> 0 <= pg.product_available_items row ->
  pg.valid (pg.set_product db
              (pg.update_by pg.product_id id (fun _ => row) (pg.product db))
              (pg.product_id_seq db)).
Proof.
  intros Hv Hrow Hp Ha. valid_intro Hv. valid_split.
  - eapply keys_same; [|exact Hkp]. now apply update_by_keys.
  - intros it Hit. rewrite (exists_by_keys _ _ _ (pg.product db)); [now apply Hfp|].
    now apply update_by_keys.
  - intros x Hx. unfold pg.update_by in Hx. apply in_map_iff in Hx as (y & <- & Hy).
    destruct (pg.product_id y =? id); auto.
Qed.

Lemma valid_product_delete (db : pg.DB) (id : Z) :
  pg.valid db ->
  pg.exists_by database.InvoiceItem_ProductID id (pg.invoice_item db) = false ->
  pg.valid (pg.set_product db (pg.delete_by pg.product_id id (pg.product db))
              (pg.product_id_seq db)).
Proof.
  intros Hv Href. valid_intro Hv. valid_split.
  - now apply keys_delete.
  - intros it Hit. rewrite exists_by_delete; [now apply Hfp|].
    exact (proj1 (exists_by_false _ _ _) Href it Hit).
  - intros x Hx. apply filter_In in Hx as (Hx & _). auto.
Qed.

(** invoice *)

Lemma number_free (number : string) (rows : list database.Invoice) :
  existsb (fun r => database.Invoice_InvoiceNumber r == number) rows = false ->
  ~ In number (map database.Invoice_InvoiceNumber rows).
Proof.
  intros H Hin. apply in_map_iff in Hin as (r & E & Hr).
  apply not_true_iff_false in H. apply H. apply existsb_exists.
  exists r. split; [exact Hr|]. now apply streq_true.
Qed.

Lemma valid_invoice_insert (db : pg.DB) (row : database.Invoice) :
  pg.valid db -> pg.invoice_id_seq db < 2147483647 ->
  database.Invoice_ID row = pg.invoice_id_seq db + 1 ->
  existsb (fun r => database.Invoice_InvoiceNumber r == database.Invoice_InvoiceNumber row)
    (pg.invoice db) = false ->
  pg.exists_by database.Customer_ID (database.Invoice_CustomerID row) (pg.customer db)
  = true ->
  pg.valid (pg.set_invoice db (pg.invoice db ++ [row]) (pg.invoice_id_seq db + 1)).
Proof.
  intros Hv Hs Hrow Hnumber Hcust. valid_intro Hv. valid_split.
  - now apply keys_insert.
  - unfold pg.invoice_number_unique. rewrite map_app. simpl.
    apply NoDup_snoc; [exact Hnum|]. now apply number_free.
  - intros it Hit. now apply exists_by_app, Hfi.
  - intros inv Hinv. apply in_app_or in Hinv as [Hinv|[<-|[]]]; auto.
Qed.

(** UNIQUE (invoice_number) after the row [id] takes the number [number],
    which no other row has. *)
Lemma numbers_after_update (id : Z) (number : string) (rows : list database.Invoice) :
  NoDup (map database.Invoice_ID rows) ->
  NoDup (map database.Invoice_InvoiceNumber rows) ->
  existsb (fun r => (database.Invoice_InvoiceNumber r == number)
                    && negb (database.Invoice_ID r =? id)) rows = false ->
  NoDup (map (fun r => if database.Invoice_ID r =? id then number
                       else database.Invoice_InvoiceNumber r) rows).
Proof.
  induction rows as [|x rows IH]; simpl; intros Hid Hnum Hfree; [constructor|].
  inversion Hid as [|? ? Hx Hid']; subst. inversion Hnum as [|? ? Hn Hnum']; subst.
  apply orb_false_iff in Hfree as (Hfx & Hfree).
  constructor; [|now apply IH].
  intros Hin. apply in_map_iff in Hin as (y & E & Hy).
  assert (Hother : forall z, In z rows -> database.Invoice_InvoiceNumber z = number ->
                             database.Invoice_ID z = id).
  { intros z Hz Ez. apply not_true_iff_false in Hfree.
    destruct (Z.eqb_spec (database.Invoice_ID z) id) as [|Hne]; [assumption|].
    exfalso. apply Hfree. apply existsb_exists. exists z. split; [exact Hz|].
    apply andb_true_iff. split; [now apply streq_true|].
    apply negb_true_iff. now apply Z.eqb_neq. }
  revert E Hfx.
  destruct (Z.eqb_spec (database.Invoice_ID x) id) as [Ex|Ex];
    destruct (Z.eqb_spec (database.Invoice_ID y) id) as [Ey|Ey]; intros E Hfx.
  - apply Hx. rewrite Ex, <- Ey. now apply in_map.
  - apply Ey. now apply Hother.
  - rewrite andb_true_r in Hfx. apply streq_false in Hfx. congruence.
  - apply Hn. rewrite <- E. now apply in_map.
Qed.

Lemma valid_invoice_update (db : pg.DB) (id : Z) (row : database.Invoice) :
  pg.valid db -> database.Invoice_ID row = id ->
  existsb (fun r => (database.Invoice_InvoiceNumber r == database.Invoice_InvoiceNumber row)
                    && negb (database.Invoice_ID r =? id)) (pg.invoice db) = false ->
  pg.exists_by database.Customer_ID (database.Invoice_CustomerID row) (pg.customer db)
  = true ->
  pg.valid (pg.set_invoice db
              (pg.update_by database.Invoice_ID id (fun _ => row) (pg.invoice db))
              (pg.invoice_id_seq db)).
Proof.
  intros Hv Hrow Hnumber Hcust. valid_intro Hv. valid_split.
  - eapply keys_same; [|exact Hki]. now apply update_by_keys.
  - unfold pg.invoice_number_unique, pg.update_by. rewrite map_map.
    erewrite map_ext; [apply (numbers_after_update id _ _ (proj1 Hki) Hnum Hnumber)|].
    intros r. simpl. now destruct (database.Invoice_ID r =? id).
  - intros it Hit. rewrite (exists_by_keys _ _ _ (pg.invoice db)); [now apply Hfi|].
    now apply update_by_keys.
  - intros inv Hinv. unfold pg.update_by in Hinv.
    apply in_map_iff in Hinv as (y & <- & Hy).
    destruct (database.Invoice_ID y =? id); auto.
Qed.

Lemma valid_invoice_delete (db : pg.DB) (id : Z) :
  pg.valid db ->
  pg.exists_by database.InvoiceItem_InvoiceID id (pg.invoice_item db) = false ->
  pg.valid (pg.set_invoice db (pg.delete_by database.Invoice_ID id (pg.invoice db))
              (pg.invoice_id_seq db)).
Proof.
  intros Hv Href. valid_intro Hv. valid_split.
  - now apply keys_delete.
  - now apply NoDup_map_filter.
  - intros it Hit. rewrite exists_by_delete; [now apply Hfi|].
    exact (proj1 (exists_by_false _ _ _) Href it Hit).
  - intros inv Hinv. apply filter_In in Hinv as (Hinv & _). auto.
Qed.

(** invoice_item *)

Lemma valid_invoice_item_insert (db : pg.DB) (row : database.InvoiceItem) :
  pg.valid db -> pg.invoice_item_id_seq db < 2147483647 ->
  database.InvoiceItem_ID row = pg.invoice_item_id_seq db + 1 ->
  find (pg.samePair (database.InvoiceItem_InvoiceID row)
          (database.InvoiceItem_ProductID row)) (pg.invoice_item db) = None ->
  pg.exists_by database.Invoice_ID (database.InvoiceItem_InvoiceID row) (pg.invoice db)
  = true ->
  pg.exists_by pg.product_id (database.InvoiceItem_ProductID row) (pg.product db) = true ->
  0 < database.InvoiceItem_Count row ->
  pg.valid (pg.set_invoice_item db (pg.invoice_item db ++ [row])
              (pg.invoice_item_id_seq db + 1)).
Proof.
  intros Hv Hs Hrow Hfind Hinv Hprod Hcount. valid_intro Hv. valid_split.
  - now apply keys_insert.
  - unfold pg.invoice_item_unique. rewrite map_app. simpl.
    apply NoDup_snoc; [exact Huniq|]. intros Hin.
    apply in_map_iff in Hin as (x & E & Hx).
    pose proof (find_none _ _ Hfind x Hx) as Hnone.
    apply not_true_iff_false in Hnone. apply Hnone. now apply samePair_true.
  - intros it Hit. apply in_app_or in Hit as [Hit|[<-|[]]]; auto.
  - intros it Hit. apply in_app_or in Hit as [Hit|[<-|[]]]; auto.
  - intros it Hit. apply in_app_or in Hit as [Hit|[<-|[]]]; auto.
Qed.

Lemma valid_invoice_item_count (db : pg.DB) (invoiceID productID count : Z) :
  pg.valid db -> 0 < count -> pg.invoice_item_id_seq db < 2147483647 ->
  pg.valid (pg.set_invoice_item db
              (map (fun r => if pg.samePair invoiceID productID r
                             then pg.setCount count r else r) (pg.invoice_item db))
              (pg.invoice_item_id_seq db + 1)).
Proof.
  intros Hv Hcount Hs. valid_intro Hv. valid_split.
  - apply keys_advance; [|exact Hs]. eapply keys_same; [|exact Hkt]. apply upd_ids.
  - unfold pg.invoice_item_unique. now rewrite upd_pairs.
  - intros it Hit. apply in_map_iff in Hit as (x & <- & Hx).
    specialize (Hfi x Hx). now destruct (pg.samePair _ _ x).
  - intros it Hit. apply in_map_iff in Hit as (x & <- & Hx).
    specialize (Hfp x Hx). now destruct (pg.samePair _ _ x).
  - intros it Hit. apply in_map_iff in Hit as (x & <- & Hx).
    specialize (Hct x Hx). now destruct (pg.samePair _ _ x).
Qed.

Lemma valid_invoice_item_delete (db : pg.DB) (g : database.InvoiceItem -> bool) :
  pg.valid db ->
  pg.valid (pg.set_invoice_item db (filter g (pg.invoice_item db))
              (pg.invoice_item_id_seq db)).
Proof.
  intros Hv. valid_intro Hv. valid_split.
  - now apply keys_delete.
  - now apply NoDup_map_filter.
  - intros it Hit. apply filter_In in Hit as (Hit & _). auto.
  - intros it Hit. apply filter_In in Hit as (Hit & _). auto.
  - intros it Hit. apply filter_In in Hit as (Hit & _). auto.
Qed.

(** The statements *)

Lemma product_check_none (available_items : Z) (price : pg.numeric) :
  pg.product_check available_items price = None ->
  pg.numeric_ge0 price = true /\ 0 <= available_items.
Proof.
  unfold pg.product_check.
  destruct (available_items <? 0) eqn:Ea; [discriminate|].
  destruct (pg.numeric_ge0 price) eqn:Ep; [|discriminate].
  apply Z.ltb_ge in Ea. auto.
Qed.

Lemma find_by_key {A} (key : A -> Z) (id : Z) (rows : list A) (r : A) :
  pg.find_by key id rows = Some r -> In r rows /\ key r = id.
Proof.
  intros H. apply find_some in H as (Hin & E). now apply Z.eqb_eq in E.
Qed.

Lemma CreateProduct_valid (arg : database.CreateProductParams) (db : pg.DB) :
  pg.valid db -> pg.valid (snd (pg.CreateProduct arg db)).
Proof.
  intros Hv. unfold pg.CreateProduct, pg.input.
  destruct (pg.varchar _ _); [|exact Hv].
  destruct (pg.descriptionInput _); [|exact Hv].
  destruct (pg.numeric_10_2 _) as [price|]; [|exact Hv].
  destruct (pg.nextval _) as [id|] eqn:Hid; [|exact Hv].
  apply nextval_some in Hid as (-> & Hs).
  destruct (pg.product_check _ _) eqn:Hc; cbn.
  - now apply valid_product_seq.
  - apply product_check_none in Hc as (Hp & Ha). now apply valid_product_insert.
Qed.

Lemma UpdateProduct_valid (arg : database.UpdateProductParams) (db : pg.DB) :
  pg.valid db -> pg.valid (snd (pg.UpdateProduct arg db)).
Proof.
  intros Hv. unfold pg.UpdateProduct, pg.input.
  destruct (pg.varchar _ _); [|exact Hv].
  destruct (pg.descriptionInput _); [|exact Hv].
  destruct (pg.numeric_10_2 _) as [price|]; [|exact Hv].
  destruct (pg.find_by _ _ _) as [old|] eqn:Hold; [|exact Hv].
  apply find_by_key in Hold as (_ & Hid).
  destruct (pg.product_check _ _) eqn:Hc; cbn; [exact Hv|].
  apply product_check_none in Hc as (Hp & Ha). now apply valid_product_update.
Qed.

Lemma DeleteProduct_valid (id : Z) (db : pg.DB) :
  pg.valid db -> pg.valid (snd (pg.DeleteProduct id db)).
Proof.
  intros Hv. rewrite DeleteProduct_outcomes.
  destruct (negb _); [exact Hv|].
  destruct (pg.exists_by _ _ (pg.invoice_item db)) eqn:Href; [exact Hv|].
  now apply valid_product_delete.
Qed.

Lemma CreateCustomer_valid (arg : database.CreateCustomerParams) (db : pg.DB) :
  pg.valid db -> pg.valid (snd (pg.CreateCustomer arg db)).
Proof.
  intros Hv. unfold pg.CreateCustomer, pg.input.
  destruct (pg.varchar _ _); [|exact Hv].
  destruct (pg.varchar _ _); [|exact Hv].
  destruct (pg.nextval _) as [id|] eqn:Hid; [|exact Hv].
  apply nextval_some in Hid as (-> & Hs). cbn. now apply valid_customer_insert.
Qed.

Lemma UpdateCustomer_valid (arg : database.UpdateCustomerParams) (db : pg.DB) :
  pg.valid db -> pg.valid (snd (pg.UpdateCustomer arg db)).
Proof.
  intros Hv. unfold pg.UpdateCustomer, pg.input.
  destruct (pg.varchar _ _); [|exact Hv].
  destruct (pg.varchar _ _); [|exact Hv].
  destruct (pg.find_by _ _ _) as [old|] eqn:Hold; [|exact Hv].
  apply find_by_key in Hold as (_ & Hid). cbn. now apply valid_customer_update.
Qed.

Lemma DeleteCustomer_valid (id : Z) (db : pg.DB) :
  pg.valid db -> pg.valid (snd (pg.DeleteCustomer id db)).
Proof.
  intros Hv. rewrite DeleteCustomer_outcomes.
  destruct (negb _); [exact Hv|].
  destruct (pg.exists_by _ _ (pg.invoice db)) eqn:Href; [exact Hv|].
  now apply valid_customer_delete.
Qed.

Lemma CreateInvoice_valid (arg : database.CreateInvoiceParams) (db : pg.DB) :
  pg.valid db -> pg.valid (snd (pg.CreateInvoice arg db)).
Proof.
  intros Hv. unfold pg.CreateInvoice, pg.input.
  destruct (pg.varchar _ _) as [number|]; [|exact Hv].
  destruct (pg.timestamp _); [|exact Hv].
  destruct (pg.nextval _) as [id|] eqn:Hid; [|exact Hv].
  apply nextval_some in Hid as (-> & Hs).
  destruct (existsb _ _) eqn:Hnumber; [now apply valid_invoice_seq|].
  destruct (pg.exists_by _ _ _) eqn:Hcust; cbn; [|now apply valid_invoice_seq].
  now apply valid_invoice_insert.
Qed.

Lemma UpdateInvoice_valid (arg : database.UpdateInvoiceParams) (db : pg.DB) :
  pg.valid db -> pg.valid (snd (pg.UpdateInvoice arg db)).
Proof.
  intros Hv. unfold pg.UpdateInvoice, pg.input.
  destruct (pg.varchar _ _) as [number|]; [|exact Hv].
  destruct (pg.timestamp _); [|exact Hv].
  destruct (pg.find_by _ _ _) as [old|] eqn:Hold; [|exact Hv].
  apply find_by_key in Hold as (_ & Hid).
  destruct (existsb _ _) eqn:Hnumber; [exact Hv|].
  destruct (pg.exists_by _ _ _) eqn:Hcust; cbn; [|exact Hv].
  now apply valid_invoice_update.
Qed.

Lemma DeleteInvoice_valid (id : Z) (db : pg.DB) :
  pg.valid db -> pg.valid (snd (pg.DeleteInvoice id db)).
Proof.
  intros Hv. rewrite DeleteInvoice_outcomes.
  destruct (negb _); [exact Hv|].
  destruct (pg.exists_by _ _ (pg.invoice_item db)) eqn:Href; [exact Hv|].
  now apply valid_invoice_delete.
Qed.

Lemma AddProductToInvoice_valid (arg : database.AddProductToInvoiceParams) (db : pg.DB) :
  pg.valid db -> pg.valid (snd (pg.AddProductToInvoice arg db)).
Proof.
  intros Hv. unfold pg.AddProductToInvoice.
  destruct (pg.nextval _) as [id|] eqn:Hid; [|exact Hv].
  apply nextval_some in Hid as (-> & Hs).
  destruct (database.AddProduct_Count arg >? 0) eqn:Hcount; cbn;
    [|now apply valid_invoice_item_seq].
  apply Z.gtb_lt in Hcount.
  destruct (find _ _) as [old|] eqn:Hfind; cbn.
  - now apply valid_invoice_item_count.
  - destruct (pg.exists_by database.Invoice_ID _ _) eqn:Hinv; cbn;
      [|now apply valid_invoice_item_seq].
    destruct (pg.exists_by pg.product_id _ _) eqn:Hprod; cbn;
      [|now apply valid_invoice_item_seq].
    now apply valid_invoice_item_insert.
Qed.

Lemma DeleteProductFromInvoice_valid (arg : database.DeleteProductFromInvoiceParams)
  (db : pg.DB) :
  pg.valid db -> pg.valid (snd (pg.DeleteProductFromInvoice arg db)).
Proof. intros Hv. cbn. now apply valid_invoice_item_delete. Qed.

Lemma run_valid (w : pg.Write) (db : pg.DB) : pg.valid db -> pg.valid (pg.run w db).
Proof.
  destruct w; simpl.
  - apply CreateProduct_valid.
  - apply UpdateProduct_valid.
  - apply DeleteProduct_valid.
  - apply CreateCustomer_valid.
  - apply UpdateCustomer_valid.
  - apply DeleteCustomer_valid.
  - apply CreateInvoice_valid.
  - apply UpdateInvoice_valid.
  - apply DeleteInvoice_valid.
  - apply AddProductToInvoice_valid.
  - apply DeleteProductFromInvoice_valid.
Qed.

End Valid.

(** ** A statement that fails writes no row *)
Section Failure.

Context {ci : pg.ColumnInput}.

Ltac break H :=
  repeat match type of H with
    | context [match ?x with _ => _ end] => destruct x eqn:?
    end.

Ltac failed H :=
  unfold pg.input, pg.fail in H; break H;
  try discriminate H; injection H as <- <- <-; try discriminate; reflexivity.

Lemma CreateProduct_failure arg db v e db' :
  pg.CreateProduct arg db = ((v, Some e), db') -> pg.tables db' = pg.tables db.
Proof. unfold pg.CreateProduct. intros H. failed H. Qed.

Lemma UpdateProduct_failure arg db v e db' :
  pg.UpdateProduct arg db = ((v, Some e), db') -> pg.tables db' = pg.tables db.
Proof. unfold pg.UpdateProduct. intros H. failed H. Qed.

Lemma CreateCustomer_failure arg db v e db' :
  pg.CreateCustomer arg db = ((v, Some e), db') -> pg.tables db' = pg.tables db.
Proof. unfold pg.CreateCustomer. intros H. failed H. Qed.

Lemma UpdateCustomer_failure arg db v e db' :
  pg.UpdateCustomer arg db = ((v, Some e), db') -> pg.tables db' = pg.tables db.
Proof. unfold pg.UpdateCustomer. intros H. failed H. Qed.

Lemma CreateInvoice_failure arg db v e db' :
  pg.CreateInvoice arg db = ((v, Some e), db') -> pg.tables db' = pg.tables db.
Proof. unfold pg.CreateInvoice. intros H. failed H. Qed.

Lemma UpdateInvoice_failure arg db v e db' :
  pg.UpdateInvoice arg db = ((v, Some e), db') -> pg.tables db' = pg.tables db.
Proof. unfold pg.UpdateInvoice. intros H. failed H. Qed.

Lemma AddProductToInvoice_failure arg db v e db' :
  pg.AddProductToInvoice arg db = ((v, Some e), db') -> pg.tables db' = pg.tables db.
Proof. unfold pg.AddProductToInvoice. intros H. failed H. Qed.

(** An UPDATE of invoice that does not answer [success] has found no row. *)
Lemma UpdateInvoice_not_success arg db v db' :
  pg.UpdateInvoice arg db = ((v, None), db') ->
  database.UpdateInvoiceRow_Result v <> "success" -> db' = db.
Proof.
  unfold pg.UpdateInvoice, pg.input, pg.fail. intros H.
  break H; try discriminate H; injection H as <- <-; [|reflexivity].
  intros Hres. exfalso. apply Hres. unfold pg.updateInvoiceRow.
  match goal with H : pg.find_by _ _ _ = Some _ |- _ =>
    apply find_by_key in H as (Hin & Hid) end.
  assert (Hex : pg.exists_by database.Invoice_ID (database.UpdateInvoice_ID arg)
                  (pg.invoice db) = true)
    by (apply exists_by_true; eauto).
  now rewrite Hex.
Qed.

(** A delete statement that returns no error and not [success] has changed
    nothing; one that returns an error has changed nothing either. *)
Lemma DeleteCustomer_cases id db :
  (pg.DeleteCustomer id db = (("customer_not_found", None), db)
   /\ pg.exists_by database.Customer_ID id (pg.customer db) = false)
  \/ (pg.DeleteCustomer id db
      = pg.fail "" pg.foreign_key_violation "invoice_customer_id_fkey" db
      /\ pg.exists_by database.Customer_ID id (pg.customer db) = true
      /\ pg.exists_by database.Invoice_CustomerID id (pg.invoice db) = true)
  \/ (pg.DeleteCustomer id db
      = (("success", None),
         pg.set_customer db (pg.delete_by database.Customer_ID id (pg.customer db))
           (pg.customer_id_seq db))
      /\ pg.exists_by database.Customer_ID id (pg.customer db) = true
      /\ pg.exists_by database.Invoice_CustomerID id (pg.invoice db) = false).
Proof.
  rewrite DeleteCustomer_outcomes.
  destruct (pg.exists_by _ _ (pg.customer db)); cbn; [|now left].
  destruct (pg.exists_by _ _ (pg.invoice db)); cbn; [right; left|right; right]; auto.
Qed.

Lemma DeleteProduct_cases id db :
  (pg.DeleteProduct id db = (("product_not_found", None), db)
   /\ pg.exists_by pg.product_id id (pg.product db) = false)
  \/ (pg.DeleteProduct id db
      = pg.fail "" pg.foreign_key_violation "invoice_item_product_id_fkey" db
      /\ pg.exists_by pg.product_id id (pg.product db) = true
      /\ pg.exists_by database.InvoiceItem_ProductID id (pg.invoice_item db) = true)
  \/ (pg.DeleteProduct id db
      = (("success", None),
         pg.set_product db (pg.delete_by pg.product_id id (pg.product db))
           (pg.product_id_seq db))
      /\ pg.exists_by pg.product_id id (pg.product db) = true
      /\ pg.exists_by database.InvoiceItem_ProductID id (pg.invoice_item db) = false).
Proof.
  rewrite DeleteProduct_outcomes.
  destruct (pg.exists_by _ _ (pg.product db)); cbn; [|now left].
  destruct (pg.exists_by _ _ (pg.invoice_item db)); cbn; [right; left|right; right]; auto.
Qed.

Lemma DeleteInvoice_cases id db :
  (pg.DeleteInvoice id db = (("invoice_not_found", None), db)
   /\ pg.exists_by database.Invoice_ID id (pg.invoice db) = false)
  \/ (pg.DeleteInvoice id db
      = pg.fail "" pg.foreign_key_violation "invoice_item_invoice_id_fkey" db
      /\ pg.exists_by database.Invoice_ID id (pg.invoice db) = true
      /\ pg.exists_by database.InvoiceItem_InvoiceID id (pg.invoice_item db) = true)
  \/ (pg.DeleteInvoice id db
      = (("success", None),
         pg.set_invoice db (pg.delete_by database.Invoice_ID id (pg.invoice db))
           (pg.invoice_id_seq db))
      /\ pg.exists_by database.Invoice_ID id (pg.invoice db) = true
      /\ pg.exists_by database.InvoiceItem_InvoiceID id (pg.invoice_item db) = false).
Proof.
  rewrite DeleteInvoice_outcomes.
  destruct (pg.exists_by _ _ (pg.invoice db)); cbn; [|now left].
  destruct (pg.exists_by _ _ (pg.invoice_item db)); cbn; [right; left|right; right]; auto.
Qed.

Lemma filter_none_id {A} (f : A -> bool) (l : list A) :
  existsb f l = false -> filter (fun x => negb (f x)) l = l.
Proof.
  induction l as [|x l IH]; simpl; [reflexivity|].
  intros H. apply orb_false_iff in H as (Hx & Hl). rewrite Hx. simpl.
  now rewrite IH.
Qed.

Lemma DeleteProductFromInvoice_cases arg db :
  let same := pg.samePair (database.DeleteProduct_InvoiceID arg)
                (database.DeleteProduct_ProductID arg) in
  (fst (pg.DeleteProductFromInvoice arg db) = ("invoice_item_not_found", None)
   /\ existsb same (pg.invoice_item db) = false
   /\ pg.tables (snd (pg.DeleteProductFromInvoice arg db)) = pg.tables db)
  \/ (pg.DeleteProductFromInvoice arg db
      = (("success", None),
         pg.set_invoice_item db (filter (fun r => negb (same r)) (pg.invoice_item db))
           (pg.invoice_item_id_seq db))
      /\ existsb same (pg.invoice_item db) = true).
Proof.
  intros same. unfold pg.DeleteProductFromInvoice. fold same.
  pose proof (filter_existsb same (pg.invoice_item db)) as H.
  destruct (filter same _) eqn:Hf; rewrite H; cbn.
  - left. split; [reflexivity|split; [reflexivity|]].
    unfold pg.tables. cbn. now rewrite filter_none_id.
  - right. split; reflexivity.
Qed.

End Failure.

(** ** One statement for each request *)
Section OneStatement.

Context {ci : pg.ColumnInput} {rt : handlers.Runtime}.

Lemma no_call (r : http.Request) (db : pg.DB) (resp : http.Response) :
  pg.well_behaved r db (resp, db).
Proof. split; [now left|split; reflexivity]. Qed.

(** A statement that has run for a request that is no GET. *)
Lemma written (r : http.Request) (db db' : pg.DB) (resp : http.Response) (w : pg.Write) :
  (http.Method r == http.MethodGet) = false ->
  db' = pg.run w db ->
  (400 <= http.StatusCode resp -> pg.tables db' = pg.tables db) ->
  pg.well_behaved r db (resp, db').
Proof.
  intros Hget Hrun Hfail. split; [right; now exists w|split; [exact Hfail|]].
  intros Hm. rewrite Hm in Hget. discriminate.
Qed.

Ltac call :=
  match goal with
  | |- context [match ?c with _ => _ end] =>
      let T := type of c in
      let T := eval cbv beta delta [database.Query] in T in
      lazymatch T with
      | ((_ * option errors.error) * pg.DB)%type =>
          destruct c as [[? [?|]] ?] eqn:?
      end
  end.

Ltac ran H := symmetry; exact (f_equal snd H).

Ltac success :=
  unfold handlers.writeServerResponse, http.WriteHeader, http.StatusCreated,
    http.StatusOK, http.StatusNoContent;
  cbn [http.StatusCode fst]; intros; lia.

Lemma ProductsHandler_well_behaved (r : http.Request) (db : pg.DB) :
  pg.well_behaved r db (handlers.ProductsHandler r db).
Proof.
  unfold handlers.ProductsHandler.
  destruct (http.Method r == http.MethodGet) eqn:Hget; [apply no_call|].
  destruct (http.Method r == http.MethodPost); [|apply no_call].
  destruct (handlers.decodeCreateProduct _) as [product|]; [|apply no_call].
  destruct (handlers.createProductInvalid _); [apply no_call|].
  cbn [database.CreateProduct pg.Products].
  call; match goal with H : pg.CreateProduct ?a _ = _ |- _ =>
          apply (written r db _ _ (pg.WCreateProduct a) Hget); [ran H| ] end.
  - intros _. eauto using CreateProduct_failure.
  - success.
Qed.

Lemma ProductHandler_well_behaved (r : http.Request) (db : pg.DB) :
  pg.well_behaved r db (handlers.ProductHandler r db).
Proof.
  unfold handlers.ProductHandler.
  destruct (utils.ExtractTrailingID _) as [id|]; [|apply no_call].
  destruct (http.Method r == http.MethodGet) eqn:Hget.
  { cbn [database.GetProduct pg.Products]. unfold pg.GetProduct.
    destruct (pg.find_by _ _ _); apply no_call. }
  destruct (http.Method r == http.MethodPatch).
  { destruct (handlers.decodeUpdateProduct _) as [product|]; [|apply no_call].
    destruct (handlers.updateProductInvalid _); [apply no_call|].
    cbn [database.UpdateProduct pg.Products].
    call; match goal with H : pg.UpdateProduct ?a _ = _ |- _ =>
            apply (written r db _ _ (pg.WUpdateProduct a) Hget); [ran H| ] end.
    - intros _. eauto using UpdateProduct_failure.
    - success. }
  destruct (http.Method r == http.MethodDelete); [|apply no_call].
  cbn [database.DeleteProduct pg.Products].
  destruct (DeleteProduct_cases (int32 id) db) as [(H & _)|[(H & _)|(H & _)]];
    rewrite H; cbn; try apply no_call.
  apply (written r db _ _ (pg.WDeleteProduct (int32 id)) Hget).
  - cbn. now rewrite H.
  - success.
Qed.

Lemma CustomersHandler_well_behaved (r : http.Request) (db : pg.DB) :
  pg.well_behaved r db (handlers.CustomersHandler r db).
Proof.
  unfold handlers.CustomersHandler.
  destruct (http.Method r == http.MethodGet) eqn:Hget; [apply no_call|].
  destruct (http.Method r == http.MethodPost); [|apply no_call].
  destruct (handlers.decodeCreateCustomer _) as [customer|]; [|apply no_call].
  destruct (strings.TrimSpace _ == ""); [apply no_call|].
  destruct (strings.TrimSpace _ == ""); [apply no_call|].
  cbn [database.CreateCustomer pg.Customers].
  call; match goal with H : pg.CreateCustomer ?a _ = _ |- _ =>
          apply (written r db _ _ (pg.WCreateCustomer a) Hget); [ran H| ] end.
  - intros _. eauto using CreateCustomer_failure.
  - success.
Qed.

Lemma CustomerHandler_well_behaved (r : http.Request) (db : pg.DB) :
  pg.well_behaved r db (handlers.CustomerHandler r db).
Proof.
  unfold handlers.CustomerHandler.
  destruct (utils.ExtractTrailingID _) as [id|]; [|apply no_call].
  destruct (http.Method r == http.MethodGet) eqn:Hget.
  { cbn [database.GetCustomer pg.Customers]. unfold pg.GetCustomer.
    destruct (pg.find_by _ _ _); apply no_call. }
  destruct (http.Method r == http.MethodPatch).
  { destruct (handlers.decodeUpdateCustomer _) as [customer|]; [|apply no_call].
    destruct (strings.TrimSpace _ == ""); [apply no_call|].
    destruct (strings.TrimSpace _ == ""); [apply no_call|].
    cbn [database.UpdateCustomer pg.Customers].
    call; [destruct (errors.isErrNoRows _)|];
      match goal with H : pg.UpdateCustomer ?a _ = _ |- _ =>
        apply (written r db _ _ (pg.WUpdateCustomer a) Hget); [ran H| ] end;
      [intros _; eauto using UpdateCustomer_failure ..|success]. }
  destruct (http.Method r == http.MethodDelete); [|apply no_call].
  cbn [database.DeleteCustomer pg.Customers].
  destruct (DeleteCustomer_cases (int32 id) db) as [(H & _)|[(H & _)|(H & _)]];
    rewrite H; cbn; try apply no_call.
  apply (written r db _ _ (pg.WDeleteCustomer (int32 id)) Hget).
  - cbn. now rewrite H.
  - success.
Qed.

Lemma InvoicesHandler_well_behaved (now : time.Time) (r : http.Request) (db : pg.DB) :
  pg.well_behaved r db (handlers.InvoicesHandler now r db).
Proof.
  unfold handlers.InvoicesHandler.
  destruct (http.Method r == http.MethodGet) eqn:Hget; [apply no_call|].
  destruct (http.Method r == http.MethodPost); [|apply no_call].
  destruct (handlers.decodeCreateInvoice _) as [invoiceCreate|]; [|apply no_call].
  destruct (strings.TrimSpace _ == ""); [apply no_call|].
  destruct (_ <=? 0); [apply no_call|].
  cbn [database.CreateInvoice pg.Invoices].
  call; match goal with H : pg.CreateInvoice ?a _ = _ |- _ =>
          apply (written r db _ _ (pg.WCreateInvoice a) Hget); [ran H| ] end.
  - intros _. eauto using CreateInvoice_failure.
  - success.
Qed.

Lemma ListProductsFromInvoice_state (id : Z) (db : pg.DB) :
  snd (pg.ListProductsFromInvoice id db) = db.
Proof.
  unfold pg.ListProductsFromInvoice. now destruct (pg.selectAll _ _).
Qed.

Lemma invoiceOnly_well_behaved (id : Z) (r : http.Request) (db : pg.DB) :
  pg.well_behaved r db (handlers.invoiceOnly id r db).
Proof.
  unfold handlers.invoiceOnly.
  destruct (http.Method r == http.MethodGet) eqn:Hget.
  { cbn [database.GetInvoice pg.Invoices]. unfold pg.GetInvoice.
    destruct (pg.find_by _ _ _); apply no_call. }
  destruct (http.Method r == http.MethodPatch).
  { destruct (handlers.decodeUpdateInvoice _) as [invoiceUpdate|]; [|apply no_call].
    destruct (strings.TrimSpace _ == ""); [apply no_call|].
    destruct (time.IsZero _); [apply no_call|].
    destruct (_ <=? 0); [apply no_call|].
    cbn [database.UpdateInvoice pg.Invoices].
    call; match goal with H : pg.UpdateInvoice ?a _ = _ |- _ =>
            pose proof H as Hcall end.
    - match goal with H : pg.UpdateInvoice ?a _ = _ |- _ =>
        apply (written r db _ _ (pg.WUpdateInvoice a) Hget); [ran H| ] end.
      intros _. eauto using UpdateInvoice_failure.
    - destruct (_ == "success") eqn:Hres; cbn [negb].
      + match goal with H : pg.UpdateInvoice ?a _ = _ |- _ =>
          apply (written r db _ _ (pg.WUpdateInvoice a) Hget); [ran H| ] end.
        success.
      + apply (proj1 (streq_false _ _)) in Hres.
        rewrite (UpdateInvoice_not_success _ _ _ _ Hcall Hres).
        destruct (_ == "invoice_not_found"); apply no_call. }
  destruct (http.Method r == http.MethodDelete); [|apply no_call].
  cbn [database.DeleteInvoice pg.Invoices].
  destruct (DeleteInvoice_cases (int32 id) db) as [(H & _)|[(H & _)|(H & _)]];
    rewrite H; cbn; try apply no_call.
  apply (written r db _ _ (pg.WDeleteInvoice (int32 id)) Hget).
  - cbn. now rewrite H.
  - success.
Qed.

Lemma InvoiceHandler_well_behaved (r : http.Request) (db : pg.DB) :
  pg.well_behaved r db (handlers.InvoiceHandler r db).
Proof.
  unfold handlers.InvoiceHandler.
  destruct (_ || _); [apply no_call|].
  destruct (strconv.Atoi _) as [invoiceID|]; [|apply no_call].
  destruct (_ && _); [|apply invoiceOnly_well_behaved].
  destruct (_ =? _).
  { destruct (http.Method r == http.MethodGet); [|apply no_call].
    unfold handlers.listInvoiceProducts.
    cbn [database.ListProductsFromInvoice pg.Invoices].
    pose proof (ListProductsFromInvoice_state (int32 invoiceID) db) as Hstate.
    destruct (pg.ListProductsFromInvoice _ db) as [[items [err|]] db'];
      cbn in Hstate; subst db'; [destruct (errors.isErrNoRows err)|]; apply no_call. }
  destruct (_ =? _); [|apply no_call].
  destruct (strconv.Atoi _) as [productID|]; [|apply no_call].
  destruct (http.Method r == http.MethodDelete) eqn:Hdel.
  { assert (Hget : (http.Method r == http.MethodGet) = false).
    { apply streq_true in Hdel. now rewrite Hdel. }
    unfold handlers.deleteInvoiceProduct.
    cbn [database.DeleteProductFromInvoice pg.Invoices].
    match goal with |- context [pg.DeleteProductFromInvoice ?a db] =>
      pose proof (DeleteProductFromInvoice_cases a db) as Hcases;
      assert (Hrun : snd (pg.DeleteProductFromInvoice a db)
                     = pg.run (pg.WDeleteProductFromInvoice a) db) by reflexivity;
      destruct (pg.DeleteProductFromInvoice a db) as [[result err] db'] eqn:Hcall;
      cbn [fst snd] in Hcases, Hrun;
      destruct Hcases as [(H & _ & Ht)|(H & _)];
      [injection H as -> ->|injection H as -> -> _]; cbn [String.eqb Ascii.eqb];
      apply (written r db _ _ (pg.WDeleteProductFromInvoice a) Hget);
      try exact Hrun end.
    - intros _. exact Ht.
    - success. }
  destruct (http.Method r == http.MethodPost) eqn:Hpost; [|apply no_call].
  assert (Hget : (http.Method r == http.MethodGet) = false).
  { apply streq_true in Hpost. now rewrite Hpost. }
  unfold handlers.addInvoiceProduct.
  destruct (handlers.decodeCreateInvoiceItem _) as [params|]; [|apply no_call].
  destruct (_ <=? 0); [apply no_call|].
  cbn [database.AddProductToInvoice pg.Invoices].
  call; match goal with H : pg.AddProductToInvoice ?a _ = _ |- _ =>
          apply (written r db _ _ (pg.WAddProductToInvoice a) Hget); [ran H| ] end.
  - intros _. eauto using AddProductToInvoice_failure.
  - success.
Qed.

Lemma registered_well_behaved (h : main.HandlerFunc) (r : http.Request) (db : pg.DB) :
  main.registered h -> pg.well_behaved r db (h r db).
Proof.
  intros (now & pattern & Hin). unfold main.routes in Hin. simpl in Hin.
  destruct Hin as [E|[E|[E|[E|[E|[E|[]]]]]]]; injection E as _ <-.
  - apply ProductsHandler_well_behaved.
  - apply ProductHandler_well_behaved.
  - apply CustomersHandler_well_behaved.
  - apply CustomerHandler_well_behaved.
  - apply InvoicesHandler_well_behaved.
  - apply InvoiceHandler_well_behaved.
Qed.

Lemma registered_valid (h : main.HandlerFunc) (r : http.Request) (db : pg.DB) :
  main.registered h -> pg.valid db -> pg.valid (snd (h r db)).
Proof.
  intros Hh Hdb. destruct (registered_well_behaved h r db Hh) as ([E|(w & E)] & _).
  - now rewrite E.
  - rewrite E. now apply run_valid.
Qed.

End OneStatement.

(** ** Every request *)

Section Counted.

Context {St : Type} {PQ : database.ProductQueries St}
  {CQ : database.CustomerQueries St} {IQ : database.InvoiceQueries St}
  {rt : handlers.Runtime}.

Ltac counted_call :=
  cbn [database.ListProducts database.CreateProduct database.GetProduct
       database.UpdateProduct database.DeleteProduct counting.Products
       database.ListCustomers database.CreateCustomer database.GetCustomer
       database.UpdateCustomer database.DeleteCustomer counting.Customers
       database.ListInvoices database.CreateInvoice database.GetInvoice
       database.UpdateInvoice database.DeleteInvoice
       database.ListProductsFromInvoice database.AddProductToInvoice
       database.DeleteProductFromInvoice counting.Invoices];
  unfold counting.call; cbn [fst snd].

Ltac counted_cases :=
  repeat match goal with
    | |- context [match ?x with _ => _ end] =>
        lazymatch x with
        | context [match _ with _ => _ end] => fail
        | _ => destruct x eqn:?; cbv beta match
        end
    end;
  first [ exists 0%nat; split; [lia|reflexivity]
        | exists 1%nat; split; [lia|reflexivity] ].

Lemma ProductsHandler_counted (r : http.Request) (s : St) (n : nat) :
  counting.at_most_once (handlers.ProductsHandler r s)
    (handlers.ProductsHandler (Q := counting.Products PQ) r (s, n)) n.
Proof.
  unfold counting.at_most_once, handlers.ProductsHandler. counted_call. counted_cases.
Qed.

Lemma ProductHandler_counted (r : http.Request) (s : St) (n : nat) :
  counting.at_most_once (handlers.ProductHandler r s)
    (handlers.ProductHandler (Q := counting.Products PQ) r (s, n)) n.
Proof.
  unfold counting.at_most_once, handlers.ProductHandler. counted_call. counted_cases.
Qed.

Lemma CustomersHandler_counted (r : http.Request) (s : St) (n : nat) :
  counting.at_most_once (handlers.CustomersHandler r s)
    (handlers.CustomersHandler (Q := counting.Customers CQ) r (s, n)) n.
Proof.
  unfold counting.at_most_once, handlers.CustomersHandler. counted_call. counted_cases.
Qed.

Lemma CustomerHandler_counted (r : http.Request) (s : St) (n : nat) :
  counting.at_most_once (handlers.CustomerHandler r s)
    (handlers.CustomerHandler (Q := counting.Customers CQ) r (s, n)) n.
Proof.
  unfold counting.at_most_once, handlers.CustomerHandler. counted_call. counted_cases.
Qed.

Lemma InvoicesHandler_counted (now : time.Time) (r : http.Request) (s : St) (n : nat) :
  counting.at_most_once (handlers.InvoicesHandler now r s)
    (handlers.InvoicesHandler (Q := counting.Invoices IQ) now r (s, n)) n.
Proof.
  unfold counting.at_most_once, handlers.InvoicesHandler. counted_call. counted_cases.
Qed.

Lemma InvoiceHandler_counted (r : http.Request) (s : St) (n : nat) :
  counting.at_most_once (handlers.InvoiceHandler r s)
    (handlers.InvoiceHandler (Q := counting.Invoices IQ) r (s, n)) n.
Proof.
  unfold counting.at_most_once, handlers.InvoiceHandler, handlers.invoiceOnly,
    handlers.listInvoiceProducts, handlers.addInvoiceProduct,
    handlers.deleteInvoiceProduct.
  counted_call. counted_cases.
Qed.

End Counted.

(** X4: no request runs two statements. Whatever the store does, each of the
    six handlers that main.go registers calls at most one method of
    database.Queries (one statement of query.sql) while it serves a request:
    over the store that counts its calls, the handler gives the answer and
    leaves the store beneath as it does without the counting, and the count
    has risen by one at most. *)
Theorem request_runs_at_most_one_statement
  (St : Type) (PQ : database.ProductQueries St) (CQ : database.CustomerQueries St)
  (IQ : database.InvoiceQueries St) (rt : handlers.Runtime)
  (now : time.Time) (r : http.Request) (s : St) (n : nat) :
  counting.at_most_once (handlers.ProductsHandler r s)
    (handlers.ProductsHandler (Q := counting.Products PQ) r (s, n)) n
  /\ counting.at_most_once (handlers.ProductHandler r s)
       (handlers.ProductHandler (Q := counting.Products PQ) r (s, n)) n
  /\ counting.at_most_once (handlers.CustomersHandler r s)
       (handlers.CustomersHandler (Q := counting.Customers CQ) r (s, n)) n
  /\ counting.at_most_once (handlers.CustomerHandler r s)
       (handlers.CustomerHandler (Q := counting.Customers CQ) r (s, n)) n
  /\ counting.at_most_once (handlers.InvoicesHandler now r s)
       (handlers.InvoicesHandler (Q := counting.Invoices IQ) now r (s, n)) n
  /\ counting.at_most_once (handlers.InvoiceHandler r s)
       (handlers.InvoiceHandler (Q := counting.Invoices IQ) r (s, n)) n.
Proof.
  repeat split.
  - apply ProductsHandler_counted.
  - apply ProductHandler_counted.
  - apply CustomersHandler_counted.
  - apply CustomerHandler_counted.
  - apply InvoicesHandler_counted.
  - apply InvoiceHandler_counted.
Qed.

(** On the tables of schema.sql: a POST that creates a customer runs one
    statement, a POST that is refused for its body runs none, and a PATCH
    of an invoice runs one. *)
Example statements_counted :
  let counted_customers := counting.Customers (@pg.Customers mock.columns) in
  let counted_invoices := counting.Invoices (@pg.Invoices mock.columns) in
  snd (snd (handlers.CustomersHandler (Q := counted_customers) (rt := mock.decoders)
              (mock.request "POST" "/api/v1/customers" "Ann|Lee")
              (mock.oneCustomer, 0%nat))) = 1%nat
  /\ snd (snd (handlers.CustomersHandler (Q := counted_customers) (rt := mock.decoders)
                 (mock.request "POST" "/api/v1/customers" " |Lee")
                 (mock.oneCustomer, 0%nat))) = 0%nat
  /\ snd (snd (handlers.InvoiceHandler (Q := counted_invoices) (rt := mock.decoders)
                 (mock.request "PATCH" "/api/v1/invoices/1" "INV-9|7|1")
                 (mock.oneInvoice, 0%nat))) = 1%nat.
Proof. repeat split; reflexivity. Qed.

(** X5: when a registered handler answers with a status of 400 or more, the
    four tables hold the rows they held before the request (a sequence may
    have advanced). *)
Theorem failure_leaves_tables
  (ci : pg.ColumnInput) (rt : handlers.Runtime) (h : main.HandlerFunc)
  (r : http.Request) (db : pg.DB) :
  main.registered h ->
  400 <= http.StatusCode (fst (h r db)) ->
  pg.tables (snd (h r db)) = pg.tables db.
Proof.
  intros Hh. exact (proj1 (proj2 (registered_well_behaved h r db Hh))).
Qed.

Lemma failure_leaves_tables_witness :
  let h := handlers.InvoicesHandler (Q := @pg.Invoices mock.columns)
             (rt := mock.decoders) 5 in
  let r := mock.request "POST" "/api/v1/invoices" "INV-1|7|1" in
  http.StatusCode (fst (h r mock.oneInvoice)) = 409
  /\ pg.invoice_id_seq (snd (h r mock.oneInvoice)) = 2
  /\ pg.tables (snd (h r mock.oneInvoice)) = pg.tables mock.oneInvoice.
Proof.
  intros h r. split; [reflexivity|split; [reflexivity|]].
  apply (failure_leaves_tables mock.columns mock.decoders h r).
  - exists 5, config.InvoicesApiPrefix. simpl. do 4 right. left. reflexivity.
  - vm_compute. discriminate.
Defined.

(** X6: a GET request to a registered handler leaves the database, sequences
    included, as it was. *)
Theorem get_changes_nothing
  (ci : pg.ColumnInput) (rt : handlers.Runtime) (h : main.HandlerFunc)
  (r : http.Request) (db : pg.DB) :
  main.registered h ->
  http.Method r = http.MethodGet ->
  snd (h r db) = db.
Proof.
  intros Hh. exact (proj2 (proj2 (registered_well_behaved h r db Hh))).
Qed.

Lemma get_changes_nothing_witness :
  let h := handlers.InvoiceHandler (Q := @pg.Invoices mock.columns)
             (rt := mock.decoders) in
  let r := mock.request "GET" "/api/v1/invoices/1/products" "" in
  snd (h r mock.oneLine) = mock.oneLine.
Proof.
  intros h r. apply (get_changes_nothing mock.columns mock.decoders h r).
  - exists 0, (config.InvoicesApiPrefix ++ "/"). simpl. do 5 right. left. reflexivity.
  - reflexivity.
Defined.

(** X7: the constraints of schema.sql (primary keys drawn from their
    sequences, the unique invoice number and the unique pair of a line, the
    three foreign keys, the three checks) hold after any sequence of
    requests to registered handlers when they held before it. *)
Theorem requests_keep_constraints
  (ci : pg.ColumnInput) (rt : handlers.Runtime)
  (steps : list (main.HandlerFunc * http.Request)) (db : pg.DB) :
  Forall (fun step => main.registered (fst step)) steps ->
  pg.valid db ->
  pg.valid (main.served steps db).
Proof.
  unfold main.served. revert db.
  induction steps as [|[h r] steps IH]; intros db Hsteps Hdb; [exact Hdb|].
  inversion Hsteps as [|? ? Hh Hrest]; subst. cbn [fold_left fst snd].
  apply IH; [exact Hrest|]. now apply registered_valid.
Qed.

Lemma requests_keep_constraints_witness :
  pg.valid
    (main.served
       [ (handlers.CustomersHandler (Q := @pg.Customers mock.columns)
            (rt := mock.decoders),
          mock.request "POST" "/api/v1/customers" "Ann|Lee");
         (handlers.InvoicesHandler (Q := @pg.Invoices mock.columns)
            (rt := mock.decoders) 5,
          mock.request "POST" "/api/v1/invoices" "INV-1|7|1");
         (handlers.CustomerHandler (Q := @pg.Customers mock.columns)
            (rt := mock.decoders),
          mock.request "DELETE" "/api/v1/customers/1" "") ]
       (pg.empty 0)).
Proof.
  apply (requests_keep_constraints mock.columns mock.decoders).
  - repeat constructor.
    + exists 0, config.CustomersApiPrefix. simpl. right; right; left. reflexivity.
    + exists 5, config.InvoicesApiPrefix. simpl. do 4 right. left. reflexivity.
    + exists 0, (config.CustomersApiPrefix ++ "/"). simpl. do 3 right. left. reflexivity.
  - apply valid_empty.
Defined.

(** ** The trailing id of a path *)

Lemma Split_nonempty (s : string) (sep : ascii) : strings.Split s sep <> [].
Proof.
  destruct s as [|c s]; simpl; [discriminate|].
  destruct (Ascii.eqb c sep); [discriminate|].
  destruct (strings.Split s sep); discriminate.
Qed.

Lemma Split_no_sep (s : string) (sep : ascii) :
  ~ In sep (list_ascii_of_string s) -> strings.Split s sep = [s].
Proof.
  induction s as [|c s IH]; simpl; intros Hs; [reflexivity|].
  destruct (Ascii.eqb_spec c sep) as [E|_]; [exfalso; apply Hs; now left|].
  rewrite IH by (intros H; apply Hs; now right). reflexivity.
Qed.

Lemma last_cons_nonempty {A} (x d : A) (l : list A) :
  l <> [] -> last (x :: l) d = last l d.
Proof. destruct l; [congruence|reflexivity]. Qed.

Lemma Split_two (s : string) (sep : ascii) (seg : string) :
  exists x tl, strings.Split (s ++ String sep seg) sep = x :: strings.Split seg sep
               \/ strings.Split (s ++ String sep seg) sep = x :: tl
                  /\ tl <> [] /\ last tl "" = last (strings.Split seg sep) "".
Proof.
  induction s as [|c s IH]; simpl.
  - rewrite Ascii.eqb_refl. exists EmptyString, []. now left.
  - destruct IH as (x & tl & [E|(E & Hne & Hlast)]).
    + destruct (Ascii.eqb c sep).
      * exists EmptyString, (x :: strings.Split seg sep). right.
        split; [now rewrite E|split; [discriminate|]].
        apply last_cons_nonempty, Split_nonempty.
      * rewrite E. exists (String c x), []. now left.
    + destruct (Ascii.eqb c sep).
      * exists EmptyString, (x :: tl). right.
        split; [now rewrite E|split; [discriminate|]].
        rewrite last_cons_nonempty by exact Hne. exact Hlast.
      * rewrite E. exists (String c x), tl. right. now split.
Qed.

Lemma last_Split_app (s : string) (sep : ascii) (seg : string) :
  last (strings.Split (s ++ String sep seg) sep) "" = last (strings.Split seg sep) "".
Proof.
  destruct (Split_two s sep seg) as (x & tl & [E|(E & Hne & Hlast)]); rewrite E.
  - apply last_cons_nonempty, Split_nonempty.
  - rewrite last_cons_nonempty by exact Hne. exact Hlast.
Qed.

(** X8: [utils.ExtractTrailingID] reads what follows the last slash of the
    path and nothing before it: for a segment without a slash the result is
    [strconv.Atoi] of the segment, whatever the prefix; a path that ends in
    a slash has no id. *)
Theorem ExtractTrailingID_last_segment (prefix seg : string) :
  ~ In "/"%char (list_ascii_of_string seg) ->
  utils.ExtractTrailingID (prefix ++ "/" ++ seg) = strconv.Atoi seg
  /\ utils.ExtractTrailingID (prefix ++ "/") = None.
Proof.
  intros Hseg. unfold utils.ExtractTrailingID. split.
  - change ("/" ++ seg) with (String "/" seg).
    rewrite last_Split_app, (Split_no_sep seg "/" Hseg). reflexivity.
  - change "/" with (String "/" "") at 1. rewrite last_Split_app. reflexivity.
Qed.

Lemma ExtractTrailingID_last_segment_witness :
  utils.ExtractTrailingID "/api/v1/products/x/7" = Some 7
  /\ utils.ExtractTrailingID "/api/v1/products/7/" = None.
Proof.
  destruct (ExtractTrailingID_last_segment "/api/v1/products/x" "7") as (H1 & _).
  { simpl. intros [H|[]]. discriminate H. }
  destruct (ExtractTrailingID_last_segment "/api/v1/products/7" "") as (_ & H2).
  { simpl. intros []. }
  split; [exact H1|exact H2].
Defined.

(** The example databases satisfy the constraints. *)
Ltac concrete_valid :=
  unfold pg.valid, pg.primary_keys, pg.consistent, pg.checks, pg.keys,
    pg.invoice_number_unique, pg.invoice_item_unique, pg.invoice_id_fkey,
    pg.customer_id_fkey, pg.product_id_fkey;
  simpl;
  repeat match goal with
    | |- _ /\ _ => split
    | |- NoDup _ => constructor
    | |- Forall _ _ => constructor
    | |- ~ _ => simpl; intros H; repeat destruct H as [H|H]; try discriminate H; try exact H
    | |- forall _, _ => intros
    | H : _ \/ _ |- _ => destruct H
    | H : False |- _ => destruct H
    | H : _ = _ |- _ => subst
    | |- _ <= _ => now vm_compute
    | |- _ < _ => now vm_compute
    | |- _ = _ => reflexivity
    end.

Lemma valid_oneCustomer : pg.valid mock.oneCustomer.
Proof. concrete_valid. Qed.

Lemma valid_oneInvoice : pg.valid mock.oneInvoice.
Proof. concrete_valid. Qed.

Lemma valid_oneProduct : pg.valid mock.oneProduct.
Proof. concrete_valid. Qed.


Lemma valid_unpricedLine : pg.valid mock.unpricedLine.
Proof. concrete_valid. Qed.

(** ** Creating, then fetching *)

Lemma find_by_snoc {A} (key : A -> Z) (rows : list A) (row : A) :
  (forall r, In r rows -> key r <> key row) ->
  pg.find_by key (key row) (rows ++ [row]) = Some row.
Proof.
  intros Hrows. unfold pg.find_by. induction rows as [|x rows IH]; simpl.
  - now rewrite Z.eqb_refl.
  - destruct (Z.eqb_spec (key x) (key row)) as [E|_].
    + exfalso. apply (Hrows x); [now left|exact E].
    + apply IH. intros r Hr. apply Hrows. now right.
Qed.

Lemma keys_below {A} (key : A -> Z) (rows : list A) (seq : Z) (r : A) :
  pg.keys key rows seq -> In r rows -> 1 <= key r <= seq.
Proof.
  intros (_ & Hb & _) Hr. rewrite Forall_forall in Hb. apply Hb.
  now apply in_map.
Qed.

Lemma keys_seq {A} (key : A -> Z) (rows : list A) (seq : Z) :
  pg.keys key rows seq -> 0 <= seq <= 2147483647.
Proof. now intros (_ & _ & Hs). Qed.

Section Created.

Context {ci : pg.ColumnInput} {rt : handlers.Runtime}.

Lemma CreateCustomer_success arg db c db' :
  pg.CreateCustomer arg db = ((c, None), db') ->
  database.Customer_ID c = pg.customer_id_seq db + 1
  /\ pg.customer_id_seq db < 2147483647
  /\ pg.varchar 50 (database.CreateCustomer_FirstName arg)
     = inl (database.Customer_FirstName c)
  /\ pg.varchar 50 (database.CreateCustomer_LastName arg)
     = inl (database.Customer_LastName c)
  /\ db' = pg.set_customer db (pg.customer db ++ [c]) (pg.customer_id_seq db + 1).
Proof.
  unfold pg.CreateCustomer, pg.input, pg.fail. intros H.
  destruct (pg.varchar 50 (database.CreateCustomer_FirstName arg)); [|discriminate H].
  destruct (pg.varchar 50 (database.CreateCustomer_LastName arg)); [|discriminate H].
  destruct (pg.nextval _) as [id|] eqn:Hnext; [|discriminate H].
  apply nextval_some in Hnext as (-> & Hlt).
  injection H as <- <-. cbn. auto.
Qed.

Lemma GetCustomer_row (r : http.Request) (db : pg.DB) (id : Z) (c : database.Customer) :
  http.Method r = http.MethodGet ->
  utils.ExtractTrailingID (http.URL_Path r) = Some id ->
  pg.find_by database.Customer_ID (int32 id) (pg.customer db) = Some c ->
  handlers.CustomerHandler r db
  = (handlers.writeServerResponse http.StatusOK (handlers.toCustomerResponse c), db).
Proof.
  intros Hget Hid Hfind. unfold handlers.CustomerHandler. rewrite Hid, Hget.
  cbn. unfold pg.GetCustomer. now rewrite Hfind.
Qed.

Lemma GetCustomer_none (r : http.Request) (db : pg.DB) (id : Z) :
  http.Method r = http.MethodGet ->
  utils.ExtractTrailingID (http.URL_Path r) = Some id ->
  pg.find_by database.Customer_ID (int32 id) (pg.customer db) = None ->
  handlers.CustomerHandler r db
  = (http.Error "Customer not found" http.StatusNotFound, db).
Proof.
  intros Hget Hid Hfind. unfold handlers.CustomerHandler. rewrite Hid, Hget.
  cbn. unfold pg.GetCustomer. now rewrite Hfind.
Qed.

End Created.

(** X9: when POST /customers answers 201 on tables that satisfy the
    constraints of schema.sql, the customer is a new last row whose id is
    the next value of the sequence, greater than every id in the table, and
    whose names are the request's as the columns store them; a GET of that
    id then answers 200 with the body the POST answered. *)
Theorem created_customer_is_fetched
  (ci : pg.ColumnInput) (rt : handlers.Runtime) (post : http.Request) (db : pg.DB) :
  pg.valid db ->
  http.StatusCode (fst (handlers.CustomersHandler post db)) = http.StatusCreated ->
  exists (customer : handlers.createCustomerRequest) (c : database.Customer),
    handlers.decodeCreateCustomer (http.Body post) = Some customer
    /\ pg.varchar 50 (handlers.createCustomer_FirstName customer)
       = inl (database.Customer_FirstName c)
    /\ pg.varchar 50 (handlers.createCustomer_LastName customer)
       = inl (database.Customer_LastName c)
    /\ database.Customer_ID c = pg.customer_id_seq db + 1
    /\ (forall old, In old (pg.customer db) ->
                    database.Customer_ID old < database.Customer_ID c)
    /\ handlers.CustomersHandler post db
       = (handlers.writeServerResponse http.StatusCreated (handlers.toCustomerResponse c),
          pg.set_customer db (pg.customer db ++ [c]) (pg.customer_id_seq db + 1))
    /\ forall get id,
         http.Method get = http.MethodGet ->
         utils.ExtractTrailingID (http.URL_Path get) = Some id ->
         id = database.Customer_ID c ->
         handlers.CustomerHandler get (snd (handlers.CustomersHandler post db))
         = (handlers.writeServerResponse http.StatusOK (handlers.toCustomerResponse c),
            snd (handlers.CustomersHandler post db)).
Proof.
  intros Hv. pose proof Hv as ((Hkc & _) & _).
  unfold handlers.CustomersHandler.
  destruct (http.Method post == http.MethodGet); [discriminate|].
  destruct (http.Method post == http.MethodPost); [|discriminate].
  destruct (handlers.decodeCreateCustomer _) as [customer|]; [|discriminate].
  destruct (strings.TrimSpace _ == ""); [discriminate|].
  destruct (strings.TrimSpace _ == ""); [discriminate|].
  cbn [database.CreateCustomer pg.Customers].
  destruct (pg.CreateCustomer _ db) as [[c [err|]] db'] eqn:Hcall; [discriminate|].
  intros _. apply CreateCustomer_success in Hcall as (Hid & Hlt & Hfirst & Hlast & ->).
  cbn in Hfirst, Hlast.
  assert (Hold : forall old, In old (pg.customer db) ->
                             database.Customer_ID old < database.Customer_ID c).
  { intros old Hin. pose proof (keys_below _ _ _ old Hkc Hin). lia. }
  exists customer, c. repeat split; auto.
  intros get id Hget Hpath ->. cbn [snd].
  apply (GetCustomer_row get _ (database.Customer_ID c)); auto.
  rewrite int32_small.
  - cbn [pg.customer pg.set_customer]. apply find_by_snoc.
    intros r Hr. specialize (Hold r Hr). lia.
  - pose proof (keys_seq _ _ _ Hkc). unfold in_int32. lia.
Qed.

Lemma created_customer_is_fetched_witness :
  let CQ := @pg.Customers mock.columns in
  let post := mock.request "POST" "/api/v1/customers" "Ann|Lee" in
  let after := snd (handlers.CustomersHandler (Q := CQ) (rt := mock.decoders)
                      post mock.oneCustomer) in
  handlers.CustomerHandler (Q := CQ) (rt := mock.decoders)
    (mock.request "GET" "/api/v1/customers/2" "") after
  = (handlers.writeServerResponse 200
       {| handlers.customerResponse_ID := 2;
          handlers.customerResponse_FirstName := "Ann";
          handlers.customerResponse_LastName := "Lee" |},
     after).
Proof.
  intros CQ post after.
  destruct (created_customer_is_fetched mock.columns mock.decoders post mock.oneCustomer
              valid_oneCustomer eq_refl)
    as (customer & c & Hdec & Hfirst & Hlast & Hid & _ & _ & Hget).
  injection Hdec as <-. injection Hfirst as Hfirst. injection Hlast as Hlast.
  subst after post CQ.
  rewrite (Hget (mock.request "GET" "/api/v1/customers/2" "") 2 eq_refl eq_refl)
    by (now rewrite Hid).
  unfold handlers.toCustomerResponse. now rewrite Hid, <- Hfirst, <- Hlast.
Defined.

Section CreatedProduct.

Context {ci : pg.ColumnInput} {rt : handlers.Runtime}.

Lemma CreateProduct_success arg db p db' :
  pg.CreateProduct arg db = ((p, None), db') ->
  exists row,
    p = pg.scanProduct row
    /\ pg.product_id row = pg.product_id_seq db + 1
    /\ pg.product_id_seq db < 2147483647
    /\ pg.varchar 100 (database.CreateProduct_Name arg) = inl (pg.product_name row)
    /\ pg.descriptionInput (database.CreateProduct_Description arg)
       = inl (pg.product_description row)
    /\ pg.numeric_10_2 (database.CreateProduct_Price arg) = inl (pg.product_price row)
    /\ pg.product_available_items row = database.CreateProduct_AvailableItems arg
    /\ pg.numeric_ge0 (pg.product_price row) = true
    /\ 0 <= pg.product_available_items row
    /\ db' = pg.set_product db (pg.product db ++ [row]) (pg.product_id_seq db + 1).
Proof.
  unfold pg.CreateProduct, pg.input, pg.fail. intros H.
  destruct (pg.varchar 100 _); [|discriminate H].
  destruct (pg.descriptionInput _); [|discriminate H].
  destruct (pg.numeric_10_2 _) as [price|]; [|discriminate H].
  destruct (pg.nextval _) as [id|] eqn:Hnext; [|discriminate H].
  apply nextval_some in Hnext as (-> & Hlt).
  destruct (pg.product_check _ price) eqn:Hcheck; [discriminate H|].
  apply product_check_none in Hcheck as (Hp & Ha).
  injection H as <- <-. eexists. repeat split; cbn; auto.
Qed.

Lemma GetProduct_row (r : http.Request) (db : pg.DB) (id : Z) (row : pg.product_row) :
  http.Method r = http.MethodGet ->
  utils.ExtractTrailingID (http.URL_Path r) = Some id ->
  pg.find_by pg.product_id (int32 id) (pg.product db) = Some row ->
  handlers.ProductHandler r db
  = (handlers.writeServerResponse http.StatusOK
       (handlers.toProductResponse (pg.scanProduct row)), db).
Proof.
  intros Hget Hid Hfind. unfold handlers.ProductHandler. rewrite Hid, Hget.
  cbn. unfold pg.GetProduct. now rewrite Hfind.
Qed.

Lemma GetProduct_none (r : http.Request) (db : pg.DB) (id : Z) :
  http.Method r = http.MethodGet ->
  utils.ExtractTrailingID (http.URL_Path r) = Some id ->
  pg.find_by pg.product_id (int32 id) (pg.product db) = None ->
  handlers.ProductHandler r db
  = (http.Error "Product not found" http.StatusNotFound, db).
Proof.
  intros Hget Hid Hfind. unfold handlers.ProductHandler. rewrite Hid, Hget.
  cbn. unfold pg.GetProduct. now rewrite Hfind.
Qed.

End CreatedProduct.

(** X10: when POST /products answers 201 on tables that satisfy the
    constraints, the product is a new last row with the next id of the
    sequence, above every id in the table; its price is what NUMERIC(10,2)
    reads from the request's, a number that is not negative or NaN, its
    available_items the request's and not negative, its description NULL
    when the request's is empty; a GET of that id then answers 200 with the
    body of the POST. The price NaN, which strconv.ParseFloat and the column
    accept, is stored and answered as NaN. *)
Theorem created_product_is_fetched
  (ci : pg.ColumnInput) (rt : handlers.Runtime) (post : http.Request) (db : pg.DB) :
  pg.valid db ->
  http.StatusCode (fst (handlers.ProductsHandler post db)) = http.StatusCreated ->
  exists (product : handlers.createProductRequest) (row : pg.product_row),
    handlers.decodeCreateProduct (http.Body post) = Some product
    /\ pg.numeric_10_2 (handlers.createProduct_Price product) = inl (pg.product_price row)
    /\ pg.numeric_ge0 (pg.product_price row) = true
    /\ (handlers.createProduct_Price product = "NaN" -> pg.product_price row = pg.NaN)
    /\ handlers.productResponse_Price (handlers.toProductResponse (pg.scanProduct row))
       = pg.numeric_text (pg.product_price row)
    /\ pg.product_available_items row = handlers.createProduct_AvailableItems product
    /\ 0 <= pg.product_available_items row
    /\ (handlers.createProduct_Description product = "" ->
        pg.product_description row = None)
    /\ pg.product_id row = pg.product_id_seq db + 1
    /\ (forall old, In old (pg.product db) -> pg.product_id old < pg.product_id row)
    /\ handlers.ProductsHandler post db
       = (handlers.writeServerResponse http.StatusCreated
            (handlers.toProductResponse (pg.scanProduct row)),
          pg.set_product db (pg.product db ++ [row]) (pg.product_id_seq db + 1))
    /\ forall get id,
         http.Method get = http.MethodGet ->
         utils.ExtractTrailingID (http.URL_Path get) = Some id ->
         id = pg.product_id row ->
         handlers.ProductHandler get (snd (handlers.ProductsHandler post db))
         = (handlers.writeServerResponse http.StatusOK
              (handlers.toProductResponse (pg.scanProduct row)),
            snd (handlers.ProductsHandler post db)).
Proof.
  intros Hv. pose proof Hv as ((_ & Hkp & _) & _).
  unfold handlers.ProductsHandler.
  destruct (http.Method post == http.MethodGet); [discriminate|].
  destruct (http.Method post == http.MethodPost); [|discriminate].
  destruct (handlers.decodeCreateProduct _) as [product|]; [|discriminate].
  destruct (handlers.createProductInvalid _); [discriminate|].
  cbn [database.CreateProduct pg.Products].
  destruct (pg.CreateProduct _ db) as [[p [err|]] db'] eqn:Hcall.
  { unfold handlers.createProductError.
    destruct (errors.asPqError err) as [pqErr|]; [|discriminate].
    destruct (errors.Constraint pqErr == "product_available_items_check");
      [discriminate|].
    destruct (errors.Constraint pqErr == "product_price_check"); discriminate. }
  intros _.
  apply CreateProduct_success in Hcall
    as (row & -> & Hid & Hlt & _ & Hdesc & Hprice & Hitems & Hp & Ha & ->).
  cbn in Hdesc, Hprice, Hitems.
  assert (Hold : forall old, In old (pg.product db) -> pg.product_id old < pg.product_id row).
  { intros old Hin. pose proof (keys_below _ _ _ old Hkp Hin). lia. }
  exists product, row. repeat split; auto.
  - intros Hnan. rewrite Hnan, pg.numeric_10_2_NaN in Hprice.
    now injection Hprice as <-.
  - intros Hempty. unfold pg.descriptionInput in Hdesc. cbn in Hdesc.
    rewrite Hempty in Hdesc. cbn in Hdesc. now injection Hdesc as <-.
  - intros get id Hget Hpath ->. cbn [snd].
    apply (GetProduct_row get _ (pg.product_id row)); auto.
    rewrite int32_small.
    + cbn [pg.product pg.set_product]. apply find_by_snoc.
      intros r Hr. specialize (Hold r Hr). lia.
    + pose proof (keys_seq _ _ _ Hkp). unfold in_int32. lia.
Qed.

Lemma created_product_is_fetched_witness :
  let PQ := @pg.Products mock.columns in
  let post := mock.request "POST" "/api/v1/products" "Pen||NaN|10" in
  let after := snd (handlers.ProductsHandler (Q := PQ) (rt := mock.decoders)
                      post mock.oneProduct) in
  handlers.ProductHandler (Q := PQ) (rt := mock.decoders)
    (mock.request "GET" "/api/v1/products/2" "") after
  = (handlers.writeServerResponse 200
       {| handlers.productResponse_ID := 2;
          handlers.productResponse_Name := "Pen";
          handlers.productResponse_Description := "";
          handlers.productResponse_Price := "NaN";
          handlers.productResponse_AvailableItems := 10 |},
     after).
Proof.
  intros PQ post after.
  destruct (created_product_is_fetched mock.columns mock.decoders post mock.oneProduct
              valid_oneProduct eq_refl)
    as (product & row & _ & _ & _ & _ & _ & _ & _ & _ & Hid & _ & Hpost & Hget).
  subst after post PQ.
  rewrite (Hget (mock.request "GET" "/api/v1/products/2" "") 2 eq_refl eq_refl)
    by (now rewrite Hid).
  apply (f_equal fst) in Hpost. cbn [fst] in Hpost.
  f_equal. injection Hpost as Hi Hn Hd Hp Ha.
  unfold handlers.writeServerResponse, handlers.toProductResponse, pg.scanProduct.
  cbn. now rewrite <- Hi, <- Hn, <- Hd, <- Hp, <- Ha.
Defined.

Section CreatedInvoice.

Context {ci : pg.ColumnInput} {rt : handlers.Runtime}.

Lemma CreateInvoice_success arg db inv db' :
  pg.CreateInvoice arg db = ((inv, None), db') ->
  database.Invoice_ID inv = pg.invoice_id_seq db + 1
  /\ pg.invoice_id_seq db < 2147483647
  /\ pg.varchar 50 (database.CreateInvoice_InvoiceNumber arg)
     = inl (database.Invoice_InvoiceNumber inv)
  /\ pg.timestamp (database.CreateInvoice_InvoiceDate arg)
     = inl (database.Invoice_InvoiceDate inv)
  /\ database.Invoice_CustomerID inv = database.CreateInvoice_CustomerID arg
  /\ existsb (fun r => database.Invoice_InvoiceNumber r
                       == database.Invoice_InvoiceNumber inv) (pg.invoice db) = false
  /\ pg.exists_by database.Customer_ID (database.Invoice_CustomerID inv) (pg.customer db)
     = true
  /\ db' = pg.set_invoice db (pg.invoice db ++ [inv]) (pg.invoice_id_seq db + 1).
Proof.
  unfold pg.CreateInvoice, pg.input, pg.fail. intros H.
  destruct (pg.varchar 50 _) as [number|]; [|discriminate H].
  destruct (pg.timestamp _) as [date|]; [|discriminate H].
  destruct (pg.nextval _) as [id|] eqn:Hnext; [|discriminate H].
  apply nextval_some in Hnext as (-> & Hlt).
  destruct (existsb _ (pg.invoice db)) eqn:Hnum; [discriminate H|].
  destruct (pg.exists_by _ _ (pg.customer db)) eqn:Hcust; [|discriminate H].
  cbn [negb] in H. injection H as <- <-. cbn. auto 10.
Qed.

Lemma GetInvoice_row (r : http.Request) (db : pg.DB) (pre : list string)
  (sid : string) (id : Z) (inv : database.Invoice) :
  http.Method r = http.MethodGet ->
  ~ In "invoices" pre ->
  handlers.pathSegments (http.URL_Path r) = (pre ++ ["invoices"; sid])%list ->
  strconv.Atoi sid = Some id ->
  pg.find_by database.Invoice_ID (int32 id) (pg.invoice db) = Some inv ->
  handlers.InvoiceHandler r db
  = (handlers.writeServerResponse http.StatusOK (handlers.toInvoiceResponse inv), db).
Proof.
  intros Hget Hpre Hseg Hid Hfind.
  rewrite (route_invoice r pre Hpre sid [] db Hseg) by discriminate.
  rewrite Hid. unfold handlers.invoiceOnly. rewrite Hget.
  cbn. unfold pg.GetInvoice. now rewrite Hfind.
Qed.

Lemma GetInvoice_none (r : http.Request) (db : pg.DB) (pre : list string)
  (sid : string) (id : Z) :
  http.Method r = http.MethodGet ->
  ~ In "invoices" pre ->
  handlers.pathSegments (http.URL_Path r) = (pre ++ ["invoices"; sid])%list ->
  strconv.Atoi sid = Some id ->
  pg.find_by database.Invoice_ID (int32 id) (pg.invoice db) = None ->
  handlers.InvoiceHandler r db
  = (http.Error "Invoice not found" http.StatusNotFound, db).
Proof.
  intros Hget Hpre Hseg Hid Hfind.
  rewrite (route_invoice r pre Hpre sid [] db Hseg) by discriminate.
  rewrite Hid. unfold handlers.invoiceOnly. rewrite Hget.
  cbn. unfold pg.GetInvoice. now rewrite Hfind.
Qed.

End CreatedInvoice.

(** X11: when POST /invoices answers 201 on tables that satisfy the
    constraints, the invoice is a new last row with the next id of the
    sequence, above every id in the table; no other invoice has its number
    and its customer exists; a GET of /invoices/{id} then answers 200 with
    the body of the POST. *)
Theorem created_invoice_is_fetched
  (ci : pg.ColumnInput) (rt : handlers.Runtime) (now : time.Time)
  (post : http.Request) (db : pg.DB) :
  pg.valid db ->
  http.StatusCode (fst (handlers.InvoicesHandler now post db)) = http.StatusCreated ->
  exists (req : handlers.createInvoiceRequest) (inv : database.Invoice),
    handlers.decodeCreateInvoice (http.Body post) = Some req
    /\ pg.varchar 50 (handlers.createInvoice_InvoiceNumber req)
       = inl (database.Invoice_InvoiceNumber inv)
    /\ database.Invoice_CustomerID inv = handlers.createInvoice_CustomerID req
    /\ (forall old, In old (pg.invoice db) ->
          database.Invoice_InvoiceNumber old <> database.Invoice_InvoiceNumber inv)
    /\ (exists c, In c (pg.customer db)
                  /\ database.Customer_ID c = database.Invoice_CustomerID inv)
    /\ database.Invoice_ID inv = pg.invoice_id_seq db + 1
    /\ (forall old, In old (pg.invoice db) ->
                    database.Invoice_ID old < database.Invoice_ID inv)
    /\ handlers.InvoicesHandler now post db
       = (handlers.writeServerResponse http.StatusCreated (handlers.toInvoiceResponse inv),
          pg.set_invoice db (pg.invoice db ++ [inv]) (pg.invoice_id_seq db + 1))
    /\ forall get pre sid id,
         http.Method get = http.MethodGet ->
         ~ In "invoices" pre ->
         handlers.pathSegments (http.URL_Path get) = (pre ++ ["invoices"; sid])%list ->
         strconv.Atoi sid = Some id ->
         id = database.Invoice_ID inv ->
         handlers.InvoiceHandler get (snd (handlers.InvoicesHandler now post db))
         = (handlers.writeServerResponse http.StatusOK (handlers.toInvoiceResponse inv),
            snd (handlers.InvoicesHandler now post db)).
Proof.
  intros Hv. pose proof Hv as ((_ & _ & Hki & _) & _).
  unfold handlers.InvoicesHandler.
  destruct (http.Method post == http.MethodGet); [discriminate|].
  destruct (http.Method post == http.MethodPost); [|discriminate].
  destruct (handlers.decodeCreateInvoice _) as [req|]; [|discriminate].
  destruct (strings.TrimSpace _ == ""); [discriminate|].
  destruct (_ <=? 0); [discriminate|].
  cbn [database.CreateInvoice pg.Invoices].
  destruct (pg.CreateInvoice _ db) as [[inv [err|]] db'] eqn:Hcall.
  { unfold handlers.invoiceWriteError.
    destruct (errors.As err) as [pqErr|]; [|discriminate].
    destruct (errors.Code pqErr == "23505"); [discriminate|].
    destruct (errors.Code pqErr == "23503"); discriminate. }
  intros _.
  apply CreateInvoice_success in Hcall
    as (Hid & Hlt & Hnum & _ & Hcust & Hfree & Hexists & ->).
  cbn in Hnum, Hcust.
  assert (Hold : forall old, In old (pg.invoice db) ->
                             database.Invoice_ID old < database.Invoice_ID inv).
  { intros old Hin. pose proof (keys_below _ _ _ old Hki Hin). lia. }
  exists req, inv. repeat split; auto.
  - intros old Hin E. apply not_true_iff_false in Hfree. apply Hfree.
    apply existsb_exists. exists old. split; [exact Hin|]. now apply streq_true.
  - now apply exists_by_true.
  - intros get pre sid id Hget Hpre Hseg Hsid ->. cbn [snd].
    apply (GetInvoice_row get _ pre sid (database.Invoice_ID inv)); auto.
    rewrite int32_small.
    + cbn [pg.invoice pg.set_invoice]. apply find_by_snoc.
      intros r Hr. specialize (Hold r Hr). lia.
    + pose proof (keys_seq _ _ _ Hki). unfold in_int32. lia.
Qed.

Lemma created_invoice_is_fetched_witness :
  let IQ := @pg.Invoices mock.columns in
  let post := mock.request "POST" "/api/v1/invoices" "INV-2|9|1" in
  let after := snd (handlers.InvoicesHandler (Q := IQ) (rt := mock.decoders) 5
                      post mock.oneInvoice) in
  handlers.InvoiceHandler (Q := IQ) (rt := mock.decoders)
    (mock.request "GET" "/api/v1/invoices/2" "") after
  = (handlers.writeServerResponse 200
       {| handlers.invoiceResponse_ID := 2;
          handlers.invoiceResponse_InvoiceNumber := "INV-2";
          handlers.invoiceResponse_InvoiceDate := 9;
          handlers.invoiceResponse_CustomerID := 1 |},
     after).
Proof.
  intros IQ post after.
  destruct (created_invoice_is_fetched mock.columns mock.decoders 5 post mock.oneInvoice
              valid_oneInvoice eq_refl)
    as (req & inv & _ & _ & _ & _ & _ & Hid & _ & Hpost & Hget).
  subst after post IQ.
  rewrite (Hget (mock.request "GET" "/api/v1/invoices/2" "") ["api"; "v1"] "2" 2
             eq_refl)
    by (try reflexivity; try (now rewrite Hid);
        simpl; intros [H|[H|[]]]; discriminate H).
  apply (f_equal fst) in Hpost. cbn [fst] in Hpost.
  f_equal. injection Hpost as Hi Hn Hd Hc.
  unfold handlers.writeServerResponse, handlers.toInvoiceResponse.
  cbn. now rewrite <- Hi, <- Hn, <- Hd, <- Hc.
Defined.

(** ** Refused invoices *)

Lemma nextval_next (seq : Z) : seq < 2147483647 -> pg.nextval seq = Some (seq + 1).
Proof. intros H. unfold pg.nextval. now rewrite (proj2 (Z.ltb_lt _ _) H). Qed.

(** X12: POST /invoices with a body that passes the handler's checks, a
    number that VARCHAR(50) stores as [number] and a sequence that is not
    exhausted: when an invoice has that number the answer is 409, also when
    the customer does not exist; when the number is free and the customer
    does not exist it is 400; in both cases no row is written but the id
    drawn from the sequence is spent; otherwise the answer is 201. *)
Theorem invoice_create_refusals
  (ci : pg.ColumnInput) (rt : handlers.Runtime) (now : time.Time)
  (post : http.Request) (db : pg.DB) (req : handlers.createInvoiceRequest)
  (number : string) :
  http.Method post = http.MethodPost ->
  handlers.decodeCreateInvoice (http.Body post) = Some req ->
  strings.TrimSpace (handlers.createInvoice_InvoiceNumber req) <> "" ->
  0 < handlers.createInvoice_CustomerID req ->
  pg.varchar 50 (handlers.createInvoice_InvoiceNumber req) = inl number ->
  (forall t, exists t', pg.timestamp t = inl t') ->
  pg.invoice_id_seq db < 2147483647 ->
  let taken :=
    existsb (fun r => database.Invoice_InvoiceNumber r == number) (pg.invoice db) in
  let known :=
    pg.exists_by database.Customer_ID (handlers.createInvoice_CustomerID req)
      (pg.customer db) in
  let spent := pg.set_invoice db (pg.invoice db) (pg.invoice_id_seq db + 1) in
  (taken = true ->
   handlers.InvoicesHandler now post db
   = (http.Error "Invoice number must be unique" http.StatusConflict, spent))
  /\ (taken = false -> known = false ->
      handlers.InvoicesHandler now post db
      = (http.Error "Specified customer does not exist" http.StatusBadRequest, spent))
  /\ (taken = false -> known = true ->
      http.StatusCode (fst (handlers.InvoicesHandler now post db)) = http.StatusCreated).
Proof.
  intros Hpost Hdec Hnum Hcust Hvar Htime Hseq taken known spent.
  unfold handlers.InvoicesHandler. rewrite Hpost, Hdec. cbn [String.eqb Ascii.eqb Bool.eqb].
  apply streq_false in Hnum. rewrite Hnum.
  replace (_ <=? 0) with false by (symmetry; apply Z.leb_gt; lia).
  cbn [database.CreateInvoice pg.Invoices].
  unfold pg.CreateInvoice, pg.input.
  cbn [database.CreateInvoice_InvoiceNumber database.CreateInvoice_InvoiceDate
         database.CreateInvoice_CustomerID].
  rewrite Hvar.
  match goal with |- context [pg.timestamp ?t] =>
    destruct (Htime t) as (date & Hdate); rewrite Hdate end.
  rewrite (nextval_next _ Hseq). fold taken known spent.
  split; [|split].
  - intros ->. reflexivity.
  - intros -> ->. reflexivity.
  - intros -> ->. reflexivity.
Qed.

Lemma invoice_create_refusals_witness :
  let IQ := @pg.Invoices mock.columns in
  handlers.InvoicesHandler (Q := IQ) (rt := mock.decoders) 5
    (mock.request "POST" "/api/v1/invoices" "INV-1|9|8") mock.oneInvoice
  = (http.Error "Invoice number must be unique" 409,
     pg.set_invoice mock.oneInvoice [mock.inv1] 2)
  /\ handlers.InvoicesHandler (Q := IQ) (rt := mock.decoders) 5
       (mock.request "POST" "/api/v1/invoices" "INV-2|9|8") mock.oneInvoice
     = (http.Error "Specified customer does not exist" 400,
        pg.set_invoice mock.oneInvoice [mock.inv1] 2).
Proof.
  intros IQ. split.
  - refine (proj1 (invoice_create_refusals mock.columns mock.decoders 5
                     (mock.request "POST" "/api/v1/invoices" "INV-1|9|8")
                     mock.oneInvoice _ "INV-1" eq_refl eq_refl _ _ eq_refl _ _) eq_refl).
    + vm_compute. discriminate.
    + vm_compute. reflexivity.
    + intros t. exists t. reflexivity.
    + vm_compute. reflexivity.
  - refine (proj1 (proj2 (invoice_create_refusals mock.columns mock.decoders 5
                     (mock.request "POST" "/api/v1/invoices" "INV-2|9|8")
                     mock.oneInvoice _ "INV-2" eq_refl eq_refl _ _ eq_refl _ _))
              eq_refl eq_refl).
    + vm_compute. discriminate.
    + vm_compute. reflexivity.
    + intros t. exists t. reflexivity.
    + vm_compute. reflexivity.
Defined.

(** ** Updating, then fetching *)

Lemma find_by_update_same {A} (key : A -> Z) (id : Z) (row old : A) (rows : list A) :
  key row = id ->
  pg.find_by key id rows = Some old ->
  pg.find_by key id (pg.update_by key id (fun _ => row) rows) = Some row.
Proof.
  intros Hrow. unfold pg.find_by, pg.update_by.
  induction rows as [|x rows IH]; simpl; [discriminate|].
  destruct (key x =? id) eqn:E; simpl.
  - intros _. now rewrite Hrow, Z.eqb_refl.
  - rewrite E. exact IH.
Qed.

Lemma find_by_update_other {A} (key : A -> Z) (id id' : Z) (row : A) (rows : list A) :
  key row = id -> id' <> id ->
  pg.find_by key id' (pg.update_by key id (fun _ => row) rows) = pg.find_by key id' rows.
Proof.
  intros Hrow Hid. unfold pg.find_by, pg.update_by.
  induction rows as [|x rows IH]; simpl; [reflexivity|].
  destruct (Z.eqb_spec (key x) id) as [E|E]; simpl.
  - rewrite Hrow, E. destruct (Z.eqb_spec id id'); [congruence|]. exact IH.
  - destruct (key x =? id'); [reflexivity|exact IH].
Qed.

Lemma find_by_none_exists {A} (key : A -> Z) (id : Z) (rows : list A) :
  pg.find_by key id rows = None <-> pg.exists_by key id rows = false.
Proof.
  unfold pg.find_by, pg.exists_by. induction rows as [|x rows IH]; simpl.
  - tauto.
  - destruct (key x =? id); simpl; [split; discriminate|exact IH].
Qed.

Lemma update_by_length {A} (key : A -> Z) (id : Z) (f : A -> A) (rows : list A) :
  length (pg.update_by key id f rows) = length rows.
Proof. apply length_map. Qed.

Lemma CustomerHandler_patch {ci : pg.ColumnInput} {rt : handlers.Runtime}
  (patch : http.Request) (db : pg.DB) (id : Z) (req : handlers.updateCustomerRequest)
  (first last : string) :
  http.Method patch = http.MethodPatch ->
  utils.ExtractTrailingID (http.URL_Path patch) = Some id ->
  handlers.decodeUpdateCustomer (http.Body patch) = Some req ->
  strings.TrimSpace (handlers.updateCustomer_FirstName req) <> "" ->
  strings.TrimSpace (handlers.updateCustomer_LastName req) <> "" ->
  pg.varchar 50 (handlers.updateCustomer_FirstName req) = inl first ->
  pg.varchar 50 (handlers.updateCustomer_LastName req) = inl last ->
  handlers.CustomerHandler patch db
  = match pg.find_by database.Customer_ID (int32 id) (pg.customer db) with
    | None => (http.Error "Customer not found" http.StatusNotFound, db)
    | Some old =>
        let row :=
          {| database.Customer_ID := database.Customer_ID old;
             database.Customer_FirstName := first;
             database.Customer_LastName := last;
             database.Customer_CreatedAt := database.Customer_CreatedAt old;
             database.Customer_UpdatedAt := database.Customer_UpdatedAt old |} in
        (handlers.writeServerResponse http.StatusOK (handlers.toCustomerResponse row),
         pg.set_customer db
           (pg.update_by database.Customer_ID (int32 id) (fun _ => row) (pg.customer db))
           (pg.customer_id_seq db))
    end.
Proof.
  intros Hpatch Hid Hdec Hfirst Hlast Hvf Hvl.
  unfold handlers.CustomerHandler.
  rewrite Hid, Hpatch, Hdec. cbn [String.eqb Ascii.eqb Bool.eqb].
  apply streq_false in Hfirst, Hlast. rewrite Hfirst, Hlast.
  cbn [database.UpdateCustomer pg.Customers].
  unfold pg.UpdateCustomer, pg.input.
  cbn [database.UpdateCustomer_FirstName database.UpdateCustomer_LastName
         database.UpdateCustomer_ID].
  rewrite Hvf, Hvl.
  now destruct (pg.find_by database.Customer_ID (int32 id) (pg.customer db)).
Qed.

Lemma CustomerHandler_get {ci : pg.ColumnInput} {rt : handlers.Runtime}
  (get : http.Request) (db : pg.DB) (id : Z) :
  http.Method get = http.MethodGet ->
  utils.ExtractTrailingID (http.URL_Path get) = Some id ->
  handlers.CustomerHandler get db
  = (match pg.find_by database.Customer_ID (int32 id) (pg.customer db) with
     | None => http.Error "Customer not found" http.StatusNotFound
     | Some c => handlers.writeServerResponse http.StatusOK (handlers.toCustomerResponse c)
     end, db).
Proof.
  intros Hget Hid. unfold handlers.CustomerHandler. rewrite Hid, Hget.
  cbn. unfold pg.GetCustomer. now destruct (pg.find_by _ _ _).
Qed.

(** X13: PATCH /customers/{id} with a body that passes the handler's checks
    and names that VARCHAR(50) stores as [first] and [last]: when no
    customer has the id [int32(id)] the answer is 404 and nothing changes;
    otherwise it is 200 with the id and the new names, the table keeps its
    length, a GET of the same id then answers that body, and a GET of any
    other id answers as it did before the update. *)
Theorem customer_update_outcomes
  (ci : pg.ColumnInput) (rt : handlers.Runtime) (patch : http.Request) (db : pg.DB)
  (id : Z) (req : handlers.updateCustomerRequest) (first last : string) :
  http.Method patch = http.MethodPatch ->
  utils.ExtractTrailingID (http.URL_Path patch) = Some id ->
  handlers.decodeUpdateCustomer (http.Body patch) = Some req ->
  strings.TrimSpace (handlers.updateCustomer_FirstName req) <> "" ->
  strings.TrimSpace (handlers.updateCustomer_LastName req) <> "" ->
  pg.varchar 50 (handlers.updateCustomer_FirstName req) = inl first ->
  pg.varchar 50 (handlers.updateCustomer_LastName req) = inl last ->
  let answer :=
    {| handlers.customerResponse_ID := int32 id;
       handlers.customerResponse_FirstName := first;
       handlers.customerResponse_LastName := last |} in
  let after := snd (handlers.CustomerHandler patch db) in
  (pg.exists_by database.Customer_ID (int32 id) (pg.customer db) = false ->
   handlers.CustomerHandler patch db
   = (http.Error "Customer not found" http.StatusNotFound, db))
  /\ (pg.exists_by database.Customer_ID (int32 id) (pg.customer db) = true ->
      fst (handlers.CustomerHandler patch db)
      = handlers.writeServerResponse http.StatusOK answer
      /\ length (pg.customer after) = length (pg.customer db)
      /\ (forall get id',
            http.Method get = http.MethodGet ->
            utils.ExtractTrailingID (http.URL_Path get) = Some id' ->
            handlers.CustomerHandler get after
            = (if int32 id' =? int32 id
               then handlers.writeServerResponse http.StatusOK answer
               else fst (handlers.CustomerHandler get db),
               after))).
Proof.
  intros Hpatch Hid Hdec Hfirst Hlast Hvf Hvl answer after.
  subst after.
  rewrite (CustomerHandler_patch patch db id req first last) by assumption.
  split.
  - intros Hnone. apply find_by_none_exists in Hnone. now rewrite Hnone.
  - intros Hsome.
    destruct (pg.find_by database.Customer_ID (int32 id) (pg.customer db)) as [old|] eqn:Hfind.
    2:{ apply find_by_none_exists in Hfind. congruence. }
    pose proof (find_by_key _ _ _ _ Hfind) as (_ & Hold).
    cbn [fst snd]. split; [|split].
    + unfold handlers.toCustomerResponse. cbn. now rewrite Hold.
    + cbn [pg.customer pg.set_customer]. apply update_by_length.
    + intros get id' Hget Hid'.
      rewrite !(CustomerHandler_get get _ id') by assumption.
      cbn [pg.customer pg.set_customer fst]. f_equal.
      destruct (Z.eqb_spec (int32 id') (int32 id)) as [E|E].
      * rewrite E, (find_by_update_same _ _ _ old) by (cbn; auto).
        unfold handlers.toCustomerResponse. cbn. now rewrite Hold.
      * now rewrite find_by_update_other by (cbn; auto).
Qed.

Lemma customer_update_outcomes_witness :
  let CQ := @pg.Customers mock.columns in
  let patch := mock.request "PATCH" "/api/v1/customers/1" "Ann|Lee" in
  let after := snd (handlers.CustomerHandler (Q := CQ) (rt := mock.decoders)
                      patch mock.oneInvoice) in
  handlers.CustomerHandler (Q := CQ) (rt := mock.decoders)
    (mock.request "PATCH" "/api/v1/customers/7" "Ann|Lee") mock.oneInvoice
  = (http.Error "Customer not found" 404, mock.oneInvoice)
  /\ handlers.CustomerHandler (Q := CQ) (rt := mock.decoders)
       (mock.request "GET" "/api/v1/customers/1" "") after
     = (handlers.writeServerResponse 200
          {| handlers.customerResponse_ID := 1;
             handlers.customerResponse_FirstName := "Ann";
             handlers.customerResponse_LastName := "Lee" |},
        after).
Proof.
  intros CQ patch after. split.
  - refine (proj1 (customer_update_outcomes mock.columns mock.decoders
                     (mock.request "PATCH" "/api/v1/customers/7" "Ann|Lee")
                     mock.oneInvoice 7 _ "Ann" "Lee" eq_refl eq_refl eq_refl _ _
                     eq_refl eq_refl) eq_refl);
      vm_compute; discriminate.
  - refine (proj2 (proj2 (proj2 (customer_update_outcomes mock.columns mock.decoders
                     patch mock.oneInvoice 1 _ "Ann" "Lee" eq_refl eq_refl eq_refl _ _
                     eq_refl eq_refl) eq_refl))
              (mock.request "GET" "/api/v1/customers/1" "") 1 eq_refl eq_refl);
      vm_compute; discriminate.
Defined.

Section InvoicePatch.

Context {ci : pg.ColumnInput} {rt : handlers.Runtime}.

Variables (patch : http.Request) (db : pg.DB) (pre : list string) (sid : string)
  (id : Z) (req : handlers.updateInvoiceRequest) (number : string) (date : time.Time).

Hypothesis Hpatch : http.Method patch = http.MethodPatch.
Hypothesis Hpre : ~ In "invoices" pre.
Hypothesis Hseg :
  handlers.pathSegments (http.URL_Path patch) = (pre ++ ["invoices"; sid])%list.
Hypothesis Hsid : strconv.Atoi sid = Some id.
Hypothesis Hdec : handlers.decodeUpdateInvoice (http.Body patch) = Some req.
Hypothesis Hnumber : strings.TrimSpace (handlers.updateInvoice_InvoiceNumber req) <> "".
Hypothesis Hdate : time.IsZero (handlers.updateInvoice_InvoiceDate req) = false.
Hypothesis Hcustomer : 0 < handlers.updateInvoice_CustomerID req.
Hypothesis Hvarchar :
  pg.varchar 50 (handlers.updateInvoice_InvoiceNumber req) = inl number.
Hypothesis Htimestamp :
  pg.timestamp (handlers.updateInvoice_InvoiceDate req) = inl date.

Lemma InvoiceHandler_patch :
  handlers.InvoiceHandler patch db
  = match pg.find_by database.Invoice_ID (int32 id) (pg.invoice db) with
    | None => (http.Error "Invoice not found" http.StatusNotFound, db)
    | Some old =>
        if existsb (fun r => (database.Invoice_InvoiceNumber r == number)
                             && negb (database.Invoice_ID r =? int32 id)) (pg.invoice db)
        then (http.Error "Invoice number must be unique" http.StatusConflict, db)
        else if negb (pg.exists_by database.Customer_ID
                        (handlers.updateInvoice_CustomerID req) (pg.customer db))
        then (http.Error "Specified customer does not exist" http.StatusBadRequest, db)
        else
          let row :=
            {| database.Invoice_ID := database.Invoice_ID old;
               database.Invoice_InvoiceNumber := number;
               database.Invoice_InvoiceDate := date;
               database.Invoice_CustomerID := handlers.updateInvoice_CustomerID req;
               database.Invoice_CreatedAt := database.Invoice_CreatedAt old;
               database.Invoice_UpdatedAt := database.Invoice_UpdatedAt old |} in
          (handlers.writeServerResponse http.StatusOK (handlers.toInvoiceResponse row),
           pg.set_invoice db
             (pg.update_by database.Invoice_ID (int32 id) (fun _ => row) (pg.invoice db))
             (pg.invoice_id_seq db))
    end.
Proof.
  rewrite (route_invoice patch pre Hpre sid [] db Hseg) by discriminate.
  rewrite Hsid. unfold handlers.invoiceOnly.
  rewrite Hpatch, Hdec. cbn [String.eqb Ascii.eqb Bool.eqb].
  apply streq_false in Hnumber. rewrite Hnumber, Hdate.
  replace (_ <=? 0) with false by (symmetry; apply Z.leb_gt; lia).
  cbn [database.UpdateInvoice pg.Invoices].
  unfold pg.UpdateInvoice, pg.input.
  cbn [database.UpdateInvoice_InvoiceNumber database.UpdateInvoice_InvoiceDate
         database.UpdateInvoice_CustomerID database.UpdateInvoice_ID].
  rewrite Hvarchar, Htimestamp.
  destruct (pg.find_by database.Invoice_ID (int32 id) (pg.invoice db)) as [old|] eqn:Hfind.
  - destruct (existsb _ (pg.invoice db)); [reflexivity|].
    destruct (pg.exists_by database.Customer_ID _ (pg.customer db)); [|reflexivity].
    assert (Hex : pg.exists_by database.Invoice_ID (int32 id) (pg.invoice db) = true).
    { destruct (pg.exists_by _ _ (pg.invoice db)) eqn:E; [reflexivity|].
      apply find_by_none_exists in E. congruence. }
    rewrite Hex. reflexivity.
  - apply find_by_none_exists in Hfind. rewrite Hfind. reflexivity.
Qed.

End InvoicePatch.

Lemma own_number_free (rows : list database.Invoice) (old : database.Invoice)
  (id : Z) :
  pg.invoice_number_unique rows ->
  In old rows -> database.Invoice_ID old = id ->
  existsb (fun r => (database.Invoice_InvoiceNumber r
                     == database.Invoice_InvoiceNumber old)
                    && negb (database.Invoice_ID r =? id)) rows = false.
Proof.
  intros Huniq Hold Hid. apply not_true_iff_false. intros H.
  apply existsb_exists in H as (r & Hr & H).
  apply andb_true_iff in H as (Hnum & Hne).
  apply streq_true in Hnum. apply negb_true_iff, Z.eqb_neq in Hne.
  unfold pg.invoice_number_unique in Huniq.
  assert (r = old); [|congruence].
  clear Hne Hid. induction rows as [|x rows IH]; [destruct Hr|].
  simpl in Huniq. inversion Huniq as [|? ? Hnotin Hrest]; subst.
  destruct Hr as [->|Hr], Hold as [->|Hold]; auto.
  - exfalso. apply Hnotin. rewrite Hnum. now apply in_map.
  - exfalso. apply Hnotin. rewrite <- Hnum. now apply in_map.
Qed.

(** X14: PATCH /invoices/{id} with a body that passes the handler's checks
    and values the columns accept. No invoice of that id: 404. Another
    invoice has the number: 409, also when the customer does not exist.
    The number is free and the customer does not exist: 400. In these cases
    nothing changes. Otherwise 200 with the new values, and a GET of the id
    then answers that body. On tables that satisfy the constraints an
    invoice's own number never counts as taken. *)
Theorem invoice_update_outcomes
  (ci : pg.ColumnInput) (rt : handlers.Runtime) (patch : http.Request) (db : pg.DB)
  (pre : list string) (sid : string) (id : Z) (req : handlers.updateInvoiceRequest)
  (number : string) (date : time.Time) :
  http.Method patch = http.MethodPatch ->
  ~ In "invoices" pre ->
  handlers.pathSegments (http.URL_Path patch) = (pre ++ ["invoices"; sid])%list ->
  strconv.Atoi sid = Some id ->
  handlers.decodeUpdateInvoice (http.Body patch) = Some req ->
  strings.TrimSpace (handlers.updateInvoice_InvoiceNumber req) <> "" ->
  time.IsZero (handlers.updateInvoice_InvoiceDate req) = false ->
  0 < handlers.updateInvoice_CustomerID req ->
  pg.varchar 50 (handlers.updateInvoice_InvoiceNumber req) = inl number ->
  pg.timestamp (handlers.updateInvoice_InvoiceDate req) = inl date ->
  let found := pg.exists_by database.Invoice_ID (int32 id) (pg.invoice db) in
  let taken :=
    existsb (fun r => (database.Invoice_InvoiceNumber r == number)
                      && negb (database.Invoice_ID r =? int32 id)) (pg.invoice db) in
  let known :=
    pg.exists_by database.Customer_ID (handlers.updateInvoice_CustomerID req)
      (pg.customer db) in
  let answer :=
    {| handlers.invoiceResponse_ID := int32 id;
       handlers.invoiceResponse_InvoiceNumber := number;
       handlers.invoiceResponse_InvoiceDate := date;
       handlers.invoiceResponse_CustomerID := handlers.updateInvoice_CustomerID req |} in
  let after := snd (handlers.InvoiceHandler patch db) in
  (found = false ->
   handlers.InvoiceHandler patch db
   = (http.Error "Invoice not found" http.StatusNotFound, db))
  /\ (found = true -> taken = true ->
      handlers.InvoiceHandler patch db
      = (http.Error "Invoice number must be unique" http.StatusConflict, db))
  /\ (found = true -> taken = false -> known = false ->
      handlers.InvoiceHandler patch db
      = (http.Error "Specified customer does not exist" http.StatusBadRequest, db))
  /\ (found = true -> taken = false -> known = true ->
      fst (handlers.InvoiceHandler patch db)
      = handlers.writeServerResponse http.StatusOK answer
      /\ forall get,
           http.Method get = http.MethodGet ->
           http.URL_Path get = http.URL_Path patch ->
           handlers.InvoiceHandler get after
           = (handlers.writeServerResponse http.StatusOK answer, after))
  /\ (pg.valid db ->
      forall old, In old (pg.invoice db) -> database.Invoice_ID old = int32 id ->
                  database.Invoice_InvoiceNumber old = number -> taken = false).
Proof.
  intros Hpatch Hpre Hseg Hsid Hdec Hnumber Hdate Hcustomer Hvarchar Htimestamp
    found taken known answer after.
  subst after.
  rewrite (InvoiceHandler_patch patch db pre sid id req number date) by assumption.
  fold taken known.
  destruct (pg.find_by database.Invoice_ID (int32 id) (pg.invoice db)) as [old|] eqn:Hfind.
  - assert (Hfound : found = true).
    { subst found. destruct (pg.exists_by _ _ (pg.invoice db)) eqn:E; [reflexivity|].
      apply find_by_none_exists in E. congruence. }
    pose proof (find_by_key _ _ _ _ Hfind) as (_ & Hold).
    split; [congruence|]. split; [intros _ ->; reflexivity|].
    split; [intros _ -> ->; reflexivity|]. split.
    + intros _ -> ->. cbn [negb fst snd]. split.
      * unfold handlers.toInvoiceResponse. cbn. now rewrite Hold.
      * intros get Hget Hpath. rewrite <- Hpath in Hseg.
        etransitivity.
        { apply (GetInvoice_row get _ pre sid id); auto.
          cbn [pg.invoice pg.set_invoice].
          apply (find_by_update_same _ _ _ old); cbn; auto. }
        unfold answer, handlers.toInvoiceResponse. cbn. now rewrite Hold.
    + intros Hv old' Hin Hid <-. apply own_number_free; auto. apply Hv.
  - assert (Hfound : found = false) by (now apply find_by_none_exists).
    split; [reflexivity|]. repeat split; try congruence.
    intros Hv old' Hin Hid <-. apply own_number_free; auto. apply Hv.
Qed.

Lemma invoice_update_outcomes_witness :
  let IQ := @pg.Invoices mock.columns in
  handlers.InvoiceHandler (Q := IQ) (rt := mock.decoders)
    (mock.request "PATCH" "/api/v1/invoices/7" "INV-9|5|1") mock.oneInvoice
  = (http.Error "Invoice not found" 404, mock.oneInvoice)
  /\ handlers.InvoiceHandler (Q := IQ) (rt := mock.decoders)
       (mock.request "PATCH" "/api/v1/invoices/1" "INV-1|5|9") mock.oneInvoice
     = (http.Error "Specified customer does not exist" 400, mock.oneInvoice)
  /\ fst (handlers.InvoiceHandler (Q := IQ) (rt := mock.decoders)
            (mock.request "PATCH" "/api/v1/invoices/1" "INV-1|5|1") mock.oneInvoice)
     = handlers.writeServerResponse 200
         {| handlers.invoiceResponse_ID := 1;
            handlers.invoiceResponse_InvoiceNumber := "INV-1";
            handlers.invoiceResponse_InvoiceDate := 5;
            handlers.invoiceResponse_CustomerID := 1 |}.
Proof.
  intros IQ.
  assert (Hpre : ~ In "invoices" ["api"; "v1"]).
  { simpl. intros [H|[H|[]]]; discriminate H. }
  split; [|split].
  - refine (proj1 (invoice_update_outcomes mock.columns mock.decoders
                     (mock.request "PATCH" "/api/v1/invoices/7" "INV-9|5|1")
                     mock.oneInvoice ["api"; "v1"] "7" 7 _ "INV-9" 5
                     eq_refl Hpre eq_refl eq_refl eq_refl _ eq_refl _ eq_refl eq_refl)
              eq_refl);
      vm_compute; (discriminate || reflexivity).
  - refine (proj1 (proj2 (proj2 (invoice_update_outcomes mock.columns mock.decoders
                     (mock.request "PATCH" "/api/v1/invoices/1" "INV-1|5|9")
                     mock.oneInvoice ["api"; "v1"] "1" 1 _ "INV-1" 5
                     eq_refl Hpre eq_refl eq_refl eq_refl _ eq_refl _ eq_refl eq_refl)))
              eq_refl eq_refl eq_refl);
      vm_compute; (discriminate || reflexivity).
  - refine (proj1 (proj1 (proj2 (proj2 (proj2
              (invoice_update_outcomes mock.columns mock.decoders
                 (mock.request "PATCH" "/api/v1/invoices/1" "INV-1|5|1")
                 mock.oneInvoice ["api"; "v1"] "1" 1 _ "INV-1" 5
                 eq_refl Hpre eq_refl eq_refl eq_refl _ eq_refl _ eq_refl eq_refl))))
              eq_refl eq_refl eq_refl));
      vm_compute; (discriminate || reflexivity).
Defined.

(** ** A new line of an invoice *)

Lemma find_existsb {A} (f : A -> bool) (l : list A) :
  existsb f l = false -> find f l = None.
Proof.
  induction l as [|x l IH]; simpl; [reflexivity|].
  destruct (f x); simpl; [discriminate|exact IH].
Qed.

(** X15: POST /invoices/{id}/products/{product_id} with a positive count
    when invoice_item has no row for the pair and an id is left in the
    sequence. The invoice does not exist: 404 naming the invoice, also when
    the product does not exist either. The invoice exists and the product
    does not: 404 naming the product. In both cases no row is written and
    the id drawn is spent. Both exist: 201 with a new last row that has the
    next id, the pair and the count. *)
Theorem line_insert_outcomes
  (ci : pg.ColumnInput) (rt : handlers.Runtime) (r : http.Request) (db : pg.DB)
  (pre : list string) (sid spid : string) (i p : Z)
  (params : handlers.createInvoiceItemRequest) :
  http.Method r = http.MethodPost ->
  ~ In "invoices" pre ->
  handlers.pathSegments (http.URL_Path r)
  = (pre ++ ["invoices"; sid; "products"; spid])%list ->
  strconv.Atoi sid = Some i ->
  strconv.Atoi spid = Some p ->
  handlers.decodeCreateInvoiceItem (http.Body r) = Some params ->
  0 < handlers.createInvoiceItem_Count params ->
  pg.invoice_item_id_seq db < 2147483647 ->
  existsb (pg.samePair (int32 i) (int32 p)) (pg.invoice_item db) = false ->
  let next := pg.invoice_item_id_seq db + 1 in
  let spent := pg.set_invoice_item db (pg.invoice_item db) next in
  let invoice_exists := pg.exists_by database.Invoice_ID (int32 i) (pg.invoice db) in
  let product_exists := pg.exists_by pg.product_id (int32 p) (pg.product db) in
  let row :=
    {| database.InvoiceItem_ID := next;
       database.InvoiceItem_InvoiceID := int32 i;
       database.InvoiceItem_ProductID := int32 p;
       database.InvoiceItem_Count := handlers.createInvoiceItem_Count params;
       database.InvoiceItem_CreatedAt := pg.clock db;
       database.InvoiceItem_UpdatedAt := pg.clock db |} in
  (invoice_exists = false ->
   handlers.InvoiceHandler r db
   = (http.Error "The provided invoice does not exist" http.StatusNotFound, spent))
  /\ (invoice_exists = true -> product_exists = false ->
      handlers.InvoiceHandler r db
      = (http.Error "The provided product does not exist" http.StatusNotFound, spent))
  /\ (invoice_exists = true -> product_exists = true ->
      handlers.InvoiceHandler r db
      = (handlers.writeServerResponse http.StatusCreated
           {| handlers.invoiceItemResponse_ID := next;
              handlers.invoiceItemResponse_InvoiceID := int32 i;
              handlers.invoiceItemResponse_ProductID := int32 p;
              handlers.invoiceItemResponse_Count :=
                handlers.createInvoiceItem_Count params |},
         pg.set_invoice_item db (pg.invoice_item db ++ [row]) next)).
Proof.
  intros Hpost Hpre Hseg Hi Hp Hdec Hc Hseq Habsent next spent invoice_exists
    product_exists row.
  rewrite (add_product_call r db pre sid spid i p params) by assumption.
  cbn [database.AddProductToInvoice pg.Invoices].
  rewrite (AddProductToInvoice_cases (int32 i) (int32 p) _ db Hseq Hc).
  rewrite (find_existsb _ _ Habsent).
  fold invoice_exists product_exists next spent.
  split; [|split].
  - intros ->. reflexivity.
  - intros -> ->. reflexivity.
  - intros -> ->. reflexivity.
Qed.

Lemma line_insert_outcomes_witness :
  let IQ := @pg.Invoices mock.columns in
  handlers.InvoiceHandler (Q := IQ) (rt := mock.decoders)
    (mock.request "POST" "/api/v1/invoices/2/products/9" "5") mock.oneProduct
  = (http.Error "The provided invoice does not exist" 404,
     pg.set_invoice_item mock.oneProduct [] 2)
  /\ handlers.InvoiceHandler (Q := IQ) (rt := mock.decoders)
       (mock.request "POST" "/api/v1/invoices/1/products/9" "5") mock.oneProduct
     = (http.Error "The provided product does not exist" 404,
        pg.set_invoice_item mock.oneProduct [] 2)
  /\ handlers.InvoiceHandler (Q := IQ) (rt := mock.decoders)
       (mock.request "POST" "/api/v1/invoices/1/products/1" "5") mock.oneProduct
     = (handlers.writeServerResponse 201
          {| handlers.invoiceItemResponse_ID := 2;
             handlers.invoiceItemResponse_InvoiceID := 1;
             handlers.invoiceItemResponse_ProductID := 1;
             handlers.invoiceItemResponse_Count := 5 |},
        mock.oneLine).
Proof.
  intros IQ.
  assert (Hpre : ~ In "invoices" ["api"; "v1"]).
  { simpl. intros [H|[H|[]]]; discriminate H. }
  split; [|split].
  - exact (proj1 (line_insert_outcomes mock.columns mock.decoders
                    (mock.request "POST" "/api/v1/invoices/2/products/9" "5")
                    mock.oneProduct ["api"; "v1"] "2" "9" 2 9 _
                    eq_refl Hpre eq_refl eq_refl eq_refl eq_refl eq_refl eq_refl eq_refl)
             eq_refl).
  - exact (proj1 (proj2 (line_insert_outcomes mock.columns mock.decoders
                    (mock.request "POST" "/api/v1/invoices/1/products/9" "5")
                    mock.oneProduct ["api"; "v1"] "1" "9" 1 9 _
                    eq_refl Hpre eq_refl eq_refl eq_refl eq_refl eq_refl eq_refl eq_refl))
             eq_refl eq_refl).
  - exact (proj2 (proj2 (line_insert_outcomes mock.columns mock.decoders
                    (mock.request "POST" "/api/v1/invoices/1/products/1" "5")
                    mock.oneProduct ["api"; "v1"] "1" "1" 1 1 _
                    eq_refl Hpre eq_refl eq_refl eq_refl eq_refl eq_refl eq_refl eq_refl))
             eq_refl eq_refl).
Defined.

(** ** Removing a line of an invoice *)

Lemma existsb_filter_negb {A} (f : A -> bool) (l : list A) :
  existsb f (filter (fun x => negb (f x)) l) = false.
Proof.
  induction l as [|x l IH]; simpl; [reflexivity|].
  destruct (f x) eqn:E; simpl; [exact IH|]. now rewrite E.
Qed.

(** X16: DELETE /invoices/{id}/products/{product_id}. No row of
    invoice_item has the pair: 404 and the four tables keep their rows. A
    row has it: 204, invoice_item loses exactly the rows of the pair and
    keeps the others in their order, the other three tables keep their
    rows, and the same request repeated answers 404. *)
Theorem line_remove_outcomes
  (ci : pg.ColumnInput) (rt : handlers.Runtime) (r : http.Request) (db : pg.DB)
  (pre : list string) (sid spid : string) (i p : Z) :
  http.Method r = http.MethodDelete ->
  ~ In "invoices" pre ->
  handlers.pathSegments (http.URL_Path r)
  = (pre ++ ["invoices"; sid; "products"; spid])%list ->
  strconv.Atoi sid = Some i ->
  strconv.Atoi spid = Some p ->
  let same := pg.samePair (int32 i) (int32 p) in
  let after := snd (handlers.InvoiceHandler r db) in
  let not_found :=
    http.Error "Provided invoice doesn't contain the specified product"
      http.StatusNotFound in
  (existsb same (pg.invoice_item db) = false ->
   fst (handlers.InvoiceHandler r db) = not_found /\ pg.tables after = pg.tables db)
  /\ (existsb same (pg.invoice_item db) = true ->
      fst (handlers.InvoiceHandler r db) = http.WriteHeader http.StatusNoContent
      /\ pg.tables after
         = (pg.customer db, pg.product db, pg.invoice db,
            filter (fun it => negb (same it)) (pg.invoice_item db))
      /\ fst (handlers.InvoiceHandler r after) = not_found).
Proof.
  intros Hdel Hpre Hseg Hi Hp same after not_found.
  assert (Hroute : forall s, handlers.InvoiceHandler r s
                             = handlers.deleteInvoiceProduct i p s).
  { intros s. rewrite (route_item r pre Hpre sid spid s Hseg), Hi, Hp, Hdel.
    reflexivity. }
  subst after. rewrite !Hroute. unfold handlers.deleteInvoiceProduct.
  cbn [database.DeleteProductFromInvoice pg.Invoices].
  set (arg := {| database.DeleteProduct_InvoiceID := int32 i;
                 database.DeleteProduct_ProductID := int32 p |}).
  assert (Hnone : forall d, existsb same (pg.invoice_item d) = false ->
            exists d', pg.DeleteProductFromInvoice arg d
                       = (("invoice_item_not_found", None), d')
                       /\ pg.tables d' = pg.tables d).
  { intros d Hd.
    destruct (DeleteProductFromInvoice_cases arg d) as [(H & _ & Ht)|(_ & H)].
    - destruct (pg.DeleteProductFromInvoice arg d) as [res d'].
      cbn [fst snd] in H, Ht. subst res. now exists d'.
    - cbn in H. fold same in H. congruence. }
  split.
  - intros Habsent. destruct (Hnone db Habsent) as (d' & -> & Ht). now split.
  - intros Hpresent.
    destruct (DeleteProductFromInvoice_cases arg db) as [(_ & H & _)|(H & _)].
    { cbn in H. fold same in H. congruence. }
    rewrite H. cbn [fst snd String.eqb Ascii.eqb Bool.eqb].
    split; [reflexivity|split; [reflexivity|]].
    match goal with |- context [pg.DeleteProductFromInvoice arg ?d] =>
      destruct (Hnone d) as (d' & -> & _); [|reflexivity] end.
    cbn [pg.invoice_item pg.set_invoice_item]. apply existsb_filter_negb.
Qed.

Lemma line_remove_outcomes_witness :
  let IQ := @pg.Invoices mock.columns in
  let r := mock.request "DELETE" "/api/v1/invoices/1/products/1" "" in
  fst (handlers.InvoiceHandler (Q := IQ) (rt := mock.decoders) r mock.oneProduct)
  = http.Error "Provided invoice doesn't contain the specified product" 404
  /\ fst (handlers.InvoiceHandler (Q := IQ) (rt := mock.decoders) r mock.oneLine)
     = http.WriteHeader 204
  /\ pg.tables (snd (handlers.InvoiceHandler (Q := IQ) (rt := mock.decoders) r
                       mock.oneLine))
     = pg.tables mock.oneProduct.
Proof.
  intros IQ r.
  assert (Hpre : ~ In "invoices" ["api"; "v1"]).
  { simpl. intros [H|[H|[]]]; discriminate H. }
  pose proof (line_remove_outcomes mock.columns mock.decoders r mock.oneProduct
                ["api"; "v1"] "1" "1" 1 1 eq_refl Hpre eq_refl eq_refl eq_refl) as H1.
  pose proof (line_remove_outcomes mock.columns mock.decoders r mock.oneLine
                ["api"; "v1"] "1" "1" 1 1 eq_refl Hpre eq_refl eq_refl eq_refl) as H2.
  split; [exact (proj1 (proj1 H1 eq_refl))|].
  split; [exact (proj1 (proj2 H2 eq_refl))|].
  exact (proj1 (proj2 (proj2 H2 eq_refl))).
Defined.

(** ** The lines of an invoice *)

Lemma filter_key_unique {A} (key : A -> Z) (l : list A) (x : A) :
  NoDup (map key l) -> In x l -> filter (fun y => key x =? key y) l = [x].
Proof.
  induction l as [|y l IH]; simpl; intros Hd Hin; [contradiction|].
  inversion Hd as [|? ? Hy Hd']; subst.
  destruct Hin as [->|Hin].
  - rewrite Z.eqb_refl. f_equal. apply filter_nil. intros z Hz.
    apply Z.eqb_neq. intros E. apply Hy. rewrite E. now apply in_map.
  - destruct (Z.eqb_spec (key x) (key y)) as [E|_].
    + exfalso. apply Hy. rewrite <- E. now apply in_map.
    + now apply IH.
Qed.







Lemma limit_length {A} (n : nat) (key : A -> Z) (l : list A) :
  length (pg.limit n (pg.order_by key l)) = Nat.min n (length l).
Proof.
  unfold pg.limit. rewrite length_firstn.
  now rewrite (Permutation_length (order_by_perm key l)).
Qed.

Lemma key_inj {A} (key : A -> Z) (l : list A) (x y : A) :
  NoDup (map key l) -> In x l -> In y l -> key x = key y -> x = y.
Proof.
  intros Hd Hx Hy E.
  pose proof (filter_key_unique key l x Hd Hx) as Hf.
  assert (Hin : In y (filter (fun z => key x =? key z) l)).
  { apply filter_In. split; [exact Hy|]. now apply Z.eqb_eq. }
  rewrite Hf in Hin. destruct Hin as [<-|[]]. reflexivity.
Qed.



(** ** Methods that a path does not support *)

(** X18: whatever the store, a method that a path does not support is
    answered with 405 "Method not allowed" and the store is left alone: on
    the three collections anything but GET and POST; on /products/{id},
    /customers/{id} and /invoices/{id} anything but GET, PATCH and DELETE;
    on /invoices/{id}/products anything but GET; on
    /invoices/{id}/products/{product_id} anything but POST and DELETE. On
    /products/{id} and /customers/{id} the id is read first: a last segment
    that is no number is answered with 400 whatever the method. *)
Theorem method_not_allowed
  (S : Type) (PQ : database.ProductQueries S) (CQ : database.CustomerQueries S)
  (IQ : database.InvoiceQueries S) (rt : handlers.Runtime)
  (now : time.Time) (r : http.Request) (s : S) :
  let refused := (http.Error config.MethodNotAllowedMsg http.StatusMethodNotAllowed, s) in
  (http.Method r <> http.MethodGet -> http.Method r <> http.MethodPost ->
   handlers.ProductsHandler r s = refused
   /\ handlers.CustomersHandler r s = refused
   /\ handlers.InvoicesHandler now r s = refused)
  /\ (utils.ExtractTrailingID (http.URL_Path r) = None ->
      handlers.ProductHandler r s
      = (http.Error "Invalid product ID" http.StatusBadRequest, s)
      /\ handlers.CustomerHandler r s
         = (http.Error "Invalid customer ID" http.StatusBadRequest, s))
  /\ (http.Method r <> http.MethodGet -> http.Method r <> http.MethodPatch ->
      http.Method r <> http.MethodDelete ->
      (forall id, utils.ExtractTrailingID (http.URL_Path r) = Some id ->
                  handlers.ProductHandler r s = refused
                  /\ handlers.CustomerHandler r s = refused)
      /\ (forall pre sid id,
            ~ In "invoices" pre ->
            handlers.pathSegments (http.URL_Path r) = (pre ++ ["invoices"; sid])%list ->
            strconv.Atoi sid = Some id ->
            handlers.InvoiceHandler r s = refused))
  /\ (http.Method r <> http.MethodGet ->
      forall pre sid id,
        ~ In "invoices" pre ->
        handlers.pathSegments (http.URL_Path r)
        = (pre ++ ["invoices"; sid; "products"])%list ->
        strconv.Atoi sid = Some id ->
        handlers.InvoiceHandler r s = refused)
  /\ (http.Method r <> http.MethodPost -> http.Method r <> http.MethodDelete ->
      forall pre sid spid id pid,
        ~ In "invoices" pre ->
        handlers.pathSegments (http.URL_Path r)
        = (pre ++ ["invoices"; sid; "products"; spid])%list ->
        strconv.Atoi sid = Some id ->
        strconv.Atoi spid = Some pid ->
        handlers.InvoiceHandler r s = refused).
Proof.
  intros refused. split; [|split; [|split; [|split]]].
  - intros Hget Hpost. apply streq_false in Hget, Hpost.
    unfold handlers.ProductsHandler, handlers.CustomersHandler, handlers.InvoicesHandler.
    rewrite Hget, Hpost. auto.
  - intros Hid. unfold handlers.ProductHandler, handlers.CustomerHandler.
    rewrite Hid. auto.
  - intros Hget Hpatch Hdel. apply streq_false in Hget, Hpatch, Hdel. split.
    + intros id Hid. unfold handlers.ProductHandler, handlers.CustomerHandler.
      rewrite Hid, Hget, Hpatch, Hdel. auto.
    + intros pre sid id Hpre Hseg Hid.
      rewrite (route_invoice r pre Hpre sid [] s Hseg), Hid by discriminate.
      unfold handlers.invoiceOnly. now rewrite Hget, Hpatch, Hdel.
  - intros Hget pre sid id Hpre Hseg Hid. apply streq_false in Hget.
    now rewrite (route_list r pre Hpre sid s Hseg), Hid, Hget.
  - intros Hpost Hdel pre sid spid id pid Hpre Hseg Hid Hpid.
    apply streq_false in Hpost, Hdel.
    now rewrite (route_item r pre Hpre sid spid s Hseg), Hid, Hpid, Hdel, Hpost.
Qed.

Lemma method_not_allowed_witness :
  let PQ := mock.Products NilSlice pg.zeroProduct "success" None in
  let IQ := mock.Invoices NilSlice pg.zeroInvoice NilSlice pg.zeroInvoiceItem
              "success" None in
  handlers.ProductsHandler (Q := PQ) (rt := mock.decoders)
    (mock.request "DELETE" "/api/v1/products" "") 0%nat
  = (http.Error "Method not allowed" 405, 0%nat)
  /\ handlers.ProductHandler (Q := PQ) (rt := mock.decoders)
       (mock.request "PUT" "/api/v1/products/x" "") 0%nat
     = (http.Error "Invalid product ID" 400, 0%nat)
  /\ handlers.InvoiceHandler (Q := IQ) (rt := mock.decoders)
       (mock.request "PATCH" "/api/v1/invoices/1/products/2" "5") 0%nat
     = (http.Error "Method not allowed" 405, 0%nat).
Proof.
  intros PQ IQ.
  assert (Hpre : ~ In "invoices" ["api"; "v1"]).
  { simpl. intros [H|[H|[]]]; discriminate H. }
  pose (CQ := mock.Customers NilSlice pg.zeroCustomer "success" None).
  split; [|split].
  - refine (proj1 (proj1 (method_not_allowed nat PQ CQ IQ mock.decoders 0
                            (mock.request "DELETE" "/api/v1/products" "") 0%nat) _ _));
      discriminate.
  - exact (proj1 (proj1 (proj2 (method_not_allowed nat PQ CQ IQ mock.decoders 0
                                  (mock.request "PUT" "/api/v1/products/x" "") 0%nat))
                   eq_refl)).
  - refine (proj2 (proj2 (proj2 (proj2
              (method_not_allowed nat PQ CQ IQ mock.decoders 0
                 (mock.request "PATCH" "/api/v1/invoices/1/products/2" "5") 0%nat))))
              _ _ ["api"; "v1"] "1" "2" 1 2 Hpre eq_refl eq_refl eq_refl);
      discriminate.
Defined.

(** ** Blank names *)

Lemma trimLeft_blank (s : string) :
  forallb strings.asciiSpace (list_ascii_of_string s) = true ->
  strings.trimLeft s = "".
Proof.
  induction s as [|c s IH]; simpl; [reflexivity|].
  intros H. apply andb_true_iff in H as (Hc & Hs). rewrite Hc. now apply IH.
Qed.

Lemma TrimSpace_blank (s : string) :
  forallb strings.asciiSpace (list_ascii_of_string s) = true ->
  strings.TrimSpace s = "".
Proof. intros H. unfold strings.TrimSpace. now rewrite (trimLeft_blank s H). Qed.

(** X19: whatever the store, a customer whose first name is empty or made
    of blanks, tabs and line breaks only is refused with 400 "First name is
    required" by POST /customers and by PATCH /customers/{id}, before the
    last name is looked at and without a call of the store; so is a product
    with such a name, with "Product name is required", by POST /products and
    PATCH /products/{id}. *)
Theorem blank_names_refused
  (S : Type) (PQ : database.ProductQueries S) (CQ : database.CustomerQueries S)
  (rt : handlers.Runtime) (r : http.Request) (s : S) :
  let blank (name : string) :=
    forallb strings.asciiSpace (list_ascii_of_string name) = true in
  (forall customer,
      http.Method r = http.MethodPost ->
      handlers.decodeCreateCustomer (http.Body r) = Some customer ->
      blank (handlers.createCustomer_FirstName customer) ->
      handlers.CustomersHandler r s
      = (http.Error "First name is required" http.StatusBadRequest, s))
  /\ (forall customer id,
      http.Method r = http.MethodPatch ->
      utils.ExtractTrailingID (http.URL_Path r) = Some id ->
      handlers.decodeUpdateCustomer (http.Body r) = Some customer ->
      blank (handlers.updateCustomer_FirstName customer) ->
      handlers.CustomerHandler r s
      = (http.Error "First name is required" http.StatusBadRequest, s))
  /\ (forall product,
      http.Method r = http.MethodPost ->
      handlers.decodeCreateProduct (http.Body r) = Some product ->
      blank (handlers.createProduct_Name product) ->
      handlers.ProductsHandler r s
      = (http.Error "Product name is required" http.StatusBadRequest, s))
  /\ (forall product id,
      http.Method r = http.MethodPatch ->
      utils.ExtractTrailingID (http.URL_Path r) = Some id ->
      handlers.decodeUpdateProduct (http.Body r) = Some product ->
      blank (handlers.updateProduct_Name product) ->
      handlers.ProductHandler r s
      = (http.Error "Product name is required" http.StatusBadRequest, s)).
Proof.
  intros blank. split; [|split; [|split]].
  - intros customer Hpost Hdec Hblank. unfold handlers.CustomersHandler.
    rewrite Hpost, Hdec, (TrimSpace_blank _ Hblank). reflexivity.
  - intros customer id Hpatch Hid Hdec Hblank. unfold handlers.CustomerHandler.
    rewrite Hid, Hpatch, Hdec, (TrimSpace_blank _ Hblank). reflexivity.
  - intros product Hpost Hdec Hblank. unfold handlers.ProductsHandler.
    rewrite Hpost, Hdec. unfold handlers.createProductInvalid.
    rewrite (TrimSpace_blank _ Hblank). reflexivity.
  - intros product id Hpatch Hid Hdec Hblank. unfold handlers.ProductHandler.
    rewrite Hid, Hpatch, Hdec. unfold handlers.updateProductInvalid.
    rewrite (TrimSpace_blank _ Hblank). reflexivity.
Qed.

Lemma blank_names_refused_witness :
  let PQ := mock.Products NilSlice pg.zeroProduct "success" None in
  let CQ := mock.Customers NilSlice pg.zeroCustomer "success" None in
  handlers.CustomersHandler (Q := CQ) (rt := mock.decoders)
    (mock.request "POST" "/api/v1/customers" "  |") 0%nat
  = (http.Error "First name is required" 400, 0%nat)
  /\ handlers.ProductHandler (Q := PQ) (rt := mock.decoders)
       (mock.request "PATCH" "/api/v1/products/3" " |d|5|1") 0%nat
     = (http.Error "Product name is required" 400, 0%nat).
Proof.
  intros PQ CQ. split.
  - exact (proj1 (blank_names_refused nat PQ CQ mock.decoders
                    (mock.request "POST" "/api/v1/customers" "  |") 0%nat)
             _ eq_refl eq_refl eq_refl).
  - exact (proj2 (proj2 (proj2 (blank_names_refused nat PQ CQ mock.decoders
                    (mock.request "PATCH" "/api/v1/products/3" " |d|5|1") 0%nat)))
             _ 3 eq_refl eq_refl eq_refl eq_refl).
Defined.

(** ** What a list leaves out *)

Lemma sorted_app {A} (R : A -> A -> Prop) (l1 l2 : list A) :
  StronglySorted R (l1 ++ l2) -> forall x y, In x l1 -> In y l2 -> R x y.
Proof.
  induction l1 as [|a l1 IH]; simpl; intros Hs x y Hx Hy; [contradiction|].
  inversion Hs as [|? ? Hs' Ha]; subst. destruct Hx as [<-|Hx].
  - rewrite Forall_forall in Ha. apply Ha, in_or_app. now right.
  - now apply IH.
Qed.

Lemma order_by_limit_lowest {A} (key : A -> Z) (n : nat) (l : list A) :
  let rows := pg.limit n (pg.order_by key l) in
  forall x y, In x rows -> In y l -> ~ In y rows -> key x <= key y.
Proof.
  intros rows x y Hx Hy Hnot. subst rows. unfold pg.limit in *.
  pose proof (order_by_sorted key l) as Hs.
  rewrite <- (firstn_skipn n (pg.order_by key l)) in Hs.
  apply (sorted_app _ _ _ Hs x y Hx).
  assert (Hin : In y (pg.order_by key l)).
  { eapply Permutation_in; [symmetry; apply order_by_perm|exact Hy]. }
  rewrite <- (firstn_skipn n (pg.order_by key l)) in Hin.
  apply in_app_or in Hin as [Hin|Hin]; [contradiction|exact Hin].
Qed.

(** X20: GET /products, GET /customers and GET /invoices list
    min(100, rows of the table) rows; a table of 100 rows or fewer is
    listed whole, each row once; of a larger table the rows listed are
    those with the lowest ids: no row left out has an id below that of a
    row listed. *)
Theorem lists_lowest_ids
  (ci : pg.ColumnInput) (rt : handlers.Runtime) (now : time.Time)
  (db : pg.DB) (path body : string) :
  let r := {| http.Method := http.MethodGet; http.URL_Path := path; http.Body := body |} in
  (exists rows,
      handlers.ProductsHandler r db
      = (handlers.writeServerResponse http.StatusOK
           (Slice (map handlers.toProductResponse (map pg.scanProduct rows))), db)
      /\ length rows = Nat.min 100 (length (pg.product db))
      /\ ((length (pg.product db) <= 100)%nat -> Permutation rows (pg.product db))
      /\ (forall x y, In x rows -> In y (pg.product db) -> ~ In y rows ->
                      pg.product_id x <= pg.product_id y))
  /\ (exists rows,
      handlers.CustomersHandler r db
      = (handlers.writeServerResponse http.StatusOK
           (Slice (map handlers.toCustomerResponse rows)), db)
      /\ length rows = Nat.min 100 (length (pg.customer db))
      /\ ((length (pg.customer db) <= 100)%nat -> Permutation rows (pg.customer db))
      /\ (forall x y, In x rows -> In y (pg.customer db) -> ~ In y rows ->
                      database.Customer_ID x <= database.Customer_ID y))
  /\ (exists rows,
      handlers.InvoicesHandler now r db
      = (handlers.writeServerResponse http.StatusOK
           (Slice (map handlers.toInvoiceResponse rows)), db)
      /\ length rows = Nat.min 100 (length (pg.invoice db))
      /\ ((length (pg.invoice db) <= 100)%nat -> Permutation rows (pg.invoice db))
      /\ (forall x y, In x rows -> In y (pg.invoice db) -> ~ In y rows ->
                      database.Invoice_ID x <= database.Invoice_ID y)).
Proof.
  intros r. split; [|split].
  - exists (pg.limit 100 (pg.order_by pg.product_id (pg.product db))).
    destruct (order_by_limit pg.product_id 100 (pg.product db)) as (_ & _ & _ & Hperm).
    split; [|split; [apply limit_length|split; [exact Hperm|]]].
    + unfold handlers.ProductsHandler. cbn.
      now rewrite collect_map, elems_many.
    + apply order_by_limit_lowest.
  - exists (pg.limit 100 (pg.order_by database.Customer_ID (pg.customer db))).
    destruct (order_by_limit database.Customer_ID 100 (pg.customer db))
      as (_ & _ & _ & Hperm).
    split; [|split; [apply limit_length|split; [exact Hperm|]]].
    + unfold handlers.CustomersHandler. cbn.
      now rewrite collect_map, elems_many.
    + apply order_by_limit_lowest.
  - exists (pg.limit 100 (pg.order_by database.Invoice_ID (pg.invoice db))).
    destruct (order_by_limit database.Invoice_ID 100 (pg.invoice db))
      as (_ & _ & _ & Hperm).
    split; [|split; [apply limit_length|split; [exact Hperm|]]].
    + unfold handlers.InvoicesHandler. cbn.
      now rewrite collect_map, elems_many.
    + apply order_by_limit_lowest.
Qed.

(** ** Ids are not handed out twice *)

Section Sequences.

Context {ci : pg.ColumnInput} {rt : handlers.Runtime}.

Ltac monotone :=
  unfold pg.sequences_le, pg.input, pg.fail;
  repeat match goal with
    | |- context [match ?x with _ => _ end] => destruct x eqn:?
    end;
  cbn;
  repeat match goal with
    | H : pg.nextval _ = Some _ |- _ => apply nextval_some in H as (-> & ?)
    end;
  repeat split; lia.

Lemma run_seqs (w : pg.Write) (db : pg.DB) : pg.sequences_le db (pg.run w db).
Proof.
  destruct w; cbn [pg.run].
  - unfold pg.CreateProduct. monotone.
  - unfold pg.UpdateProduct. monotone.
  - unfold pg.DeleteProduct. monotone.
  - unfold pg.CreateCustomer. monotone.
  - unfold pg.UpdateCustomer. monotone.
  - unfold pg.DeleteCustomer. monotone.
  - unfold pg.CreateInvoice. monotone.
  - unfold pg.UpdateInvoice. monotone.
  - unfold pg.DeleteInvoice. monotone.
  - unfold pg.AddProductToInvoice. monotone.
  - unfold pg.DeleteProductFromInvoice. monotone.
Qed.

Lemma sequences_le_refl (db : pg.DB) : pg.sequences_le db db.
Proof. unfold pg.sequences_le. lia. Qed.

Lemma sequences_le_trans (a b c : pg.DB) :
  pg.sequences_le a b -> pg.sequences_le b c -> pg.sequences_le a c.
Proof. unfold pg.sequences_le. lia. Qed.

Lemma served_seqs (steps : list (main.HandlerFunc * http.Request)) (db : pg.DB) :
  Forall (fun step => main.registered (fst step)) steps ->
  pg.sequences_le db (main.served steps db).
Proof.
  unfold main.served. revert db.
  induction steps as [|[h r] steps IH]; intros db Hsteps; [apply sequences_le_refl|].
  inversion Hsteps as [|? ? Hh Hrest]; subst. cbn [fold_left fst snd].
  eapply sequences_le_trans; [|apply IH, Hrest].
  destruct (registered_well_behaved h r db Hh) as ([E|(w & E)] & _); rewrite E.
  - apply sequences_le_refl.
  - apply run_seqs.
Qed.

End Sequences.

(** X21: no sequence of requests to registered handlers sets a sequence
    back, and on tables that satisfy the constraints every id that was in a
    table before the requests is at most the value of its sequence after
    them. A row created later takes the next value: the id of a deleted row
    is not given to another row. *)
Theorem ids_are_not_reused
  (ci : pg.ColumnInput) (rt : handlers.Runtime)
  (steps : list (main.HandlerFunc * http.Request)) (db : pg.DB) :
  Forall (fun step => main.registered (fst step)) steps ->
  pg.valid db ->
  let after := main.served steps db in
  pg.sequences_le db after
  /\ (forall c, In c (pg.customer db) ->
                database.Customer_ID c <= pg.customer_id_seq after)
  /\ (forall p, In p (pg.product db) -> pg.product_id p <= pg.product_id_seq after)
  /\ (forall i, In i (pg.invoice db) -> database.Invoice_ID i <= pg.invoice_id_seq after)
  /\ (forall it, In it (pg.invoice_item db) ->
                 database.InvoiceItem_ID it <= pg.invoice_item_id_seq after).
Proof.
  intros Hsteps ((Hkc & Hkp & Hki & Hkt) & _) after.
  pose proof (served_seqs steps db Hsteps) as Hle. fold after in Hle.
  split; [exact Hle|]. destruct Hle as (Hc & Hp & Hi & Ht).
  repeat split; intros x Hx.
  - pose proof (keys_below _ _ _ x Hkc Hx). lia.
  - pose proof (keys_below _ _ _ x Hkp Hx). lia.
  - pose proof (keys_below _ _ _ x Hki Hx). lia.
  - pose proof (keys_below _ _ _ x Hkt Hx). lia.
Qed.

Lemma ids_are_not_reused_witness :
  let CQ := @pg.Customers mock.columns in
  let after :=
    main.served
      [ (handlers.CustomerHandler (Q := CQ) (rt := mock.decoders),
         mock.request "DELETE" "/api/v1/customers/1" "");
        (handlers.CustomersHandler (Q := CQ) (rt := mock.decoders),
         mock.request "POST" "/api/v1/customers" "Ann|Lee") ]
      mock.oneCustomer in
  pg.customer after
  = [ {| database.Customer_ID := 2; database.Customer_FirstName := "Ann";
         database.Customer_LastName := "Lee"; database.Customer_CreatedAt := 0;
         database.Customer_UpdatedAt := 0 |} ]
  /\ database.Customer_ID mock.jarred <= pg.customer_id_seq after.
Proof.
  intros CQ after. split; [reflexivity|].
  refine (proj1 (proj2 (ids_are_not_reused mock.columns mock.decoders _
                          mock.oneCustomer _ valid_oneCustomer)) mock.jarred _).
  - repeat constructor.
    + exists 0, (config.CustomersApiPrefix ++ "/"). simpl. do 3 right. left. reflexivity.
    + exists 0, config.CustomersApiPrefix. simpl. right; right; left. reflexivity.
  - simpl. now left.
Defined.

(** ** Updating a product *)

Section ProductPatch.

Context {ci : pg.ColumnInput} {rt : handlers.Runtime}.

Variables (patch : http.Request) (db : pg.DB) (id : Z)
  (req : handlers.updateProductRequest) (name : string) (description : option string)
  (price : pg.numeric).

Hypothesis Hpatch : http.Method patch = http.MethodPatch.
Hypothesis Hid : utils.ExtractTrailingID (http.URL_Path patch) = Some id.
Hypothesis Hdec : handlers.decodeUpdateProduct (http.Body patch) = Some req.
Hypothesis Hchecked : handlers.updateProductInvalid req = None.
Hypothesis Hname : pg.varchar 100 (handlers.updateProduct_Name req) = inl name.
Hypothesis Hdescription :
  pg.descriptionInput
    {| sql.NullString_String := handlers.updateProduct_Description req;
       sql.NullString_Valid := negb (handlers.updateProduct_Description req == "") |}
  = inl description.
Hypothesis Hprice : pg.numeric_10_2 (handlers.updateProduct_Price req) = inl price.

Lemma updateProductInvalid_items :
  (handlers.updateProduct_AvailableItems req <? 0) = false.
Proof.
  unfold handlers.updateProductInvalid in Hchecked.
  destruct (_ == ""); [discriminate|]. destruct (_ == ""); [discriminate|].
  destruct (handlers.ParseFloat_err _); [discriminate|].
  now destruct (_ <? 0).
Qed.

Lemma ProductHandler_patch :
  handlers.ProductHandler patch db
  = match pg.find_by pg.product_id (int32 id) (pg.product db) with
    | None => (http.Error "Product not found" http.StatusNotFound, db)
    | Some old =>
        if negb (pg.numeric_ge0 price) then
          (http.Error config.InternalServerErrorMsg http.StatusInternalServerError, db)
        else
          let row :=
            {| pg.product_id := pg.product_id old; pg.product_name := name;
               pg.product_description := description; pg.product_price := price;
               pg.product_available_items := handlers.updateProduct_AvailableItems req;
               pg.product_created_at := pg.product_created_at old;
               pg.product_updated_at := pg.product_updated_at old |} in
          (handlers.writeServerResponse http.StatusOK
             (handlers.toProductResponse (pg.scanProduct row)),
           pg.set_product db
             (pg.update_by pg.product_id (int32 id) (fun _ => row) (pg.product db))
             (pg.product_id_seq db))
    end.
Proof.
  unfold handlers.ProductHandler.
  rewrite Hid, Hpatch, Hdec, Hchecked. cbn [String.eqb Ascii.eqb Bool.eqb].
  cbn [database.UpdateProduct pg.Products].
  unfold pg.UpdateProduct, pg.input.
  cbn [database.UpdateProduct_Name database.UpdateProduct_Description
         database.UpdateProduct_Price database.UpdateProduct_AvailableItems
         database.UpdateProduct_ID].
  rewrite Hname, Hdescription, Hprice.
  destruct (pg.find_by pg.product_id (int32 id) (pg.product db)); [|reflexivity].
  unfold pg.product_check. rewrite updateProductInvalid_items.
  now destruct (pg.numeric_ge0 price).
Qed.

End ProductPatch.

Lemma ProductHandler_get {ci : pg.ColumnInput} {rt : handlers.Runtime}
  (get : http.Request) (db : pg.DB) (id : Z) :
  http.Method get = http.MethodGet ->
  utils.ExtractTrailingID (http.URL_Path get) = Some id ->
  handlers.ProductHandler get db
  = (match pg.find_by pg.product_id (int32 id) (pg.product db) with
     | None => http.Error "Product not found" http.StatusNotFound
     | Some row =>
         handlers.writeServerResponse http.StatusOK
           (handlers.toProductResponse (pg.scanProduct row))
     end, db).
Proof.
  intros Hget Hid. unfold handlers.ProductHandler. rewrite Hid, Hget.
  cbn. unfold pg.GetProduct. now destruct (pg.find_by _ _ _).
Qed.

(** X22: PATCH /products/{id} with a body that passes the handler's checks
    and values the columns read as [name], [description] and [price]. No
    product of that id: 404. A product of that id and a negative price:
    500 (POST /products answers 400 for the same price), nothing changes.
    Otherwise (a price that is not negative, or NaN) 200 with the id, the
    new values and the price as the column prints it; a GET of the same id
    then answers that body and a GET of any other id answers as before. *)
Theorem product_update_outcomes
  (ci : pg.ColumnInput) (rt : handlers.Runtime) (patch : http.Request) (db : pg.DB)
  (id : Z) (req : handlers.updateProductRequest) (name : string)
  (description : option string) (price : pg.numeric) :
  http.Method patch = http.MethodPatch ->
  utils.ExtractTrailingID (http.URL_Path patch) = Some id ->
  handlers.decodeUpdateProduct (http.Body patch) = Some req ->
  handlers.updateProductInvalid req = None ->
  pg.varchar 100 (handlers.updateProduct_Name req) = inl name ->
  pg.descriptionInput
    {| sql.NullString_String := handlers.updateProduct_Description req;
       sql.NullString_Valid := negb (handlers.updateProduct_Description req == "") |}
  = inl description ->
  pg.numeric_10_2 (handlers.updateProduct_Price req) = inl price ->
  let found := pg.exists_by pg.product_id (int32 id) (pg.product db) in
  let answer :=
    {| handlers.productResponse_ID := int32 id;
       handlers.productResponse_Name := name;
       handlers.productResponse_Description :=
         match description with Some d => d | None => "" end;
       handlers.productResponse_Price :=
         match price with pg.Num n => pg.numeric_out n | pg.NaN => "NaN" end;
       handlers.productResponse_AvailableItems :=
         handlers.updateProduct_AvailableItems req |} in
  let after := snd (handlers.ProductHandler patch db) in
  (found = false ->
   handlers.ProductHandler patch db
   = (http.Error "Product not found" http.StatusNotFound, db))
  /\ (found = true -> (exists n, price = pg.Num n /\ n < 0) ->
      handlers.ProductHandler patch db
      = (http.Error config.InternalServerErrorMsg http.StatusInternalServerError, db))
  /\ (found = true -> (forall n, price = pg.Num n -> 0 <= n) ->
      fst (handlers.ProductHandler patch db)
      = handlers.writeServerResponse http.StatusOK answer
      /\ 0 <= handlers.updateProduct_AvailableItems req
      /\ forall get id',
           http.Method get = http.MethodGet ->
           utils.ExtractTrailingID (http.URL_Path get) = Some id' ->
           handlers.ProductHandler get after
           = (if int32 id' =? int32 id
              then handlers.writeServerResponse http.StatusOK answer
              else fst (handlers.ProductHandler get db),
              after)).
Proof.
  intros Hpatch Hid Hdec Hchecked Hname Hdescription Hprice found answer after.
  subst after.
  rewrite (ProductHandler_patch patch db id req name description price) by assumption.
  destruct (pg.find_by pg.product_id (int32 id) (pg.product db)) as [old|] eqn:Hfind.
  - assert (Hfound : found = true).
    { subst found. destruct (pg.exists_by _ _ (pg.product db)) eqn:E; [reflexivity|].
      apply find_by_none_exists in E. congruence. }
    pose proof (find_by_key _ _ _ _ Hfind) as (_ & Hold).
    assert (Hanswer : forall created updated,
              handlers.toProductResponse
                (pg.scanProduct
                   {| pg.product_id := pg.product_id old; pg.product_name := name;
                      pg.product_description := description; pg.product_price := price;
                      pg.product_available_items :=
                        handlers.updateProduct_AvailableItems req;
                      pg.product_created_at := created;
                      pg.product_updated_at := updated |}) = answer).
    { intros created updated. unfold handlers.toProductResponse, pg.scanProduct, answer.
      cbn. rewrite Hold. now destruct description. }
    split; [congruence|]. split.
    + intros _ (n & -> & Hneg). cbn [pg.numeric_ge0].
      now rewrite (proj2 (Z.leb_gt _ _) Hneg).
    + intros _ Hpos.
      assert (Hge : pg.numeric_ge0 price = true).
      { destruct price as [n|]; [|reflexivity]. cbn. apply Z.leb_le. now apply Hpos. }
      rewrite Hge. cbn [negb fst snd].
      split; [now rewrite Hanswer|]. split.
      * pose proof (updateProductInvalid_items req Hchecked) as Hitems.
        now apply Z.ltb_ge in Hitems.
      * intros get id' Hget Hid'.
        rewrite !(ProductHandler_get get _ id') by assumption.
        cbn [pg.product pg.set_product fst]. f_equal.
        destruct (Z.eqb_spec (int32 id') (int32 id)) as [E|E].
        -- rewrite E, (find_by_update_same _ _ _ old) by (cbn; auto).
           now rewrite Hanswer.
        -- now rewrite find_by_update_other by (cbn; auto).
  - assert (Hfound : found = false) by (now apply find_by_none_exists).
    split; [reflexivity|]. split; congruence.
Qed.

Lemma product_update_outcomes_witness :
  let PQ := @pg.Products mock.columns in
  handlers.ProductHandler (Q := PQ) (rt := mock.decoders)
    (mock.request "PATCH" "/api/v1/products/1" "Pen||-3|10") mock.oneProduct
  = (http.Error "Internal server error" 500, mock.oneProduct)
  /\ fst (handlers.ProductHandler (Q := PQ) (rt := mock.decoders)
            (mock.request "PATCH" "/api/v1/products/1" "Pen||3|10") mock.oneProduct)
     = handlers.writeServerResponse 200
         {| handlers.productResponse_ID := 1;
            handlers.productResponse_Name := "Pen";
            handlers.productResponse_Description := "";
            handlers.productResponse_Price := "3.00";
            handlers.productResponse_AvailableItems := 10 |}
  /\ fst (handlers.ProductHandler (Q := PQ) (rt := mock.decoders)
            (mock.request "PATCH" "/api/v1/products/1" "Pen||NaN|10") mock.oneProduct)
     = handlers.writeServerResponse 200
         {| handlers.productResponse_ID := 1;
            handlers.productResponse_Name := "Pen";
            handlers.productResponse_Description := "";
            handlers.productResponse_Price := "NaN";
            handlers.productResponse_AvailableItems := 10 |}.
Proof.
  intros PQ. split; [|split].
  - refine (proj1 (proj2 (product_update_outcomes mock.columns mock.decoders
                            (mock.request "PATCH" "/api/v1/products/1" "Pen||-3|10")
                            mock.oneProduct 1 _ "Pen" None (pg.Num (-300))
                            eq_refl eq_refl eq_refl eq_refl eq_refl eq_refl eq_refl))
              eq_refl _).
    exists (-300). split; [reflexivity|lia].
  - refine (proj1 (proj2 (proj2 (product_update_outcomes mock.columns mock.decoders
                            (mock.request "PATCH" "/api/v1/products/1" "Pen||3|10")
                            mock.oneProduct 1 _ "Pen" None (pg.Num 300)
                            eq_refl eq_refl eq_refl eq_refl eq_refl eq_refl eq_refl))
              eq_refl _)).
    intros n Hn. injection Hn as <-. lia.
  - refine (proj1 (proj2 (proj2 (product_update_outcomes mock.columns mock.decoders
                            (mock.request "PATCH" "/api/v1/products/1" "Pen||NaN|10")
                            mock.oneProduct 1 _ "Pen" None pg.NaN
                            eq_refl eq_refl eq_refl eq_refl eq_refl eq_refl eq_refl))
              eq_refl _)).
    intros n Hn. discriminate Hn.
Defined.

(** ** Deleting, then fetching *)

Lemma find_by_delete {A} (key : A -> Z) (id id' : Z) (rows : list A) :
  pg.find_by key id' (pg.delete_by key id rows)
  = if id' =? id then None else pg.find_by key id' rows.
Proof.
  unfold pg.find_by, pg.delete_by. induction rows as [|x rows IH]; simpl.
  - now destruct (id' =? id).
  - destruct (Z.eqb_spec (key x) id) as [E|E]; simpl.
    + rewrite IH. destruct (Z.eqb_spec id' id) as [E'|E']; [reflexivity|].
      destruct (Z.eqb_spec (key x) id'); [congruence|reflexivity].
    + destruct (Z.eqb_spec (key x) id') as [E'|E'].
      * destruct (Z.eqb_spec id' id); [congruence|reflexivity].
      * exact IH.
Qed.

Section Deleted.

Context {ci : pg.ColumnInput} {rt : handlers.Runtime}.

Lemma CustomerHandler_deleted (del : http.Request) (db : pg.DB) (id : Z) :
  http.Method del = http.MethodDelete ->
  utils.ExtractTrailingID (http.URL_Path del) = Some id ->
  http.StatusCode (fst (handlers.CustomerHandler del db)) = http.StatusNoContent ->
  snd (handlers.CustomerHandler del db)
  = pg.set_customer db (pg.delete_by database.Customer_ID (int32 id) (pg.customer db))
      (pg.customer_id_seq db).
Proof.
  intros Hdel Hid. unfold handlers.CustomerHandler. rewrite Hid, Hdel. cbn.
  rewrite DeleteCustomer_outcomes.
  destruct (pg.exists_by _ _ (pg.customer db)); cbn; [|discriminate].
  destruct (pg.exists_by _ _ (pg.invoice db)); cbn; [discriminate|reflexivity].
Qed.

Lemma ProductHandler_deleted (del : http.Request) (db : pg.DB) (id : Z) :
  http.Method del = http.MethodDelete ->
  utils.ExtractTrailingID (http.URL_Path del) = Some id ->
  http.StatusCode (fst (handlers.ProductHandler del db)) = http.StatusNoContent ->
  snd (handlers.ProductHandler del db)
  = pg.set_product db (pg.delete_by pg.product_id (int32 id) (pg.product db))
      (pg.product_id_seq db).
Proof.
  intros Hdel Hid. unfold handlers.ProductHandler. rewrite Hid, Hdel. cbn.
  rewrite DeleteProduct_outcomes.
  destruct (pg.exists_by _ _ (pg.product db)); cbn; [|discriminate].
  destruct (pg.exists_by _ _ (pg.invoice_item db)); cbn; [discriminate|reflexivity].
Qed.

Lemma InvoiceHandler_deleted (del : http.Request) (db : pg.DB) (pre : list string)
  (sid : string) (id : Z) :
  http.Method del = http.MethodDelete ->
  ~ In "invoices" pre ->
  handlers.pathSegments (http.URL_Path del) = (pre ++ ["invoices"; sid])%list ->
  strconv.Atoi sid = Some id ->
  http.StatusCode (fst (handlers.InvoiceHandler del db)) = http.StatusNoContent ->
  snd (handlers.InvoiceHandler del db)
  = pg.set_invoice db (pg.delete_by database.Invoice_ID (int32 id) (pg.invoice db))
      (pg.invoice_id_seq db).
Proof.
  intros Hdel Hpre Hseg Hid.
  rewrite (route_invoice del pre Hpre sid [] db Hseg) by discriminate.
  rewrite Hid. unfold handlers.invoiceOnly. rewrite Hdel. cbn.
  rewrite DeleteInvoice_outcomes.
  destruct (pg.exists_by _ _ (pg.invoice db)); cbn; [|discriminate].
  destruct (pg.exists_by _ _ (pg.invoice_item db)); cbn; [discriminate|reflexivity].
Qed.

Lemma InvoiceHandler_get (get : http.Request) (db : pg.DB) (pre : list string)
  (sid : string) (id : Z) :
  http.Method get = http.MethodGet ->
  ~ In "invoices" pre ->
  handlers.pathSegments (http.URL_Path get) = (pre ++ ["invoices"; sid])%list ->
  strconv.Atoi sid = Some id ->
  handlers.InvoiceHandler get db
  = (match pg.find_by database.Invoice_ID (int32 id) (pg.invoice db) with
     | None => http.Error "Invoice not found" http.StatusNotFound
     | Some inv => handlers.writeServerResponse http.StatusOK (handlers.toInvoiceResponse inv)
     end, db).
Proof.
  intros Hget Hpre Hseg Hid.
  rewrite (route_invoice get pre Hpre sid [] db Hseg) by discriminate.
  rewrite Hid. unfold handlers.invoiceOnly. rewrite Hget.
  cbn. unfold pg.GetInvoice. now destruct (pg.find_by _ _ _).
Qed.

End Deleted.

(** X23: once DELETE /customers/{id}, DELETE /products/{id} or
    DELETE /invoices/{id} has answered 204, a GET of that id answers 404
    and a GET of any other id answers what it answered before the
    delete. *)
Theorem deleted_is_gone
  (ci : pg.ColumnInput) (rt : handlers.Runtime) (del : http.Request) (db : pg.DB) :
  http.Method del = http.MethodDelete ->
  (forall id get id',
      utils.ExtractTrailingID (http.URL_Path del) = Some id ->
      http.StatusCode (fst (handlers.CustomerHandler del db)) = http.StatusNoContent ->
      http.Method get = http.MethodGet ->
      utils.ExtractTrailingID (http.URL_Path get) = Some id' ->
      handlers.CustomerHandler get (snd (handlers.CustomerHandler del db))
      = (if int32 id' =? int32 id
         then http.Error "Customer not found" http.StatusNotFound
         else fst (handlers.CustomerHandler get db),
         snd (handlers.CustomerHandler del db)))
  /\ (forall id get id',
      utils.ExtractTrailingID (http.URL_Path del) = Some id ->
      http.StatusCode (fst (handlers.ProductHandler del db)) = http.StatusNoContent ->
      http.Method get = http.MethodGet ->
      utils.ExtractTrailingID (http.URL_Path get) = Some id' ->
      handlers.ProductHandler get (snd (handlers.ProductHandler del db))
      = (if int32 id' =? int32 id
         then http.Error "Product not found" http.StatusNotFound
         else fst (handlers.ProductHandler get db),
         snd (handlers.ProductHandler del db)))
  /\ (forall pre sid id get pre' sid' id',
      ~ In "invoices" pre ->
      handlers.pathSegments (http.URL_Path del) = (pre ++ ["invoices"; sid])%list ->
      strconv.Atoi sid = Some id ->
      http.StatusCode (fst (handlers.InvoiceHandler del db)) = http.StatusNoContent ->
      http.Method get = http.MethodGet ->
      ~ In "invoices" pre' ->
      handlers.pathSegments (http.URL_Path get) = (pre' ++ ["invoices"; sid'])%list ->
      strconv.Atoi sid' = Some id' ->
      handlers.InvoiceHandler get (snd (handlers.InvoiceHandler del db))
      = (if int32 id' =? int32 id
         then http.Error "Invoice not found" http.StatusNotFound
         else fst (handlers.InvoiceHandler get db),
         snd (handlers.InvoiceHandler del db))).
Proof.
  intros Hdel. split; [|split].
  - intros id get id' Hid Hstatus Hget Hid'.
    rewrite (CustomerHandler_deleted del db id Hdel Hid Hstatus).
    rewrite !(CustomerHandler_get get _ id') by assumption.
    cbn [pg.customer pg.set_customer fst]. rewrite find_by_delete.
    now destruct (int32 id' =? int32 id).
  - intros id get id' Hid Hstatus Hget Hid'.
    rewrite (ProductHandler_deleted del db id Hdel Hid Hstatus).
    rewrite !(ProductHandler_get get _ id') by assumption.
    cbn [pg.product pg.set_product fst]. rewrite find_by_delete.
    now destruct (int32 id' =? int32 id).
  - intros pre sid id get pre' sid' id' Hpre Hseg Hid Hstatus Hget Hpre' Hseg' Hid'.
    rewrite (InvoiceHandler_deleted del db pre sid id Hdel Hpre Hseg Hid Hstatus).
    rewrite !(InvoiceHandler_get get _ pre' sid' id') by assumption.
    cbn [pg.invoice pg.set_invoice fst]. rewrite find_by_delete.
    now destruct (int32 id' =? int32 id).
Qed.

Lemma deleted_is_gone_witness :
  let PQ := @pg.Products mock.columns in
  let del := mock.request "DELETE" "/api/v1/products/1" "" in
  let after := snd (handlers.ProductHandler (Q := PQ) (rt := mock.decoders)
                      del mock.oneProduct) in
  handlers.ProductHandler (Q := PQ) (rt := mock.decoders)
    (mock.request "GET" "/api/v1/products/1" "") after
  = (http.Error "Product not found" 404, after).
Proof.
  intros PQ del after.
  exact (proj1 (proj2 (deleted_is_gone mock.columns mock.decoders del mock.oneProduct
                         eq_refl))
           1 (mock.request "GET" "/api/v1/products/1" "") 1
           eq_refl eq_refl eq_refl eq_refl).
Defined.

(** ** Fetching by id *)

Lemma find_by_unique {A} (key : A -> Z) (rows : list A) (row : A) :
  NoDup (map key rows) -> In row rows -> pg.find_by key (key row) rows = Some row.
Proof.
  intros Hd Hin. destruct (pg.find_by key (key row) rows) as [x|] eqn:Hfind.
  - apply find_by_key in Hfind as (Hx & E). f_equal. now apply (key_inj key rows).
  - apply find_by_none_exists in Hfind.
    pose proof (proj1 (exists_by_false _ _ _) Hfind row Hin). congruence.
Qed.

(** X24: GET /customers/{id}, GET /products/{id} and GET /invoices/{id} on
    tables that satisfy the constraints: when a row of the table has the id
    [int32(id)] the answer is 200 with that row (for a product the price as
    the column prints it, two decimals or NaN, and the empty string for a
    NULL description), when none has it the answer is 404; the database is
    left as it is. *)
Theorem get_by_id_outcomes
  (ci : pg.ColumnInput) (rt : handlers.Runtime) (get : http.Request) (db : pg.DB) :
  http.Method get = http.MethodGet ->
  pg.valid db ->
  (forall id,
      utils.ExtractTrailingID (http.URL_Path get) = Some id ->
      (forall c, In c (pg.customer db) -> database.Customer_ID c = int32 id ->
                 handlers.CustomerHandler get db
                 = (handlers.writeServerResponse http.StatusOK
                      (handlers.toCustomerResponse c), db))
      /\ ((forall c, In c (pg.customer db) -> database.Customer_ID c <> int32 id) ->
          handlers.CustomerHandler get db
          = (http.Error "Customer not found" http.StatusNotFound, db))
      /\ (forall p, In p (pg.product db) -> pg.product_id p = int32 id ->
                    handlers.ProductHandler get db
                    = (handlers.writeServerResponse http.StatusOK
                         (handlers.toProductResponse (pg.scanProduct p)), db)
                    /\ handlers.productResponse_Price
                         (handlers.toProductResponse (pg.scanProduct p))
                       = match pg.product_price p with
                         | pg.Num n => pg.numeric_out n
                         | pg.NaN => "NaN"
                         end
                    /\ handlers.productResponse_Description
                         (handlers.toProductResponse (pg.scanProduct p))
                       = match pg.product_description p with
                         | Some d => d
                         | None => ""
                         end)
      /\ ((forall p, In p (pg.product db) -> pg.product_id p <> int32 id) ->
          handlers.ProductHandler get db
          = (http.Error "Product not found" http.StatusNotFound, db)))
  /\ (forall pre sid id,
      ~ In "invoices" pre ->
      handlers.pathSegments (http.URL_Path get) = (pre ++ ["invoices"; sid])%list ->
      strconv.Atoi sid = Some id ->
      (forall i, In i (pg.invoice db) -> database.Invoice_ID i = int32 id ->
                 handlers.InvoiceHandler get db
                 = (handlers.writeServerResponse http.StatusOK
                      (handlers.toInvoiceResponse i), db))
      /\ ((forall i, In i (pg.invoice db) -> database.Invoice_ID i <> int32 id) ->
          handlers.InvoiceHandler get db
          = (http.Error "Invoice not found" http.StatusNotFound, db))).
Proof.
  intros Hget ((Hkc & Hkp & Hki & _) & _).
  destruct Hkc as (Hdc & _), Hkp as (Hdp & _), Hki as (Hdi & _).
  split.
  - intros id Hid. split; [|split; [|split]].
    + intros c Hc E. apply (GetCustomer_row get db id); auto.
      rewrite <- E. now apply find_by_unique.
    + intros Hnone. apply (GetCustomer_none get db id); auto.
      now apply find_by_none_exists, exists_by_false.
    + intros p Hp E. split; [|split].
      * apply (GetProduct_row get db id); auto.
        rewrite <- E. now apply find_by_unique.
      * reflexivity.
      * cbn. now destruct (pg.product_description p).
    + intros Hnone. apply (GetProduct_none get db id); auto.
      now apply find_by_none_exists, exists_by_false.
  - intros pre sid id Hpre Hseg Hid. split.
    + intros i Hi E. apply (GetInvoice_row get db pre sid id); auto.
      rewrite <- E. now apply find_by_unique.
    + intros Hnone. apply (GetInvoice_none get db pre sid id); auto.
      now apply find_by_none_exists, exists_by_false.
Qed.

Lemma get_by_id_outcomes_witness :
  let CQ := @pg.Customers mock.columns in
  let PQ := @pg.Products mock.columns in
  handlers.CustomerHandler (Q := CQ) (rt := mock.decoders)
    (mock.request "GET" "/api/v1/x/1" "") mock.oneProduct
  = (handlers.writeServerResponse 200 (handlers.toCustomerResponse mock.jarred),
     mock.oneProduct)
  /\ handlers.ProductHandler (Q := PQ) (rt := mock.decoders)
       (mock.request "GET" "/api/v1/x/1" "") mock.oneProduct
     = (handlers.writeServerResponse 200
          {| handlers.productResponse_ID := 1;
             handlers.productResponse_Name := "Mouse";
             handlers.productResponse_Description := "";
             handlers.productResponse_Price := "222.00";
             handlers.productResponse_AvailableItems := 22 |}, mock.oneProduct)
  /\ handlers.ProductHandler (Q := PQ) (rt := mock.decoders)
       (mock.request "GET" "/api/v1/products/1" "") mock.unpricedLine
     = (handlers.writeServerResponse 200
          {| handlers.productResponse_ID := 1;
             handlers.productResponse_Name := "Mouse";
             handlers.productResponse_Description := "";
             handlers.productResponse_Price := "NaN";
             handlers.productResponse_AvailableItems := 22 |}, mock.unpricedLine).
Proof.
  intros CQ PQ.
  destruct (proj1 (get_by_id_outcomes mock.columns mock.decoders
                     (mock.request "GET" "/api/v1/x/1" "") mock.oneProduct
                     eq_refl valid_oneProduct) 1 eq_refl)
    as (Hc & _ & Hp & _).
  destruct (proj1 (get_by_id_outcomes mock.columns mock.decoders
                     (mock.request "GET" "/api/v1/products/1" "") mock.unpricedLine
                     eq_refl valid_unpricedLine) 1 eq_refl)
    as (_ & _ & Hn & _).
  split; [|split].
  - apply (Hc mock.jarred); [simpl; now left|reflexivity].
  - apply (Hp mock.mouse); [simpl; now left|reflexivity].
  - apply (Hn mock.unpriced); [simpl; now left|reflexivity].
Defined.

(** ** Bodies that are refused before the store is called *)

(** X25: whatever the store, a body that the JSON decoder rejects is
    answered with 400 "An error occurred while parsing the input JSON" by
    every POST and PATCH, and the store is not called; on /products/{id}
    and /customers/{id} the id of the path is read before the body. *)
Theorem undecodable_body_refused
  (S : Type) (PQ : database.ProductQueries S) (CQ : database.CustomerQueries S)
  (IQ : database.InvoiceQueries S) (rt : handlers.Runtime)
  (now : time.Time) (r : http.Request) (s : S) :
  let refused := (handlers.writeServerParseError, s) in
  (http.Method r = http.MethodPost ->
   (handlers.decodeCreateProduct (http.Body r) = None ->
    handlers.ProductsHandler r s = refused)
   /\ (handlers.decodeCreateCustomer (http.Body r) = None ->
       handlers.CustomersHandler r s = refused)
   /\ (handlers.decodeCreateInvoice (http.Body r) = None ->
       handlers.InvoicesHandler now r s = refused)
   /\ (forall pre sid spid id pid,
         ~ In "invoices" pre ->
         handlers.pathSegments (http.URL_Path r)
         = (pre ++ ["invoices"; sid; "products"; spid])%list ->
         strconv.Atoi sid = Some id ->
         strconv.Atoi spid = Some pid ->
         handlers.decodeCreateInvoiceItem (http.Body r) = None ->
         handlers.InvoiceHandler r s = refused))
  /\ (http.Method r = http.MethodPatch ->
      (forall id, utils.ExtractTrailingID (http.URL_Path r) = Some id ->
         (handlers.decodeUpdateProduct (http.Body r) = None ->
          handlers.ProductHandler r s = refused)
         /\ (handlers.decodeUpdateCustomer (http.Body r) = None ->
             handlers.CustomerHandler r s = refused))
      /\ (forall pre sid id,
            ~ In "invoices" pre ->
            handlers.pathSegments (http.URL_Path r) = (pre ++ ["invoices"; sid])%list ->
            strconv.Atoi sid = Some id ->
            handlers.decodeUpdateInvoice (http.Body r) = None ->
            handlers.InvoiceHandler r s = refused)).
Proof.
  intros refused. split.
  - intros Hpost. split; [|split; [|split]].
    + intros Hdec. unfold handlers.ProductsHandler. now rewrite Hpost, Hdec.
    + intros Hdec. unfold handlers.CustomersHandler. now rewrite Hpost, Hdec.
    + intros Hdec. unfold handlers.InvoicesHandler. now rewrite Hpost, Hdec.
    + intros pre sid spid id pid Hpre Hseg Hid Hpid Hdec.
      rewrite (route_item r pre Hpre sid spid s Hseg), Hid, Hpid, Hpost.
      cbn [String.eqb Ascii.eqb Bool.eqb]. unfold handlers.addInvoiceProduct.
      now rewrite Hdec.
  - intros Hpatch. split.
    + intros id Hid. split; intros Hdec.
      * unfold handlers.ProductHandler. now rewrite Hid, Hpatch, Hdec.
      * unfold handlers.CustomerHandler. now rewrite Hid, Hpatch, Hdec.
    + intros pre sid id Hpre Hseg Hid Hdec.
      rewrite (route_invoice r pre Hpre sid [] s Hseg), Hid by discriminate.
      unfold handlers.invoiceOnly. now rewrite Hpatch, Hdec.
Qed.

Lemma undecodable_body_refused_witness :
  let PQ := mock.Products NilSlice pg.zeroProduct "success" None in
  let CQ := mock.Customers NilSlice pg.zeroCustomer "success" None in
  handlers.ProductsHandler (Q := PQ) (rt := mock.decoders)
    (mock.request "POST" "/api/v1/products" "Pen") 0%nat
  = (http.Error "An error occurred while parsing the input JSON" 400, 0%nat)
  /\ handlers.CustomerHandler (Q := CQ) (rt := mock.decoders)
       (mock.request "PATCH" "/api/v1/customers/1" "Ann") 0%nat
     = (http.Error "An error occurred while parsing the input JSON" 400, 0%nat).
Proof.
  intros PQ CQ.
  pose (IQ := mock.Invoices NilSlice pg.zeroInvoice NilSlice pg.zeroInvoiceItem
                "success" None).
  split.
  - exact (proj1 (proj1 (undecodable_body_refused nat PQ CQ IQ mock.decoders 0
                           (mock.request "POST" "/api/v1/products" "Pen") 0%nat)
                    eq_refl) eq_refl).
  - exact (proj2 (proj1 (proj2 (undecodable_body_refused nat PQ CQ IQ mock.decoders 0
                           (mock.request "PATCH" "/api/v1/customers/1" "Ann") 0%nat)
                    eq_refl) 1 eq_refl) eq_refl).
Defined.

(** X2: whatever the store, PATCH /invoices/{id} answers 400 without
    calling the store when the invoice number is empty after trimming, when
    the invoice date is the zero time (POST /invoices takes the current
    time then) and when customer_id is not positive, in this order. *)
Theorem invoice_update_checks
  (S : Type) (IQ : database.InvoiceQueries S) (rt : handlers.Runtime)
  (r : http.Request) (s : S) (pre : list string) (sid : string) (id : Z)
  (req : handlers.updateInvoiceRequest) :
  http.Method r = http.MethodPatch ->
  ~ In "invoices" pre ->
  handlers.pathSegments (http.URL_Path r) = (pre ++ ["invoices"; sid])%list ->
  strconv.Atoi sid = Some id ->
  handlers.decodeUpdateInvoice (http.Body r) = Some req ->
  let number_blank := strings.TrimSpace (handlers.updateInvoice_InvoiceNumber req) = "" in
  let date_zero := time.IsZero (handlers.updateInvoice_InvoiceDate req) = true in
  (number_blank ->
   handlers.InvoiceHandler r s
   = (http.Error "invoice_number must not be empty" http.StatusBadRequest, s))
  /\ (~ number_blank -> date_zero ->
      handlers.InvoiceHandler r s
      = (http.Error "invoice_date must be provided" http.StatusBadRequest, s))
  /\ (~ number_blank -> ~ date_zero -> handlers.updateInvoice_CustomerID req <= 0 ->
      handlers.InvoiceHandler r s
      = (http.Error "customer_id should be a positive number" http.StatusBadRequest, s)).
Proof.
  intros Hpatch Hpre Hseg Hid Hdec number_blank date_zero.
  rewrite (route_invoice r pre Hpre sid [] s Hseg), Hid by discriminate.
  unfold handlers.invoiceOnly. rewrite Hpatch, Hdec.
  cbn [String.eqb Ascii.eqb Bool.eqb].
  split; [|split].
  - intros ->. reflexivity.
  - intros Hnum ->. apply streq_false in Hnum. now rewrite Hnum.
  - intros Hnum Hdate Hcust. apply streq_false in Hnum. rewrite Hnum.
    destruct (time.IsZero _); [now exfalso; apply Hdate|].
    now rewrite (proj2 (Z.leb_le _ _) Hcust).
Qed.

Lemma invoice_update_checks_witness :
  let IQ := mock.Invoices NilSlice pg.zeroInvoice NilSlice pg.zeroInvoiceItem
              "success" None in
  handlers.InvoiceHandler (Q := IQ) (rt := mock.decoders)
    (mock.request "PATCH" "/api/v1/invoices/1" "INV-1|0|1") 0%nat
  = (http.Error "invoice_date must be provided" 400, 0%nat).
Proof.
  intros IQ.
  assert (Hpre : ~ In "invoices" ["api"; "v1"]).
  { simpl. intros [H|[H|[]]]; discriminate H. }
  refine (proj1 (proj2 (invoice_update_checks nat IQ mock.decoders
                          (mock.request "PATCH" "/api/v1/invoices/1" "INV-1|0|1") 0%nat
                          ["api"; "v1"] "1" 1 _ eq_refl Hpre eq_refl eq_refl eq_refl))
            _ eq_refl).
  vm_compute. discriminate.
Defined.
